(** * Philips CoAP air purifiers: the device-model layer

    A shallow embedding of the capability registry, the state projections,
    the command translator, the filter alert sensor and the model
    resolution of the config flow, with the properties the specification
    states about them.

    Python data is modelled as follows.
    - A raw value of the device status is a string, an integer or [None]
      ([value]); [==] on such values is Leibniz equality (["1" == 1] is
      false in Python).  Floating point values in the status are outside
      the model; the one float computation of the code, the filter
      percentage, is carried out in binary64.
    - [dict] literals whose iteration order is observable (capability
      tables, patterns, attribute output) are association lists in
      insertion order with Python's update discipline ([dict_set] keeps the
      position of an existing key).
    - The status store (coordinator.status) is a [gmap string value]: only
      lookup, membership and update are ever used on it.
    - Methods that touch the transport or the store run in a small state
      monad with exceptions ([state_exn]); the client is modelled by the
      log of the calls made on it. *)

From Stdlib Require Import ZArith Lia Ascii String.
From Stdlib Require SpecFloat.
From stdpp Require Import base option list strings gmap.

Local Open Scope string_scope.
Local Open Scope list_scope.

(** ** Python values *)

Inductive value : Type :=
  | VNone
  | VStr (s : string)
  | VInt (n : Z).

#[global] Instance value_eq_dec : EqDecision value.
Proof. solve_decision. Defined.

(** [bool(v)] *)
Definition truthy (v : value) : bool :=
  match v with
  | VNone => false
  | VStr s => negb (bool_decide (s = ""))
  | VInt n => negb (bool_decide (n = 0%Z))
  end.

Inductive exn : Type :=
  | ValueError | TypeError | IndexError | KeyError | AttributeError | StopIteration
  | OverflowError.

Inductive outcome (A : Type) : Type :=
  | Return (a : A)
  | Raise (e : exn).
Arguments Return {A} a.
Arguments Raise {A} e.

(** ** Insertion-ordered dictionaries *)

Definition dict (V : Type) : Type := list (string * V).

Fixpoint dict_get {V} (d : dict V) (k : string) : option V :=
  match d with
  | [] => None
  | (k', v) :: rest => if decide (k' = k) then Some v else dict_get rest k
  end.

(** [d[k] = v]: an existing key keeps its position, a new key goes last. *)
Fixpoint dict_set {V} (d : dict V) (k : string) (v : V) : dict V :=
  match d with
  | [] => [(k, v)]
  | (k', v') :: rest =>
      if decide (k' = k) then (k, v) :: rest else (k', v') :: dict_set rest k v
  end.

(** [d.update(other)] *)
Definition dict_update {V} (d other : dict V) : dict V :=
  fold_left (fun acc kv => dict_set acc kv.1 kv.2) other d.

Definition dict_keys {V} (d : dict V) : list string := map fst d.

(** A dict display [{k1: v1, ...}] *)
Definition dict_literal {V} (items : list (string * V)) : dict V :=
  dict_update [] items.

(** ** The status store *)

(** [status.get(k)] *)
Definition status_get (st : gmap string value) (k : string) : value :=
  default VNone (st !! k).

(** [k in status] *)
Definition status_has (st : gmap string value) (k : string) : bool :=
  bool_decide (is_Some (st !! k)).

(** [status.update(pattern)] *)
Definition status_update (st : gmap string value) (pattern : dict value)
  : gmap string value :=
  fold_left (fun acc kv => <[kv.1 := kv.2]> acc) pattern st.

(** ** State and exceptions *)

Definition state_exn (S A : Type) : Type := S -> outcome A * S.

#[global] Instance state_exn_ret {S} : MRet (state_exn S) :=
  fun A a s => (Return a, s).

#[global] Instance state_exn_bind {S} : MBind (state_exn S) :=
  fun A B k m s =>
    match m s with
    | (Return a, s') => k a s'
    | (Raise e, s') => (Raise e, s')
    end.

Definition raise {S A} (e : exn) : state_exn S A := fun s => (Raise e, s).

Definition lift_outcome {S A} (o : outcome A) : state_exn S A := fun s => (o, s).

(** ** devices/base.py: class declarations and the capability registry *)

Inductive map_entry : Type :=
  | Plain (v : value)
  | Tuple (items : list value).

(** The optional third component of an attribute declaration: a dict
    from raw values to labels (or to tuples headed by the label), or a
    callable of the raw value and the whole status. *)
Inductive value_map : Type :=
  | MapDict (m : list (value * map_entry))
  | MapCallable (f : value -> gmap string value -> outcome value).

(** [(key, philips_key, *rest)] *)
Definition attribute : Type := string * string * option value_map.

(** What a class body declares itself ([None]: the name is not in the
    class's own namespace). *)
Record class_decl : Type := {
  cls_name : string;
  AVAILABLE_ATTRIBUTES : option (list attribute);
  AVAILABLE_PRESET_MODES : option (dict (dict value));
  AVAILABLE_SPEEDS : option (dict (dict value));
  AVAILABLE_BINARY_SENSORS : option (list string);
  UNAVAILABLE_FILTERS : option (list string);
}.

(** [getattr(cls, name, default)], where [cls] is given by its own
    [__mro__] (the class first): the nearest declaration wins.  The device
    classes form single-inheritance chains and the platform mix-ins declare
    none of these names, so the [__mro__] of a class that occurs in the
    [__mro__] of a device class is the part of that list starting at it. *)
Fixpoint getattr {A} (cls : list class_decl) (name : class_decl -> option A)
    (default : A) : A :=
  match cls with
  | [] => default
  | c :: bases =>
      match name c with
      | Some a => a
      | None => getattr bases name default
      end
  end.

(** The classes of [self.__class__.__mro__], each as its own [__mro__]. *)
Fixpoint classes (mro : list class_decl) : list (list class_decl) :=
  match mro with
  | [] => []
  | c :: bases => (c :: bases) :: classes bases
  end.

(** The accumulation loop over [reversed(mro)] for a list-shaped name. *)
Definition collect_list {A} (name : class_decl -> option (list A))
    (mro : list class_decl) : list A :=
  fold_left (fun acc cls => acc ++ getattr cls name []) (rev (classes mro)) [].

(** The same loop for a dict-shaped name. *)
Definition collect_dict {V} (name : class_decl -> option (dict V))
    (mro : list class_decl) : dict V :=
  fold_left (fun acc cls => dict_update acc (getattr cls name []))
            (rev (classes mro)) [].

Definition _collect_available_attributes (mro : list class_decl) : list attribute :=
  collect_list AVAILABLE_ATTRIBUTES mro.

Definition _collect_available_preset_modes (mro : list class_decl)
  : dict (dict value) :=
  collect_dict AVAILABLE_PRESET_MODES mro.

Definition _collect_available_speeds (mro : list class_decl) : dict (dict value) :=
  collect_dict AVAILABLE_SPEEDS mro.

(** A fan entity: its class chain and the scalar class attributes that
    instance lookup resolves. *)
Record PhilipsGenericFanBase : Type := {
  mro : list class_decl;
  KEY_PHILIPS_POWER : string;
  STATE_POWER_ON : value;
  STATE_POWER_OFF : value;
  REPLACE_PRESET : option (string * string);
  REPLACE_SPEED : option (string * string);
  KEY_OSCILLATION : option (dict (dict value));
}.

Definition _available_attributes (self : PhilipsGenericFanBase) : list attribute :=
  _collect_available_attributes (mro self).

Definition _available_preset_modes (self : PhilipsGenericFanBase)
  : dict (dict value) :=
  _collect_available_preset_modes (mro self).

Definition _preset_modes (self : PhilipsGenericFanBase) : list string :=
  dict_keys (_available_preset_modes self).

Definition _available_speeds (self : PhilipsGenericFanBase) : dict (dict value) :=
  _collect_available_speeds (mro self).

Definition _speeds (self : PhilipsGenericFanBase) : list string :=
  dict_keys (_available_speeds self).

(** ** State projections *)

Definition is_on (self : PhilipsGenericFanBase) (st : gmap string value) : bool :=
  bool_decide (status_get st (KEY_PHILIPS_POWER self) = STATE_POWER_ON self).

(** The key actually read for a pattern key [k]. *)
Definition replaced (replace : option (string * string)) (k : string) : string :=
  match replace with
  | Some (setting, sensor) => if decide (k = setting) then sensor else k
  | None => k
  end.

(** The inner [for k, v in status_pattern.items()] loop with its [else]:
    [true] when the loop runs to its end without [break]. *)
Fixpoint pattern_holds (replace : option (string * string))
    (st : gmap string value) (status_pattern : dict value) : bool :=
  match status_pattern with
  | [] => true
  | (k, v) :: rest =>
      if decide (status_get st (replaced replace k) = v)
      then pattern_holds replace st rest
      else false
  end.

Fixpoint preset_mode_loop (replace : option (string * string))
    (st : gmap string value) (items : dict (dict value)) : option string :=
  match items with
  | [] => None
  | (preset_mode, status_pattern) :: rest =>
      if pattern_holds replace st status_pattern
      then Some preset_mode
      else preset_mode_loop replace st rest
  end.

Definition preset_mode (self : PhilipsGenericFanBase) (st : gmap string value)
  : option string :=
  preset_mode_loop (REPLACE_PRESET self) st (_available_preset_modes self).

(** The two helpers of homeassistant.util.percentage, the platform's
    library.  [ordered_list_item_to_percentage(l, item)] raises [ValueError]
    when [item] is not in [l] and is [((l.index(item) + 1) * 100) // len(l)]
    otherwise.  [percentage_to_ordered_list_item(l, percentage)] raises
    [ValueError] on an empty list, returns the first item whose upper bound
    [((offset + 1) * 100) // len(l)] is at least [percentage], and the last
    item when there is none. *)
Fixpoint list_index (item : string) (l : list string) : option nat :=
  match l with
  | [] => None
  | x :: rest => if decide (x = item) then Some 0 else S <$> list_index item rest
  end.

Definition ordered_list_item_to_percentage (ordered_list : list string)
    (item : string) : outcome Z :=
  match list_index item ordered_list with
  | None => Raise ValueError
  | Some i =>
      Return (((Z.of_nat i + 1) * 100) `div` Z.of_nat (length ordered_list))%Z
  end.

Fixpoint percentage_scan (list_len : Z) (percentage : Z) (offset : nat)
    (l : list string) : option string :=
  match l with
  | [] => None
  | speed :: rest =>
      if bool_decide (percentage ≤ ((Z.of_nat offset + 1) * 100) `div` list_len)%Z
      then Some speed
      else percentage_scan list_len percentage (S offset) rest
  end.

Definition percentage_to_ordered_list_item (ordered_list : list string)
    (percentage : Z) : outcome string :=
  match ordered_list with
  | [] => Raise ValueError
  | first :: _ =>
      match percentage_scan (Z.of_nat (length ordered_list)) percentage 0
                            ordered_list with
      | Some speed => Return speed
      | None => Return (List.last ordered_list first)
      end
  end.

Fixpoint percentage_loop (replace : option (string * string))
    (ordered_list : list string) (st : gmap string value)
    (items : dict (dict value)) : outcome (option Z) :=
  match items with
  | [] => Return None
  | (speed, status_pattern) :: rest =>
      if pattern_holds replace st status_pattern
      then match ordered_list_item_to_percentage ordered_list speed with
           | Return p => Return (Some p)
           | Raise e => Raise e
           end
      else percentage_loop replace ordered_list st rest
  end.

Definition percentage (self : PhilipsGenericFanBase) (st : gmap string value)
  : outcome (option Z) :=
  percentage_loop (REPLACE_SPEED self) (_speeds self) st (_available_speeds self).

(** [oscillating]: [Return None] is Python's [None]. *)
Definition oscillating (SWITCH_OFF : string) (self : PhilipsGenericFanBase)
    (st : gmap string value) : outcome (option bool) :=
  match KEY_OSCILLATION self with
  | None => Return None
  | Some [] => Raise StopIteration
  | Some ((key, values) :: _) =>
      let off := default VNone (dict_get values SWITCH_OFF) in
      let status := status_get st key in
      if decide (status = VNone) then Return None
      else Return (Some (negb (bool_decide (status = off))))
  end.

(** [philips_key.partition(sep)[0]] for a one-character separator. *)
Fixpoint partition_head (sep : Ascii.ascii) (s : string) : string :=
  match s with
  | EmptyString => EmptyString
  | String c rest =>
      if decide (c = sep) then EmptyString else String c (partition_head sep rest)
  end.

Fixpoint value_map_get (m : list (value * map_entry)) (v : value)
  : option map_entry :=
  match m with
  | [] => None
  | (v', e) :: rest => if decide (v' = v) then Some e else value_map_get rest v
  end.

(** The local function [append] of [extra_state_attributes]. *)
Definition append (st : gmap string value) (attributes : dict value)
    (key philips_key : string) (vm : option value_map) : outcome (dict value) :=
  let philips_clean_key := partition_head "#"%char philips_key in
  match st !! philips_clean_key with
  | None => Return attributes
  | Some value =>
      let shown :=
        match vm with
        | Some (MapDict m) =>
            if bool_decide (is_Some (value_map_get m value)) then
              match default (Plain (VStr "unknown")) (value_map_get m value) with
              | Tuple [] => Raise IndexError
              | Tuple (label :: _) => Return label
              | Plain v => Return v
              end
            else Return value
        | Some (MapCallable f) => f value st
        | None => Return value
        end in
      match shown with
      | Return v => Return (dict_set attributes key v)
      | Raise e => Raise e
      end
  end.

Fixpoint extra_state_attributes_loop (st : gmap string value)
    (device_attributes : dict value) (l : list attribute) : outcome (dict value) :=
  match l with
  | [] => Return device_attributes
  | (key, philips_key, vm) :: rest =>
      match append st device_attributes key philips_key vm with
      | Return d => extra_state_attributes_loop st d rest
      | Raise e => Raise e
      end
  end.

Definition extra_state_attributes (self : PhilipsGenericFanBase)
    (st : gmap string value) : outcome (dict value) :=
  extra_state_attributes_loop st [] (_available_attributes self).

(** ** Command translator *)

(** What a command does to the outside: calls on the CoAP client, the
    settle delays, and the state written back to the platform. *)
Inductive call : Type :=
  | SetControlValue (key : string) (v : value)
  | SetControlValues (data : dict value)
  | Sleep (seconds : Z)
  | WriteHaState.

(** The coordinator's status dict, shared by all entities of a device,
    and the log of calls made so far. *)
Record world : Type := {
  status : gmap string value;
  trace : list call;
}.

Definition emit (c : call) : state_exn world unit :=
  fun w => (Return tt, {| status := status w; trace := trace w ++ [c] |}).

Definition set_control_value (key : string) (v : value) : state_exn world unit :=
  emit (SetControlValue key v).

Definition set_control_values (data : dict value) : state_exn world unit :=
  emit (SetControlValues data).

Definition asyncio_sleep (seconds : Z) : state_exn world unit :=
  emit (Sleep seconds).

Definition _device_status : state_exn world (gmap string value) :=
  fun w => (Return (status w), w).

Definition mutate_status (f : gmap string value -> gmap string value)
  : state_exn world unit :=
  fun w => (Return tt, {| status := f (status w); trace := trace w |}).

(** [PhilipsEntity._handle_coordinator_update]: [latest_status] becomes
    another name of the same status dict, and the state is written. *)
Definition _handle_coordinator_update : state_exn world unit :=
  emit WriteHaState.

Definition async_turn_off (self : PhilipsGenericFanBase) : state_exn world unit :=
  set_control_value (KEY_PHILIPS_POWER self) (STATE_POWER_OFF self) ;;
  mutate_status (insert (KEY_PHILIPS_POWER self) (STATE_POWER_OFF self)) ;;
  _handle_coordinator_update.

Definition async_set_preset_mode (self : PhilipsGenericFanBase)
    (preset_mode : string) : state_exn world unit :=
  match dict_get (_available_preset_modes self) preset_mode with
  | Some ((_ :: _) as status_pattern) =>
      set_control_values status_pattern ;;
      mutate_status (fun st => status_update st status_pattern) ;;
      _handle_coordinator_update
  | _ => mret tt
  end.

Definition async_set_percentage (self : PhilipsGenericFanBase)
    (percentage : Z) : state_exn world unit :=
  if bool_decide (percentage = 0%Z) then async_turn_off self
  else
    speed ← lift_outcome (percentage_to_ordered_list_item (_speeds self) percentage);
    let status_pattern := dict_get (_available_speeds self) speed in
    match status_pattern with
    | Some ((_ :: _) as p) => set_control_values p
    | _ => mret tt
    end ;;
    match status_pattern with
    | Some p => mutate_status (fun st => status_update st p)
    | None => raise TypeError
    end ;;
    _handle_coordinator_update.

Definition async_turn_on (self : PhilipsGenericFanBase)
    (percentage : option Z) (preset_mode : option string) : state_exn world unit :=
  match preset_mode, percentage with
  | Some (String _ _ as p), _ => async_set_preset_mode self p
  | _, Some (Zpos _ as n) | _, Some (Zneg _ as n) => async_set_percentage self n
  | _, _ =>
      set_control_value (KEY_PHILIPS_POWER self) (STATE_POWER_ON self) ;;
      mutate_status (insert (KEY_PHILIPS_POWER self) (STATE_POWER_ON self)) ;;
      _handle_coordinator_update
  end.

Definition async_oscillate (SWITCH_ON SWITCH_OFF : string)
    (self : PhilipsGenericFanBase) (oscillating : bool) : state_exn world unit :=
  match KEY_OSCILLATION self with
  | None => mret tt
  | Some [] => raise StopIteration
  | Some ((key, values) :: _) =>
      let on := default VNone (dict_get values SWITCH_ON) in
      let off := default VNone (dict_get values SWITCH_OFF) in
      (if oscillating then set_control_value key on else set_control_value key off) ;;
      mutate_status (insert key (if oscillating then on else off)) ;;
      _handle_coordinator_update
  end.

(** ** const.py

    The module of constants is not among the sources: the names the
    modelled code reads from it are the fields of a record, and every
    definition below that uses one takes the record as an argument. *)
Record const_py : Type := {
  PhilipsApi_POWER : string;
  PhilipsApi_MODE : string;
  PhilipsApi_SPEED : string;
  PhilipsApi_POWER_MAP : dict value;
  SWITCH_ON : string;
  SWITCH_OFF : string;
  PresetMode_AUTO : string;
  PresetMode_ALLERGEN : string;
  PresetMode_NIGHT : string;
  PresetMode_SPEED_1 : string;
  PresetMode_SPEED_2 : string;
  PresetMode_SPEED_3 : string;
  PresetMode_TURBO : string;
  FanAttributes_LABEL : string;
  FanAttributes_TOTAL : string;
  FILTER_TYPES : dict (dict value);
  FILTER_ALERT_THRESHOLD : Z;
}.

(** ** The classes every device class derives from *)

Definition object : class_decl :=
  {| cls_name := "object";
     AVAILABLE_ATTRIBUTES := None; AVAILABLE_PRESET_MODES := None;
     AVAILABLE_SPEEDS := None; AVAILABLE_BINARY_SENSORS := None;
     UNAVAILABLE_FILTERS := None |}.

Definition PhilipsEntity : class_decl :=
  {| cls_name := "PhilipsEntity";
     AVAILABLE_ATTRIBUTES := None; AVAILABLE_PRESET_MODES := None;
     AVAILABLE_SPEEDS := None; AVAILABLE_BINARY_SENSORS := None;
     UNAVAILABLE_FILTERS := None |}.

Definition PhilipsGenericControlBase : class_decl :=
  {| cls_name := "PhilipsGenericControlBase";
     AVAILABLE_ATTRIBUTES := Some []; AVAILABLE_PRESET_MODES := Some [];
     AVAILABLE_SPEEDS := None; AVAILABLE_BINARY_SENSORS := None;
     UNAVAILABLE_FILTERS := None |}.

Definition PhilipsGenericFanBase_cls : class_decl :=
  {| cls_name := "PhilipsGenericFanBase";
     AVAILABLE_ATTRIBUTES := None; AVAILABLE_PRESET_MODES := None;
     AVAILABLE_SPEEDS := Some []; AVAILABLE_BINARY_SENSORS := Some [];
     UNAVAILABLE_FILTERS := None |}.

(** ** devices/legacy.py: the AC1214 *)

Module PhilipsAC1214.

Section AC1214.
Variable c : const_py.
(** The twelve entries of [PhilipsGenericFan.AVAILABLE_ATTRIBUTES]; they
    are built from names of const.py and a duration formatter. *)
Variable generic_fan_attributes : list attribute.

Definition PhilipsGenericFan : class_decl :=
  {| cls_name := "PhilipsGenericFan";
     AVAILABLE_ATTRIBUTES := Some generic_fan_attributes;
     AVAILABLE_PRESET_MODES := None;
     AVAILABLE_SPEEDS := None; AVAILABLE_BINARY_SENSORS := None;
     UNAVAILABLE_FILTERS := None |}.

Definition manual (speed : string) : dict value :=
  dict_literal [(PhilipsApi_MODE c, VStr "M"); (PhilipsApi_SPEED c, VStr speed)].

Definition PhilipsAC1214 : class_decl :=
  {| cls_name := "PhilipsAC1214";
     AVAILABLE_ATTRIBUTES := None;
     AVAILABLE_PRESET_MODES := Some (dict_literal [
       (PresetMode_AUTO c, dict_literal [(PhilipsApi_MODE c, VStr "P")]);
       (PresetMode_ALLERGEN c, dict_literal [(PhilipsApi_MODE c, VStr "A")]);
       (PresetMode_NIGHT c, dict_literal [(PhilipsApi_MODE c, VStr "N")]);
       (PresetMode_SPEED_1 c, manual "1");
       (PresetMode_SPEED_2 c, manual "2");
       (PresetMode_SPEED_3 c, manual "3");
       (PresetMode_TURBO c, manual "t") ]);
     AVAILABLE_SPEEDS := Some (dict_literal [
       (PresetMode_NIGHT c, dict_literal [(PhilipsApi_MODE c, VStr "N")]);
       (PresetMode_SPEED_1 c, manual "1");
       (PresetMode_SPEED_2 c, manual "2");
       (PresetMode_SPEED_3 c, manual "3");
       (PresetMode_TURBO c, manual "t") ]);
     AVAILABLE_BINARY_SENSORS := None;
     UNAVAILABLE_FILTERS := None |}.

(** An entity of class [PhilipsAC1214]; the power key and its two
    states are inherited from [PhilipsGenericFanBase]. *)
Definition self : PhilipsGenericFanBase :=
  {| mro := [PhilipsAC1214; PhilipsGenericFan; PhilipsGenericFanBase_cls;
             PhilipsGenericControlBase; PhilipsEntity; object];
     KEY_PHILIPS_POWER := PhilipsApi_POWER c;
     STATE_POWER_ON := VStr "1";
     STATE_POWER_OFF := VStr "0";
     REPLACE_PRESET := None;
     REPLACE_SPEED := None;
     KEY_OSCILLATION := None |}.

(** The mode of the pattern of the preset the status currently projects
    to: what [_ensure_mode_transition] compares with ["M"].  There is none
    when no preset pattern matches the status. *)
Definition projected_mode (st : gmap string value) : option value :=
  match preset_mode self st with
  | Some p =>
      match dict_get (_available_preset_modes self) p with
      | Some ((_ :: _) as current) =>
          Some (default VNone (dict_get current (PhilipsApi_MODE c)))
      | _ => None
      end
  | None => None
  end.

(** The calls [_ensure_power_on] makes on a status, given the value
    [POWER_MAP[SWITCH_ON]]. *)
Definition power_on_prefix (on : value) (st : gmap string value) : list call :=
  if is_on self st then [] else [SetControlValue (PhilipsApi_POWER c) on; Sleep 1].

(** The calls [_ensure_mode_transition] makes when the allergen pattern
    is [{MODE: "A"}]. *)
Definition intermediate (target_mode : value) (st : gmap string value) : list call :=
  match projected_mode st with
  | Some m =>
      if bool_decide (target_mode ≠ VStr "A") && bool_decide (m ≠ VStr "M")
      then [SetControlValues [(PhilipsApi_MODE c, VStr "A")]; Sleep 1]
      else []
  | None => []
  end.

Definition _ensure_power_on : state_exn world unit :=
  st ← _device_status;
  if negb (is_on self st) then
    on ← lift_outcome
           match dict_get (PhilipsApi_POWER_MAP c) (SWITCH_ON c) with
           | Some v => Return v
           | None => Raise KeyError
           end;
    set_control_value (PhilipsApi_POWER c) on ;;
    asyncio_sleep 1
  else mret tt.

Definition _ensure_mode_transition (target_mode : value) : state_exn world unit :=
  st ← _device_status;
  let current_pattern :=
    match preset_mode self st with
    | Some p => dict_get (_available_preset_modes self) p
    | None => None
    end in
  match current_pattern with
  | Some ((_ :: _) as current) =>
      if bool_decide (target_mode ≠ VStr "A")
         && bool_decide (default VNone (dict_get current (PhilipsApi_MODE c))
                         ≠ VStr "M")
      then
        match dict_get (_available_preset_modes self) (PresetMode_ALLERGEN c) with
        | Some a_status_pattern =>
            set_control_values a_status_pattern ;;
            asyncio_sleep 1
        | None => raise TypeError
        end
      else mret tt
  | _ => mret tt
  end.

Definition async_set_preset_mode (preset_mode : string) : state_exn world unit :=
  _ensure_power_on ;;
  match dict_get (_available_preset_modes self) preset_mode with
  | Some ((_ :: _) as status_pattern) =>
      let target_mode :=
        default VNone (dict_get status_pattern (PhilipsApi_MODE c)) in
      _ensure_mode_transition target_mode ;;
      set_control_values status_pattern
  | _ => mret tt
  end.

Definition async_set_percentage (percentage : Z) : state_exn world unit :=
  _ensure_power_on ;;
  if bool_decide (percentage = 0%Z) then async_turn_off self
  else
    speed ← lift_outcome
              (percentage_to_ordered_list_item (_speeds self) percentage);
    match dict_get (_available_speeds self) speed with
    | Some ((_ :: _) as status_pattern) =>
        let target_mode :=
          default VNone (dict_get status_pattern (PhilipsApi_MODE c)) in
        _ensure_mode_transition target_mode ;;
        set_control_values status_pattern
    | _ => mret tt
    end.

Definition async_turn_on (percentage : option Z) (preset_mode : option string)
  : state_exn world unit :=
  _ensure_power_on ;;
  match preset_mode, percentage with
  | Some (String _ _ as p), _ => async_set_preset_mode p
  | _, Some (Zpos _ as n) | _, Some (Zneg _ as n) => async_set_percentage n
  | _, _ => mret tt
  end.
End AC1214.

End PhilipsAC1214.

(** ** binary_sensor.py: the filter alert sensor *)

Module FilterAlert.

(** The exact quotient [a / b] for [0 < b], rounded to the nearest integer,
    a tie to the even neighbour. *)
Definition py_round_div (a b : Z) : Z :=
  let q := (a `div` b)%Z in
  let r := (a `mod` b)%Z in
  if bool_decide (2 * r < b)%Z then q
  else if bool_decide (b < 2 * r)%Z then (q + 1)%Z
  else if Z.even q then q else (q + 1)%Z.

(** Python's [float] is IEEE 754 binary64: 53 bits of mantissa, and 1024 the
    exponent of the infinities.  The operations are those of the standard
    library's specification of IEEE 754, which round to nearest, ties to
    even. *)
Definition prec : Z := 53.
Definition emax : Z := 1024.

(** The conversion of an [int] operand of a float operation: the nearest
    float, and [OverflowError] when the integer is too large for one. *)
Definition float_of_int (n : Z) : outcome SpecFloat.spec_float :=
  match SpecFloat.binary_normalize prec emax n 0 false with
  | SpecFloat.S754_infinity _ => Raise OverflowError
  | x => Return x
  end.

(** The literal [100.0]. *)
Definition hundred : SpecFloat.spec_float :=
  SpecFloat.binary_normalize prec emax 100 0 false.

(** [round(x)] of a float: the nearest integer, a tie to the even
    neighbour; [OverflowError] on an infinity and [ValueError] on a NaN. *)
Definition py_round (x : SpecFloat.spec_float) : outcome Z :=
  match x with
  | SpecFloat.S754_zero _ => Return 0%Z
  | SpecFloat.S754_infinity _ => Raise OverflowError
  | SpecFloat.S754_nan => Raise ValueError
  | SpecFloat.S754_finite s m e =>
      let n := if s then Z.neg m else Z.pos m in
      Return (if bool_decide (0 ≤ e)%Z then (n * 2 ^ e)%Z
              else py_round_div n (2 ^ (- e)))
  end.

(** [round(100.0 * value / total)] on two integers. *)
Definition percentage_of (value total : Z) : outcome Z :=
  match float_of_int value with
  | Return v =>
      match float_of_int total with
      | Return t =>
          py_round (SpecFloat.SFdiv prec emax
                      (SpecFloat.SFmul prec emax hundred v) t)
      | Raise e => Raise e
      end
  | Raise e => Raise e
  end.

(** The payload of one [philips_filter_alert] event. *)
Record filter_alert : Type := {
  ev_device_id : string;
  ev_device_name : string;
  ev_filter_key : string;
  ev_filter_name : value;
  ev_percentage : option Z;
  ev_threshold : Z;
}.

Record device_information : Type := {
  device_id : string;
  name : string;
}.

(** The mutable part of a [PhilipsFilterAlertSensor], the events it has
    fired on the bus and the number of states it has written. *)
Record sensor : Type := {
  _previous_alert_state : option bool;
  _previous_low_filters : gset string;
  bus : list filter_alert;
  ha_state_writes : nat;
}.

Section sensor.
Variable c : const_py.
Variable info : device_information.
Variable _filter_keys : list string.

(** [total_key and total_key in status], giving [status[total_key]]. *)
Definition total_of (st : gmap string value) (total_key : value) : option value :=
  match total_key with
  | VStr k => if truthy total_key then st !! k else None
  | _ => None
  end.

Fixpoint _get_low_filters_loop (st : gmap string value) (low_filters : dict Z)
    (keys : list string) : outcome (dict Z) :=
  match keys with
  | [] => Return low_filters
  | filter_key :: rest =>
      match st !! filter_key, dict_get (FILTER_TYPES c) filter_key with
      | Some value, Some ((_ :: _) as filter_desc) =>
          let total_key :=
            default VNone (dict_get filter_desc (FanAttributes_TOTAL c)) in
          match total_of st total_key with
          | Some total =>
              match total with
              | VInt t =>
                  if bool_decide (0 < t)%Z then
                    match value with
                    | VInt v =>
                        match percentage_of v t with
                        | Return percentage =>
                            if bool_decide
                                 (percentage < FILTER_ALERT_THRESHOLD c)%Z
                            then _get_low_filters_loop st
                                   (dict_set low_filters filter_key percentage)
                                   rest
                            else _get_low_filters_loop st low_filters rest
                        | Raise e => Raise e
                        end
                    | _ => Raise TypeError
                    end
                  else _get_low_filters_loop st low_filters rest
              | _ => Raise TypeError
              end
          | None =>
              match value with
              | VInt v =>
                  if bool_decide (v < 72)%Z
                  then _get_low_filters_loop st (dict_set low_filters filter_key v) rest
                  else _get_low_filters_loop st low_filters rest
              | _ => Raise TypeError
              end
          end
      | _, _ => _get_low_filters_loop st low_filters rest
      end
  end.

Definition _get_low_filters (st : gmap string value) : outcome (dict Z) :=
  _get_low_filters_loop st [] _filter_keys.

Definition is_on (st : gmap string value) : outcome bool :=
  match _get_low_filters st with
  | Return low => Return (bool_decide (low ≠ []))
  | Raise e => Raise e
  end.

Definition fire (e : filter_alert) : state_exn sensor unit :=
  fun s => (Return tt,
            {| _previous_alert_state := _previous_alert_state s;
               _previous_low_filters := _previous_low_filters s;
               bus := bus s ++ [e];
               ha_state_writes := ha_state_writes s |}).

(** The dict handed to [hass.bus.fire] for a filter key. *)
Definition alert_payload (low_filters_data : dict Z) (filter_key : string)
  : filter_alert :=
  let filter_desc := default [] (dict_get (FILTER_TYPES c) filter_key) in
  let filter_name :=
    default (VStr filter_key) (dict_get filter_desc (FanAttributes_LABEL c)) in
  {| ev_device_id := device_id info;
     ev_device_name := name info;
     ev_filter_key := filter_key;
     ev_filter_name := filter_name;
     ev_percentage := dict_get low_filters_data filter_key;
     ev_threshold := FILTER_ALERT_THRESHOLD c |}.

(** The body of [for filter_key in new_low_filters]. *)
Definition alert (st : gmap string value) (filter_key : string)
  : state_exn sensor unit :=
  low_filters_data ← lift_outcome (_get_low_filters st);
  fire (alert_payload low_filters_data filter_key).

Fixpoint for_each (body : string -> state_exn sensor unit) (keys : list string)
  : state_exn sensor unit :=
  match keys with
  | [] => mret tt
  | k :: rest => body k ;; for_each body rest
  end.

Definition this : state_exn sensor sensor := fun s => (Return s, s).

Definition remember (current_alert : bool) (current_low_filters : gset string)
  : state_exn sensor unit :=
  fun s => (Return tt,
            {| _previous_alert_state := Some current_alert;
               _previous_low_filters := current_low_filters;
               bus := bus s;
               ha_state_writes := ha_state_writes s |}).

(** [super()._handle_coordinator_update()] *)
Definition write_ha_state : state_exn sensor unit :=
  fun s => (Return tt,
            {| _previous_alert_state := _previous_alert_state s;
               _previous_low_filters := _previous_low_filters s;
               bus := bus s;
               ha_state_writes := S (ha_state_writes s) |}).

(** [PhilipsFilterAlertSensor._handle_coordinator_update]; a Python set
    is a [gset], iterated in the order of [elements]. *)
Definition _handle_coordinator_update (st : gmap string value)
  : state_exn sensor unit :=
  low ← lift_outcome (_get_low_filters st);
  let current_low_filters : gset string := list_to_set (dict_keys low) in
  let current_alert := bool_decide (current_low_filters ≠ ∅) in
  s ← this;
  match _previous_alert_state s with
  | Some _ =>
      let new_low_filters := current_low_filters ∖ _previous_low_filters s in
      for_each (alert st) (elements new_low_filters)
  | None => mret tt
  end ;;
  remember current_alert current_low_filters ;;
  write_ha_state.

(** The sensor's life after [async_added_to_hass]: the coordinator calls the
    registered listener once for every status it receives. *)
Fixpoint updates (sts : list (gmap string value)) : state_exn sensor unit :=
  match sts with
  | [] => mret tt
  | st :: rest => _handle_coordinator_update st ;; updates rest
  end.

(** The filters of [async_setup_entry] that get an alert sensor. *)
Definition available_filters (model_class : option (list class_decl))
    (st : gmap string value) : list string :=
  let unavailable_filters :=
    match model_class with
    | Some mro => collect_list UNAVAILABLE_FILTERS mro
    | None => []
    end in
  filter (fun f => status_has st f ∧ f ∉ unavailable_filters)
         (dict_keys (FILTER_TYPES c)).
End sensor.

End FilterAlert.

(** ** config_flow.py: model resolution *)

Module ConfigFlow.

Inductive flow_result : Type :=
  | Abort (reason : string)
  | Proceed (resolved_model : string).

Section flow.
(** [devices.model_to_class], declared outside the sources. *)
Variable model_to_class : dict (list class_decl).

(** [_resolve_model]; [_wifi_version] is what [status.get] returned.
    A slice counts characters, which for the ASCII model identifiers
    are the bytes of the string. *)
Definition _resolve_model (_wifi_version : value) (model : string)
  : outcome (option string) :=
  let model_family := String.substring 0 6 model in
  match _wifi_version with
  | VStr w =>
      let model_long :=
        String.append model (String.append " " (partition_head "@"%char w)) in
      Return (List.find
                (fun candidate =>
                   bool_decide (is_Some (dict_get model_to_class candidate)))
                [model; model_long; model_family])
  | _ => Raise AttributeError
  end.

(** The lines every setup step runs after [_extract_device_info]. *)
Definition resolve_or_abort (_wifi_version : value) (model : string)
  : outcome flow_result :=
  match _resolve_model _wifi_version model with
  | Return None => Return (Abort "model_unsupported")
  | Return (Some resolved_model) => Return (Proceed resolved_model)
  | Raise e => Raise e
  end.
End flow.

End ConfigFlow.


(** ** helpers.py and the device information of the config flow *)

Module Helpers.

(** The keys of [PhilipsApi] these functions read, again as a record. *)
Record ids : Type := {
  NAME : string;
  NEW_NAME : string;
  NEW2_NAME : string;
  MODEL_ID : string;
  NEW_MODEL_ID : string;
  NEW2_MODEL_ID : string;
  WIFI_VERSION : string;
  DEVICE_ID : string;
}.

Fixpoint extract_name_loop (st : gmap string value) (keys : list string) : value :=
  match keys with
  | [] => VStr ""
  | name_key :: rest =>
      let name := status_get st name_key in
      if truthy name then name else extract_name_loop st rest
  end.

Definition extract_name (k : ids) (st : gmap string value) : value :=
  extract_name_loop st [NAME k; NEW_NAME k; NEW2_NAME k].

(** [model[:9]] is a slice of a string; a truthy value that is not a
    string cannot be sliced. *)
Fixpoint extract_model_loop (st : gmap string value) (keys : list string)
  : outcome string :=
  match keys with
  | [] => Return ""
  | model_key :: rest =>
      let model := status_get st model_key in
      if truthy model then
        match model with
        | VStr s => Return (String.substring 0 9 s)
        | _ => Raise TypeError
        end
      else extract_model_loop st rest
  end.

Definition extract_model (k : ids) (st : gmap string value) : outcome string :=
  extract_model_loop st [MODEL_ID k; NEW_MODEL_ID k; NEW2_MODEL_ID k].

(** The fields [_extract_device_info] sets on the flow. *)
Record device_info : Type := {
  _model : string;
  _wifi_version : value;
  _name : value;
  _device_id : value;
}.

Definition _extract_device_info (k : ids) (st : gmap string value)
  : outcome device_info :=
  match extract_model k st with
  | Raise e => Raise e
  | Return model =>
      match st !! DEVICE_ID k with
      | None => Raise KeyError
      | Some device_id =>
          Return {| _model := model;
                    _wifi_version := status_get st (WIFI_VERSION k);
                    _name := extract_name k st;
                    _device_id := device_id |}
      end
  end.

(** What every setup step does with a fetched status: extract the device
    information, resolve the model, abort when it is not supported. *)
Definition extract_and_resolve (k : ids) (model_to_class : dict (list class_decl))
    (st : gmap string value) : outcome ConfigFlow.flow_result :=
  match _extract_device_info k st with
  | Raise e => Raise e
  | Return info =>
      ConfigFlow.resolve_or_abort model_to_class (_wifi_version info) (_model info)
  end.

End Helpers.

(** ** binary_sensor.py: the plain binary sensors of [async_setup_entry] *)

(** The kinds for which [async_setup_entry] creates a [PhilipsBinarySensor];
    [types] are the keys of [BINARY_SENSOR_TYPES]. *)
Definition binary_sensor_kinds (types : list string)
    (model_class : option (list class_decl)) (st : gmap string value)
  : list string :=
  let available_binary_sensors :=
    match model_class with
    | Some mro => collect_list AVAILABLE_BINARY_SENSORS mro
    | None => []
    end in
  filter (fun binary_sensor =>
            status_has st binary_sensor ∧ binary_sensor ∈ available_binary_sensors)
         types.

(** ** Sample data

    A choice of constants in the vendor's style, used to run the model on
    concrete statuses. *)

Definition sample_const : const_py :=
  {| PhilipsApi_POWER := "pwr";
     PhilipsApi_MODE := "mode";
     PhilipsApi_SPEED := "om";
     PhilipsApi_POWER_MAP := dict_literal [("on", VStr "1"); ("off", VStr "0")];
     SWITCH_ON := "on";
     SWITCH_OFF := "off";
     PresetMode_AUTO := "auto";
     PresetMode_ALLERGEN := "allergen";
     PresetMode_NIGHT := "night";
     PresetMode_SPEED_1 := "speed 1";
     PresetMode_SPEED_2 := "speed 2";
     PresetMode_SPEED_3 := "speed 3";
     PresetMode_TURBO := "turbo";
     FanAttributes_LABEL := "label";
     FanAttributes_TOTAL := "total";
     FILTER_TYPES := dict_literal [
       ("fltsts0", dict_literal [("label", VStr "pre_filter")]);
       ("fltsts1", dict_literal [("label", VStr "hepa_filter");
                                 ("total", VStr "flttotal1")]);
       ("fltsts2", dict_literal [("label", VStr "active_carbon_filter");
                                 ("total", VStr "flttotal2")]) ];
     FILTER_ALERT_THRESHOLD := 50 |}.

(** The AC1214 entity under these constants (its attribute table plays no
    part in the commands). *)
Definition sample_ac1214 : PhilipsGenericFanBase :=
  PhilipsAC1214.self sample_const [].

(** A class derived from [PhilipsAC1214] that redeclares one preset. *)
Definition sample_subclass : class_decl :=
  {| cls_name := "Sample";
     AVAILABLE_ATTRIBUTES := None;
     AVAILABLE_PRESET_MODES :=
       Some (dict_literal [("night", dict_literal [("mode", VStr "S")])]);
     AVAILABLE_SPEEDS :=
       Some (dict_literal [("night", dict_literal [("mode", VStr "S")])]);
     AVAILABLE_BINARY_SENSORS := Some ["err"];
     UNAVAILABLE_FILTERS := None |}.

(** [PhilipsAC0950] of devices/new2_gen.py with its keys spelled out. *)
Definition sample_PhilipsAC0950 : class_decl :=
  {| cls_name := "PhilipsAC0950";
     AVAILABLE_ATTRIBUTES := None;
     AVAILABLE_PRESET_MODES := Some (dict_literal [
       ("auto", dict_literal [("D03102", VInt 1); ("D0310C", VInt 0)]);
       ("turbo", dict_literal [("D03102", VInt 1); ("D0310C", VInt 18)]);
       ("medium", dict_literal [("D03102", VInt 1); ("D0310C", VInt 19)]);
       ("sleep", dict_literal [("D03102", VInt 1); ("D0310C", VInt 17)]) ]);
     AVAILABLE_SPEEDS := Some (dict_literal [
       ("sleep", dict_literal [("D03102", VInt 1); ("D0310C", VInt 17)]);
       ("medium", dict_literal [("D03102", VInt 1); ("D0310C", VInt 19)]);
       ("turbo", dict_literal [("D03102", VInt 1); ("D0310C", VInt 18)]) ]);
     AVAILABLE_BINARY_SENSORS := None;
     UNAVAILABLE_FILTERS := Some ["D05213"] |}.

(** A class in the style of [PhilipsAC0950] that rules out the pre-filter of
    [sample_const]. *)
Definition sample_no_prefilter : class_decl :=
  {| cls_name := "SampleNoPrefilter";
     AVAILABLE_ATTRIBUTES := None;
     AVAILABLE_PRESET_MODES := None;
     AVAILABLE_SPEEDS := None;
     AVAILABLE_BINARY_SENSORS := None;
     UNAVAILABLE_FILTERS := Some ["fltsts0"] |}.

Definition sample_PhilipsNew2GenericFan : class_decl :=
  {| cls_name := "PhilipsNew2GenericFan";
     AVAILABLE_ATTRIBUTES := Some [];
     AVAILABLE_PRESET_MODES := None;
     AVAILABLE_SPEEDS := None;
     AVAILABLE_BINARY_SENSORS := None;
     UNAVAILABLE_FILTERS := None |}.

Definition sample_ac0950 : PhilipsGenericFanBase :=
  {| mro := [sample_PhilipsAC0950; sample_PhilipsNew2GenericFan;
             PhilipsGenericFanBase_cls; PhilipsGenericControlBase;
             PhilipsEntity; object];
     KEY_PHILIPS_POWER := "D03102";
     STATE_POWER_ON := VInt 1;
     STATE_POWER_OFF := VInt 0;
     REPLACE_PRESET := None;
     REPLACE_SPEED := None;
     KEY_OSCILLATION := None |}.

(** A fan with a single speed whose pattern is empty. *)
Definition sample_idle : class_decl :=
  {| cls_name := "SampleIdle";
     AVAILABLE_ATTRIBUTES := None;
     AVAILABLE_PRESET_MODES := None;
     AVAILABLE_SPEEDS := Some (dict_literal [("idle", dict_literal [])]);
     AVAILABLE_BINARY_SENSORS := None;
     UNAVAILABLE_FILTERS := None |}.

Definition sample_idle_fan : PhilipsGenericFanBase :=
  {| mro := [sample_idle; PhilipsGenericFanBase_cls; PhilipsGenericControlBase;
             PhilipsEntity; object];
     KEY_PHILIPS_POWER := "pwr";
     STATE_POWER_ON := VStr "1";
     STATE_POWER_OFF := VStr "0";
     REPLACE_PRESET := None;
     REPLACE_SPEED := None;
     KEY_OSCILLATION := None |}.

(** Three entries in the style of [PhilipsGenericFan.AVAILABLE_ATTRIBUTES]:
    a plain one, one whose key carries a ["#"] marker, and the preferred
    index with its map from raw codes to (label, icon) tuples. *)
Definition sample_attributes : list attribute :=
  [ ("name", "name", None);
    ("type", "type#1", None);
    ("preferred_index", "ddp",
     Some (MapDict [ (VStr "0", Tuple [VStr "Indoor Allergen Index"; VStr "mdi:blur"]);
                     (VStr "1", Tuple [VStr "PM2.5"; VStr "mdi:blur-linear"]) ])) ].

Definition sample_ac1214_with_attributes : PhilipsGenericFanBase :=
  PhilipsAC1214.self sample_const sample_attributes.

(** A fan with an oscillation key, in the style of [PhilipsCX3120]. *)
Definition sample_oscillating_fan : PhilipsGenericFanBase :=
  {| mro := [sample_PhilipsNew2GenericFan; PhilipsGenericFanBase_cls;
             PhilipsGenericControlBase; PhilipsEntity; object];
     KEY_PHILIPS_POWER := "D03102";
     STATE_POWER_ON := VInt 1;
     STATE_POWER_OFF := VInt 0;
     REPLACE_PRESET := None;
     REPLACE_SPEED := None;
     KEY_OSCILLATION :=
       Some (dict_literal
               [("D0320F", dict_literal [("on", VInt 45); ("off", VInt 0)])]) |}.

(** A registry with a family code and a firmware-qualified entry. *)
Definition sample_model_to_class : dict (list class_decl) :=
  dict_literal [ ("AC0850/11 AWS_Philips_AIR", []);
                 ("AC0850/11 AWS_Philips_AIR_Combo", []);
                 ("AC3033", []);
                 ("AC3858/51", []);
                 ("AC3858", []) ].

Definition sample_info : FilterAlert.device_information :=
  {| FilterAlert.device_id := "ABCD1234567890"; FilterAlert.name := "Living Room" |}.

(** A sensor as [__init__] leaves it. *)
Definition new_sensor : FilterAlert.sensor :=
  {| FilterAlert._previous_alert_state := None;
     FilterAlert._previous_low_filters := ∅;
     FilterAlert.bus := [];
     FilterAlert.ha_state_writes := 0 |}.

Definition sample_ids : Helpers.ids :=
  {| Helpers.NAME := "name";
     Helpers.NEW_NAME := "D01-03";
     Helpers.NEW2_NAME := "D01S03";
     Helpers.MODEL_ID := "modelid";
     Helpers.NEW_MODEL_ID := "D01-05";
     Helpers.NEW2_MODEL_ID := "D01S05";
     Helpers.WIFI_VERSION := "WifiVersion";
     Helpers.DEVICE_ID := "DeviceId" |}.

Definition sample_status (items : list (string * value)) : gmap string value :=
  list_to_map items.

Definition start (st : gmap string value) : world :=
  {| status := st; trace := [] |}.


(** * Properties *)

(** ** Dictionaries *)

Lemma dict_get_set {V} (d : dict V) k v k' :
  dict_get (dict_set d k v) k' = if decide (k = k') then Some v else dict_get d k'.
Proof.
  induction d as [|[k0 v0] d IH]; simpl.
  - done.
  - destruct (decide (k0 = k)) as [->|Hne]; simpl.
    + by destruct (decide (k = k')).
    + rewrite IH. destruct (decide (k0 = k')) as [->|]; [|done].
      by rewrite decide_False by congruence.
Qed.

Lemma dict_get_None {V} (d : dict V) k :
  dict_get d k = None ↔ k ∉ dict_keys d.
Proof.
  induction d as [|[k0 v0] d IH]; simpl.
  - split; [intros _; apply not_elem_of_nil | done].
  - rewrite not_elem_of_cons. destruct (decide (k0 = k)) as [->|Hne].
    + split; [done | intros [? _]; done].
    + rewrite IH. split; [intros ?; split; [congruence | done] | intros [_ ?]; done].
Qed.

Lemma dict_get_Some_elem {V} (d : dict V) k v :
  dict_get d k = Some v → (k, v) ∈ d.
Proof.
  induction d as [|[k0 v0] d IH]; simpl; [done|].
  destruct (decide (k0 = k)) as [->|Hne].
  - intros [= ->]. apply elem_of_cons; by left.
  - intros H. apply elem_of_cons; right; auto.
Qed.

Lemma dict_get_update_absent {V} (d other : dict V) k :
  dict_get other k = None → dict_get (dict_update d other) k = dict_get d k.
Proof.
  unfold dict_update. revert d.
  induction other as [|[k0 v0] other IH]; intros d; simpl; [done|].
  destruct (decide (k0 = k)) as [->|Hne]; [done|].
  intros H. rewrite IH by done. rewrite dict_get_set. by rewrite decide_False.
Qed.

Lemma dict_get_update_present {V} (d other : dict V) k v :
  NoDup (dict_keys other) → dict_get other k = Some v →
  dict_get (dict_update d other) k = Some v.
Proof.
  unfold dict_update. revert d.
  induction other as [|[k0 v0] other IH]; intros d Hnd; simpl; [done|].
  apply NoDup_cons in Hnd as [Hk0 Hnd].
  destruct (decide (k0 = k)) as [->|Hne].
  - intros [= ->].
    change (dict_get (dict_update (dict_set d k v) other) k = Some v).
    rewrite dict_get_update_absent by (by apply dict_get_None).
    rewrite dict_get_set. by rewrite decide_True.
  - intros H. by apply IH.
Qed.

(** ** Current preset *)

Lemma pattern_holds_true replace st pat :
  pattern_holds replace st pat = true ↔
  ∀ k v, (k, v) ∈ pat → status_get st (replaced replace k) = v.
Proof.
  induction pat as [|[k0 v0] pat IH]; simpl.
  - split; [intros _ k v H; by apply elem_of_nil in H | done].
  - destruct (decide (status_get st (replaced replace k0) = v0)) as [Heq|Hne].
    + rewrite IH. split.
      * intros H k v [[= -> ->]|Hin]%elem_of_cons; auto.
      * intros H k v Hin. apply H. apply elem_of_cons; by right.
    + split; [done|]. intros H. exfalso. apply Hne, H. apply elem_of_cons; by left.
Qed.

Lemma pattern_holds_false replace st pat :
  pattern_holds replace st pat = false ↔
  ∃ k v, (k, v) ∈ pat ∧ status_get st (replaced replace k) ≠ v.
Proof.
  induction pat as [|[k0 v0] pat IH]; simpl.
  - split; [done | intros (k & v & H & _); by apply elem_of_nil in H].
  - destruct (decide (status_get st (replaced replace k0) = v0)) as [Heq|Hne].
    + rewrite IH. split.
      * intros (k & v & Hin & Hv). exists k, v. split; [|done].
        apply elem_of_cons; by right.
      * intros (k & v & [[= -> ->]|Hin]%elem_of_cons & Hv); [done|]. by exists k, v.
    + split; [|done]. intros _. exists k0, v0. split; [|done].
      apply elem_of_cons; by left.
Qed.

Lemma preset_mode_loop_spec replace st items :
  match preset_mode_loop replace st items with
  | Some p =>
      ∃ before pattern after,
        items = before ++ (p, pattern) :: after ∧
        pattern_holds replace st pattern = true ∧
        ∀ q pat, (q, pat) ∈ before → pattern_holds replace st pat = false
  | None => ∀ q pat, (q, pat) ∈ items → pattern_holds replace st pat = false
  end.
Proof.
  induction items as [|[p0 pat0] items IH]; simpl.
  - intros q pat H. by apply elem_of_nil in H.
  - destruct (pattern_holds replace st pat0) eqn:H0.
    + exists [], pat0, items. split; [done|]. split; [done|].
      intros q pat H. by apply elem_of_nil in H.
    + destruct (preset_mode_loop replace st items) as [p|].
      * destruct IH as (before & pattern & after & -> & Hp & Hb).
        exists ((p0, pat0) :: before), pattern, after. split; [done|]. split; [done|].
        intros q pat [[= -> ->]|Hin]%elem_of_cons; eauto.
      * intros q pat [[= -> ->]|Hin]%elem_of_cons; eauto.
Qed.

(** C1. The current preset is the first declared pattern that the status
    satisfies in full.  The table is walked in declaration order; a pattern
    key equal to the source key of [REPLACE_PRESET] is read under the
    substituted key, any other key under itself; the result is the name of
    the first entry all of whose pairs equal the status values, every entry
    before it failing on some pair; it is [None] when every entry fails on
    some pair. *)
Theorem preset_mode_first_match_wins (self : PhilipsGenericFanBase)
    (st : gmap string value) :
  let read k :=
    match REPLACE_PRESET self with
    | Some (source, target) => if decide (k = source) then target else k
    | None => k
    end in
  match preset_mode self st with
  | Some p =>
      ∃ before pattern after,
        _available_preset_modes self = before ++ (p, pattern) :: after ∧
        (∀ k v, (k, v) ∈ pattern → status_get st (read k) = v) ∧
        (∀ q pat, (q, pat) ∈ before →
           ∃ k v, (k, v) ∈ pat ∧ status_get st (read k) ≠ v)
  | None =>
      ∀ q pat, (q, pat) ∈ _available_preset_modes self →
        ∃ k v, (k, v) ∈ pat ∧ status_get st (read k) ≠ v
  end.
Proof.
  intros read. unfold preset_mode.
  assert (Hread : ∀ k, read k = replaced (REPLACE_PRESET self) k).
  { intros k. unfold read, replaced. by destruct (REPLACE_PRESET self) as [[]|]. }
  pose proof (preset_mode_loop_spec (REPLACE_PRESET self) st
                (_available_preset_modes self)) as H.
  destruct (preset_mode_loop _ _ _) as [p|].
  - destruct H as (before & pattern & after & Heq & Hp & Hb).
    exists before, pattern, after. split; [done|]. split.
    + intros k v Hin. rewrite Hread. by eapply pattern_holds_true.
    + intros q pat Hin. destruct (proj1 (pattern_holds_false _ _ _) (Hb q pat Hin))
        as (k & v & ? & ?). exists k, v. by rewrite Hread.
  - intros q pat Hin. destruct (proj1 (pattern_holds_false _ _ _) (H q pat Hin))
      as (k & v & ? & ?). exists k, v. by rewrite Hread.
Qed.

(** ** Capability registry *)

Lemma collect_list_cons {A} (name : class_decl → option (list A)) c bases :
  collect_list name (c :: bases) =
  collect_list name bases ++ getattr (c :: bases) name [].
Proof. unfold collect_list. cbn [classes rev]. by rewrite fold_left_app. Qed.

Lemma collect_dict_cons {V} (name : class_decl → option (dict V)) c bases :
  collect_dict name (c :: bases) =
  dict_update (collect_dict name bases) (getattr (c :: bases) name []).
Proof. unfold collect_dict. cbn [classes rev]. by rewrite fold_left_app. Qed.

Lemma collect_list_accumulates {A} (name : class_decl → option (list A))
    mro cls entries x :
  cls ∈ mro → name cls = Some entries → x ∈ entries → x ∈ collect_list name mro.
Proof.
  intros Hcls Hname Hx. induction mro as [|c bases IH]; [by apply elem_of_nil in Hcls|].
  rewrite collect_list_cons. apply elem_of_app.
  apply elem_of_cons in Hcls as [<-|Hin].
  - right. simpl. by rewrite Hname.
  - left. auto.
Qed.

(** Below the nearest declaring class, [getattr] finds a declaration of one
    of the classes in front of it, or that class's own. *)
Lemma getattr_nearest {A} (name : class_decl → option A) derived cls ancestors a dflt :
  name cls = Some a →
  getattr (derived ++ cls :: ancestors) name dflt = a ∨
  ∃ c a', c ∈ derived ∧ name c = Some a' ∧
          getattr (derived ++ cls :: ancestors) name dflt = a'.
Proof.
  intros Hcls. induction derived as [|c derived IH]; simpl.
  - left. by rewrite Hcls.
  - destruct (name c) as [a'|] eqn:Hc.
    + right. exists c, a'. split; [apply elem_of_cons; by left | done].
    + destruct IH as [->|(c' & a' & Hin & Hn & ->)]; [by left|].
      right. exists c', a'. split; [apply elem_of_cons; by right | done].
Qed.

Lemma collect_dict_overrides {V} (name : class_decl → option (dict V))
    derived cls ancestors table n v :
  name cls = Some table → NoDup (dict_keys table) → dict_get table n = Some v →
  (∀ c t, c ∈ derived → name c = Some t → dict_get t n = None) →
  dict_get (collect_dict name (derived ++ cls :: ancestors)) n = Some v.
Proof.
  intros Hcls Hnd Hv. induction derived as [|c derived IH]; intros Hfree.
  - simpl. rewrite collect_dict_cons. simpl. rewrite Hcls.
    by apply dict_get_update_present.
  - change ((c :: derived) ++ cls :: ancestors)
      with (c :: (derived ++ cls :: ancestors)).
    rewrite collect_dict_cons.
    destruct (getattr_nearest name (c :: derived) cls ancestors table [] Hcls)
      as [Heq|(c' & t' & Hin & Hn & Heq)];
      change ((c :: derived) ++ cls :: ancestors)
        with (c :: (derived ++ cls :: ancestors)) in Heq; rewrite Heq.
    + by apply dict_get_update_present.
    + rewrite dict_get_update_absent by eauto.
      apply IH. intros c0 t0 Hin0. apply Hfree. apply elem_of_cons; by right.
Qed.

(** C2. Assembly of the registry over the ancestor chain.
    (1) Accumulation: every entry of a list-shaped table declared by a
    class of the chain is in the assembled list (stated for the attribute
    table and for any other list-shaped name).
    (2) Override: for the map-shaped tables (preset modes, speeds) the
    assembled value of a name is the one of the most specific class
    declaring it, whatever the classes above it declare for that name (the
    declared table being a dict, its keys are distinct). *)
Theorem registry_accumulates_and_overrides :
  (∀ mro cls entries a,
     cls ∈ mro → AVAILABLE_ATTRIBUTES cls = Some entries → a ∈ entries →
     a ∈ _collect_available_attributes mro) ∧
  (∀ (name : class_decl → option (list string)) mro cls entries x,
     cls ∈ mro → name cls = Some entries → x ∈ entries →
     x ∈ collect_list name mro) ∧
  (∀ derived cls ancestors table n v,
     AVAILABLE_PRESET_MODES cls = Some table → NoDup (dict_keys table) →
     dict_get table n = Some v →
     (∀ c t, c ∈ derived → AVAILABLE_PRESET_MODES c = Some t → dict_get t n = None) →
     dict_get (_collect_available_preset_modes (derived ++ cls :: ancestors)) n
     = Some v) ∧
  (∀ derived cls ancestors table n v,
     AVAILABLE_SPEEDS cls = Some table → NoDup (dict_keys table) →
     dict_get table n = Some v →
     (∀ c t, c ∈ derived → AVAILABLE_SPEEDS c = Some t → dict_get t n = None) →
     dict_get (_collect_available_speeds (derived ++ cls :: ancestors)) n = Some v).
Proof.
  split; [|split; [|split]].
  - intros *. apply collect_list_accumulates.
  - intros *. apply collect_list_accumulates.
  - intros *. apply collect_dict_overrides.
  - intros *. apply collect_dict_overrides.
Qed.

Lemma registry_accumulates_and_overrides_witness :
  "err" ∈ collect_list AVAILABLE_BINARY_SENSORS
            (sample_subclass :: mro sample_ac1214) ∧
  dict_get (_collect_available_preset_modes (sample_subclass :: mro sample_ac1214))
           "night" = Some [("mode", VStr "S")] ∧
  dict_get (_collect_available_preset_modes (sample_subclass :: mro sample_ac1214))
           "allergen" = Some [("mode", VStr "A")] ∧
  dict_get (_collect_available_speeds (sample_subclass :: mro sample_ac1214))
           "turbo" = Some [("mode", VStr "M"); ("om", VStr "t")].
Proof.
  destruct registry_accumulates_and_overrides as (_ & Hlist & Hpreset & Hspeed).
  split; [|split; [|split]].
  - apply (Hlist AVAILABLE_BINARY_SENSORS _ sample_subclass ["err"]).
    + apply elem_of_cons; by left.
    + reflexivity.
    + apply elem_of_cons; by left.
  - apply (Hpreset [] sample_subclass (mro sample_ac1214)
             [("night", [("mode", VStr "S")])]).
    + reflexivity.
    + apply (bool_decide_unpack _). by vm_compute.
    + reflexivity.
    + intros c t Hin. by apply elem_of_nil in Hin.
  - apply (Hpreset [sample_subclass]
             (PhilipsAC1214.PhilipsAC1214 sample_const)
             (tail (mro sample_ac1214))
             (default [] (AVAILABLE_PRESET_MODES
                            (PhilipsAC1214.PhilipsAC1214 sample_const)))).
    + reflexivity.
    + apply (bool_decide_unpack _). by vm_compute.
    + reflexivity.
    + intros c t Hin Ht. apply list_elem_of_singleton in Hin as ->.
      injection Ht as <-. reflexivity.
  - apply (Hspeed [sample_subclass]
             (PhilipsAC1214.PhilipsAC1214 sample_const)
             (tail (mro sample_ac1214))
             (default [] (AVAILABLE_SPEEDS
                            (PhilipsAC1214.PhilipsAC1214 sample_const)))).
    + reflexivity.
    + apply (bool_decide_unpack _). by vm_compute.
    + reflexivity.
    + intros c t Hin Ht. apply list_elem_of_singleton in Hin as ->.
      injection Ht as <-. reflexivity.
Defined.

(** ** Keys of assembled tables are distinct *)

Lemma dict_keys_set {V} (d : dict V) k v :
  dict_keys (dict_set d k v) =
  if decide (k ∈ dict_keys d) then dict_keys d else dict_keys d ++ [k].
Proof.
  induction d as [|[k0 v0] d IH].
  - destruct (decide (k ∈ dict_keys [])) as [Hin|]; [|done].
    by apply elem_of_nil in Hin.
  - cbn [dict_set]. destruct (decide (k0 = k)) as [->|Hne].
    + destruct (decide (k ∈ dict_keys ((k, v0) :: d))) as [|Hnin]; [done|].
      exfalso. apply Hnin. apply elem_of_cons; by left.
    + change (k0 :: dict_keys (dict_set d k v) =
              if decide (k ∈ k0 :: dict_keys d)
              then k0 :: dict_keys d else (k0 :: dict_keys d) ++ [k]).
      rewrite IH. destruct (decide (k ∈ dict_keys d)) as [Hin|Hnin].
      * destruct (decide (k ∈ k0 :: dict_keys d)) as [|Hn]; [done|].
        exfalso. apply Hn. apply elem_of_cons; by right.
      * destruct (decide (k ∈ k0 :: dict_keys d)) as [Hin|]; [|done].
        apply elem_of_cons in Hin as [->|]; done.
Qed.

Lemma dict_set_NoDup {V} (d : dict V) k v :
  NoDup (dict_keys d) → NoDup (dict_keys (dict_set d k v)).
Proof.
  intros H. rewrite dict_keys_set. destruct (decide (k ∈ dict_keys d)); [done|].
  apply NoDup_app. split; [done|]. split.
  - intros x Hx ->%list_elem_of_singleton. done.
  - apply NoDup_singleton.
Qed.

Lemma dict_update_NoDup {V} (d other : dict V) :
  NoDup (dict_keys d) → NoDup (dict_keys (dict_update d other)).
Proof.
  unfold dict_update. revert d. induction other as [|[k v] other IH]; intros d H; simpl.
  - done.
  - apply IH. by apply dict_set_NoDup.
Qed.

Lemma collect_dict_NoDup {V} (name : class_decl → option (dict V)) mro :
  NoDup (dict_keys (collect_dict name mro)).
Proof.
  induction mro as [|c bases IH].
  - apply NoDup_nil_2.
  - rewrite collect_dict_cons. by apply dict_update_NoDup.
Qed.

Lemma dict_get_lookup {V} (d : dict V) i k v :
  NoDup (dict_keys d) → d !! i = Some (k, v) → dict_get d k = Some v.
Proof.
  revert i. induction d as [|[k0 v0] d IH]; intros i Hnd Hi; [done|].
  apply NoDup_cons in Hnd as [Hk0 Hnd]. simpl. destruct i as [|i]; simpl in Hi.
  - injection Hi as -> ->. by rewrite decide_True.
  - rewrite decide_False; [by eapply IH|].
    intros ->. apply Hk0. apply list_elem_of_fmap. exists (k, v). split; [done|].
    by eapply list_elem_of_lookup_2.
Qed.

(** ** The ordinal discretization *)

(** The two tables of the library's documentation. *)
Example ordered_list_item_to_percentage_table :
  map (ordered_list_item_to_percentage ["low"; "medium"; "high"; "very_high"])
      ["low"; "medium"; "high"; "very_high"; "off"]
  = [Return 25%Z; Return 50%Z; Return 75%Z; Return 100%Z; Raise ValueError].
Proof. reflexivity. Qed.

Example percentage_to_ordered_list_item_table :
  map (percentage_to_ordered_list_item ["low"; "medium"; "high"; "very_high"])
      [1; 25; 26; 50; 51; 75; 76; 100]%Z
  = [Return "low"; Return "low"; Return "medium"; Return "medium";
     Return "high"; Return "high"; Return "very_high"; Return "very_high"].
Proof. reflexivity. Qed.

Lemma percentage_scan_Some list_len n offset l speed :
  percentage_scan list_len n offset l = Some speed →
  ∃ i, l !! i = Some speed ∧
       (n ≤ ((Z.of_nat (offset + i) + 1) * 100) `div` list_len)%Z ∧
       ∀ j, j < i → (((Z.of_nat (offset + j) + 1) * 100) `div` list_len < n)%Z.
Proof.
  revert offset. induction l as [|x l IH]; intros offset; simpl; [done|].
  case_bool_decide as Hle.
  - intros [= ->]. exists 0. rewrite Nat.add_0_r. split; [done|]. split; [done|]. lia.
  - intros H. destruct (IH _ H) as (i & Hi & Hub & Hlow). exists (S i).
    replace (offset + S i) with (S offset + i) by lia. split; [done|]. split; [done|].
    intros [|j] Hj.
    + rewrite Nat.add_0_r. lia.
    + replace (offset + S j) with (S offset + j) by lia. apply Hlow. lia.
Qed.

Lemma percentage_scan_reaches list_len n offset l :
  l ≠ [] → Z.of_nat (offset + length l) = list_len → (n ≤ 100)%Z →
  is_Some (percentage_scan list_len n offset l).
Proof.
  revert offset. induction l as [|x l IH]; intros offset Hne Hlen Hn; [done|].
  simpl. case_bool_decide as Hle; [by eexists|].
  destruct l as [|y l].
  - exfalso. apply Hle. simpl in Hlen.
    replace ((Z.of_nat offset + 1) * 100)%Z with (100 * list_len)%Z by lia.
    rewrite Z.div_mul by lia. done.
  - apply IH; [done| |done]. simpl in *. lia.
Qed.

(** ** Commands of the generic fan *)

Ltac run :=
  cbv [mbind mret state_exn_bind state_exn_ret lift_outcome raise emit
       set_control_value set_control_values asyncio_sleep mutate_status
       _device_status _handle_coordinator_update];
  cbn [status trace].

Lemma async_turn_off_run self w :
  async_turn_off self w =
  (Return tt,
   {| status := <[KEY_PHILIPS_POWER self := STATE_POWER_OFF self]> (status w);
      trace := trace w ++ [SetControlValue (KEY_PHILIPS_POWER self)
                                           (STATE_POWER_OFF self);
                           WriteHaState] |}).
Proof. unfold async_turn_off. run. by rewrite <- app_assoc. Qed.

Lemma async_set_percentage_run self w n :
  (0 < n ≤ 100)%Z → _speeds self ≠ [] →
  ∃ i speed pattern,
    _available_speeds self !! i = Some (speed, pattern) ∧
    (n ≤ ((Z.of_nat i + 1) * 100) `div` Z.of_nat (length (_speeds self)))%Z ∧
    (∀ j, j < i →
       (((Z.of_nat j + 1) * 100) `div` Z.of_nat (length (_speeds self)) < n)%Z) ∧
    async_set_percentage self n w =
    (Return tt,
     {| status := status_update (status w) pattern;
        trace := trace w ++
                 match pattern with
                 | [] => []
                 | _ :: _ => [SetControlValues pattern]
                 end ++ [WriteHaState] |}).
Proof.
  intros Hrange Hne. unfold async_set_percentage.
  rewrite bool_decide_eq_false_2 by lia.
  unfold percentage_to_ordered_list_item.
  destruct (percentage_scan_reaches (Z.of_nat (length (_speeds self))) n 0
              (_speeds self)) as [speed Hscan]; [done|done|lia|].
  destruct (percentage_scan_Some _ _ _ _ _ Hscan) as (i & Hi & Hub & Hlow).
  apply (list_lookup_fmap_Some_1 fst (_available_speeds self)) in Hi
    as ([k pattern] & -> & Hentry). cbn [fst] in *.
  exists i, k, pattern. split; [done|]. split; [done|]. split; [done|].
  assert (dict_get (_available_speeds self) k = Some pattern) as Hget.
  { eapply dict_get_lookup; [apply collect_dict_NoDup | done]. }
  destruct (_speeds self) as [|first rest]; [done|].
  rewrite Hscan. run. rewrite Hget.
  destruct pattern; run; [done|]. by rewrite <- app_assoc.
Qed.

(** C4 (amended). Setting a percentage [n] of 0..100 on the generic fan.
    With [n = 0] the command is Turn off: one write of the power key to its
    off value.  With [n > 0] (and speeds declared) the speed is the one at
    the least ordinal [i] whose percentage [(i + 1) * 100 // N] is at least
    [n], so the request is rounded up to a step, not to the nearest one.
    The whole pattern of that speed goes to the transport in one
    [set_control_values] call, or in none when the pattern is empty; no
    [set_control_value] call is made. *)
Theorem set_percentage_single_batch (self : PhilipsGenericFanBase) (w : world)
    (n : Z) :
  (0 ≤ n ≤ 100)%Z →
  (n = 0%Z →
     async_set_percentage self n w = async_turn_off self w ∧
     async_set_percentage self n w =
     (Return tt,
      {| status := <[KEY_PHILIPS_POWER self := STATE_POWER_OFF self]> (status w);
         trace := trace w ++ [SetControlValue (KEY_PHILIPS_POWER self)
                                              (STATE_POWER_OFF self);
                              WriteHaState] |})) ∧
  ((0 < n)%Z → _speeds self ≠ [] →
     ∃ i speed pattern,
       _available_speeds self !! i = Some (speed, pattern) ∧
       (n ≤ ((Z.of_nat i + 1) * 100) `div` Z.of_nat (length (_speeds self)))%Z ∧
       (∀ j, j < i →
          (((Z.of_nat j + 1) * 100) `div` Z.of_nat (length (_speeds self)) < n)%Z) ∧
       async_set_percentage self n w =
       (Return tt,
        {| status := status_update (status w) pattern;
           trace := trace w ++
                    match pattern with
                    | [] => []
                    | _ :: _ => [SetControlValues pattern]
                    end ++ [WriteHaState] |})).
Proof.
  intros Hrange. split.
  - intros ->. split; [done|]. apply async_turn_off_run.
  - intros Hpos Hne. apply async_set_percentage_run; [lia | done].
Qed.

Lemma set_percentage_single_batch_witness :
  async_set_percentage sample_ac0950 50 (start (sample_status [("D03102", VInt 0)]))
  = (Return tt,
     {| status := sample_status [("D03102", VInt 1); ("D0310C", VInt 19)];
        trace := [SetControlValues [("D03102", VInt 1); ("D0310C", VInt 19)];
                  WriteHaState] |}) ∧
  async_set_percentage sample_ac0950 0 (start (sample_status [("D03102", VInt 1)]))
  = (Return tt,
     {| status := sample_status [("D03102", VInt 0)];
        trace := [SetControlValue "D03102" (VInt 0); WriteHaState] |}).
Proof.
  split.
  - destruct (set_percentage_single_batch sample_ac0950
                (start (sample_status [("D03102", VInt 0)])) 50 ltac:(lia))
      as [_ H].
    destruct (H ltac:(lia) ltac:(done)) as (i & speed & pattern & _ & _ & _ & Hrun).
    rewrite Hrun. by vm_compute.
  - destruct (set_percentage_single_batch sample_ac0950
                (start (sample_status [("D03102", VInt 1)])) 0 ltac:(lia))
      as [H _].
    destruct (H eq_refl) as [_ Hrun]. rewrite Hrun. by vm_compute.
Defined.

(** The claim as worded asks for the nearest declared speed.  With the three
    speeds of the AC0950 the steps are 33, 66 and 100; a request of 34 is one
    point from "sleep" and 32 points from "medium", and the command sends
    the pattern of "medium", after which 66 is read back.  And a speed whose
    pattern is empty is set without any call on the client. *)
Lemma set_percentage_rounds_up_not_nearest :
  let w := start (sample_status [("D03102", VInt 1); ("D0310C", VInt 17)]) in
  let r := async_set_percentage sample_ac0950 34 w in
  _speeds sample_ac0950 = ["sleep"; "medium"; "turbo"] ∧
  ordered_list_item_to_percentage (_speeds sample_ac0950) "sleep" = Return 33%Z ∧
  ordered_list_item_to_percentage (_speeds sample_ac0950) "medium" = Return 66%Z ∧
  (Z.abs (34 - 33) < Z.abs (34 - 66))%Z ∧
  percentage sample_ac0950 (status w) = Return (Some 33%Z) ∧
  r.1 = Return tt ∧
  trace r.2 = [SetControlValues [("D03102", VInt 1); ("D0310C", VInt 19)];
               WriteHaState] ∧
  percentage sample_ac0950 (status r.2) = Return (Some 66%Z) ∧
  async_set_percentage sample_idle_fan 50 w
    = (Return tt, {| status := status w; trace := [WriteHaState] |}).
Proof. intros w r. repeat split; by vm_compute. Qed.

(** ** Dict displays with distinct keys *)

Lemma dict_set_fresh {V} (d : dict V) k v :
  k ∉ dict_keys d → dict_set d k v = d ++ [(k, v)].
Proof.
  induction d as [|[k0 v0] d IH]; intros Hk; [done|].
  apply not_elem_of_cons in Hk as [Hne Hk]. cbn [dict_set].
  rewrite decide_False by (intros ->; by apply Hne). by rewrite IH.
Qed.

Lemma dict_update_fresh {V} (d items : dict V) :
  NoDup (dict_keys d ++ dict_keys items) → dict_update d items = d ++ items.
Proof.
  unfold dict_update. revert d.
  induction items as [|[k v] items IH]; intros d Hnd; cbn [fold_left].
  - by rewrite app_nil_r.
  - cbn [fst snd]. apply NoDup_app in Hnd as (Hd & Hdisj & Hitems).
    apply NoDup_cons in Hitems as [Hk Hitems].
    rewrite dict_set_fresh.
    + rewrite IH; [by rewrite <- app_assoc|].
      unfold dict_keys. rewrite map_app. cbn [map fst].
      apply NoDup_app. split; [|split; [|done]].
      * apply NoDup_app. split; [done|]. split; [|apply NoDup_singleton].
        intros x Hx ->%list_elem_of_singleton. apply (Hdisj k Hx).
        apply elem_of_cons; by left.
      * intros x [Hx| ->%list_elem_of_singleton]%elem_of_app.
        -- intros Hin. apply (Hdisj x Hx). apply elem_of_cons; by right.
        -- done.
    + intros Hin. apply (Hdisj k Hin). apply elem_of_cons; by left.
Qed.

Lemma dict_literal_NoDup {V} (items : list (string * V)) :
  NoDup (dict_keys items) → dict_literal items = items.
Proof. intros H. unfold dict_literal. by rewrite dict_update_fresh. Qed.

(** ** The tables of the AC1214 *)

Section ac1214_tables.
Variable c : const_py.
Variable attrs : list attribute.
Hypothesis names_distinct :
  NoDup [PresetMode_AUTO c; PresetMode_ALLERGEN c; PresetMode_NIGHT c;
         PresetMode_SPEED_1 c; PresetMode_SPEED_2 c; PresetMode_SPEED_3 c;
         PresetMode_TURBO c].
Hypothesis keys_distinct : PhilipsApi_MODE c ≠ PhilipsApi_SPEED c.

Lemma ac1214_manual speed :
  PhilipsAC1214.manual c speed =
  [(PhilipsApi_MODE c, VStr "M"); (PhilipsApi_SPEED c, VStr speed)].
Proof.
  unfold PhilipsAC1214.manual. apply dict_literal_NoDup. cbn [dict_keys map fst].
  apply NoDup_cons. split; [|apply NoDup_singleton].
  by intros H%list_elem_of_singleton.
Qed.

Lemma ac1214_available_preset_modes :
  _available_preset_modes (PhilipsAC1214.self c attrs) =
  [ (PresetMode_AUTO c, [(PhilipsApi_MODE c, VStr "P")]);
    (PresetMode_ALLERGEN c, [(PhilipsApi_MODE c, VStr "A")]);
    (PresetMode_NIGHT c, [(PhilipsApi_MODE c, VStr "N")]);
    (PresetMode_SPEED_1 c, [(PhilipsApi_MODE c, VStr "M"); (PhilipsApi_SPEED c, VStr "1")]);
    (PresetMode_SPEED_2 c, [(PhilipsApi_MODE c, VStr "M"); (PhilipsApi_SPEED c, VStr "2")]);
    (PresetMode_SPEED_3 c, [(PhilipsApi_MODE c, VStr "M"); (PhilipsApi_SPEED c, VStr "3")]);
    (PresetMode_TURBO c, [(PhilipsApi_MODE c, VStr "M"); (PhilipsApi_SPEED c, VStr "t")]) ].
Proof.
  unfold _available_preset_modes, _collect_available_preset_modes,
    PhilipsAC1214.self. cbn [mro].
  rewrite !collect_dict_cons.
  cbn [getattr AVAILABLE_PRESET_MODES PhilipsAC1214.PhilipsAC1214
       PhilipsAC1214.PhilipsGenericFan PhilipsGenericFanBase_cls
       PhilipsGenericControlBase PhilipsEntity object].
  change (collect_dict AVAILABLE_PRESET_MODES []) with (@nil (string * dict value)).
  change (dict_update (V:=dict value) [] []) with (@nil (string * dict value)).
  rewrite !ac1214_manual.
  change (dict_literal [(PhilipsApi_MODE c, VStr "P")])
    with [(PhilipsApi_MODE c, VStr "P")].
  change (dict_literal [(PhilipsApi_MODE c, VStr "A")])
    with [(PhilipsApi_MODE c, VStr "A")].
  change (dict_literal [(PhilipsApi_MODE c, VStr "N")])
    with [(PhilipsApi_MODE c, VStr "N")].
  rewrite dict_literal_NoDup by exact names_distinct.
  rewrite dict_update_fresh; [done | exact names_distinct].
Qed.

Lemma ac1214_available_speeds :
  _available_speeds (PhilipsAC1214.self c attrs) =
  [ (PresetMode_NIGHT c, [(PhilipsApi_MODE c, VStr "N")]);
    (PresetMode_SPEED_1 c, [(PhilipsApi_MODE c, VStr "M"); (PhilipsApi_SPEED c, VStr "1")]);
    (PresetMode_SPEED_2 c, [(PhilipsApi_MODE c, VStr "M"); (PhilipsApi_SPEED c, VStr "2")]);
    (PresetMode_SPEED_3 c, [(PhilipsApi_MODE c, VStr "M"); (PhilipsApi_SPEED c, VStr "3")]);
    (PresetMode_TURBO c, [(PhilipsApi_MODE c, VStr "M"); (PhilipsApi_SPEED c, VStr "t")]) ].
Proof.
  assert (NoDup [PresetMode_NIGHT c; PresetMode_SPEED_1 c; PresetMode_SPEED_2 c;
                 PresetMode_SPEED_3 c; PresetMode_TURBO c]) as Hnd.
  { pose proof names_distinct as H.
    apply NoDup_cons in H as [_ H]. by apply NoDup_cons in H as [_ H]. }
  unfold _available_speeds, _collect_available_speeds, PhilipsAC1214.self.
  cbn [mro]. rewrite !collect_dict_cons.
  cbn [getattr AVAILABLE_SPEEDS PhilipsAC1214.PhilipsAC1214
       PhilipsAC1214.PhilipsGenericFan PhilipsGenericFanBase_cls
       PhilipsGenericControlBase PhilipsEntity object].
  change (collect_dict AVAILABLE_SPEEDS []) with (@nil (string * dict value)).
  change (dict_update (V:=dict value) [] []) with (@nil (string * dict value)).
  rewrite !ac1214_manual.
  change (dict_literal [(PhilipsApi_MODE c, VStr "N")])
    with [(PhilipsApi_MODE c, VStr "N")].
  rewrite dict_literal_NoDup by exact Hnd.
  rewrite dict_update_fresh; [done | exact Hnd].
Qed.

End ac1214_tables.

(** ** The sequenced commands of the AC1214 *)

Section ac1214_commands.
Variable c : const_py.
Variable attrs : list attribute.
Hypothesis names_distinct :
  NoDup [PresetMode_AUTO c; PresetMode_ALLERGEN c; PresetMode_NIGHT c;
         PresetMode_SPEED_1 c; PresetMode_SPEED_2 c; PresetMode_SPEED_3 c;
         PresetMode_TURBO c].
Hypothesis keys_distinct : PhilipsApi_MODE c ≠ PhilipsApi_SPEED c.

Let self := PhilipsAC1214.self c attrs.

Lemma ac1214_allergen_pattern :
  dict_get (_available_preset_modes self) (PresetMode_ALLERGEN c)
  = Some [(PhilipsApi_MODE c, VStr "A")].
Proof.
  unfold self. rewrite ac1214_available_preset_modes by done.
  cbn [dict_get]. rewrite decide_False, decide_True; [done|done|].
  pose proof names_distinct as [H _]%NoDup_cons.
  intros Heq. apply H. rewrite Heq. apply elem_of_cons; by left.
Qed.

Lemma ac1214_preset_pattern_nonempty p pattern :
  dict_get (_available_preset_modes self) p = Some pattern → pattern ≠ [].
Proof.
  intros H%dict_get_Some_elem. unfold self in H.
  rewrite ac1214_available_preset_modes in H by done.
  repeat (apply elem_of_cons in H as [[= _ ->]|H]; [done|]).
  by apply elem_of_nil in H.
Qed.

Lemma ac1214_speed_pattern_nonempty p pattern :
  dict_get (_available_speeds self) p = Some pattern → pattern ≠ [].
Proof.
  intros H%dict_get_Some_elem. unfold self in H.
  rewrite ac1214_available_speeds in H by done.
  repeat (apply elem_of_cons in H as [[= _ ->]|H]; [done|]).
  by apply elem_of_nil in H.
Qed.

Lemma ensure_power_on_run on w :
  dict_get (PhilipsApi_POWER_MAP c) (SWITCH_ON c) = Some on →
  PhilipsAC1214._ensure_power_on c attrs w =
  (Return tt,
   {| status := status w; trace := trace w ++ PhilipsAC1214.power_on_prefix c attrs on (status w) |}).
Proof.
  intros Hon. unfold PhilipsAC1214._ensure_power_on, PhilipsAC1214.power_on_prefix. run.
  fold self. destruct (is_on self (status w)); cbn [negb].
  - rewrite app_nil_r. by destruct w.
  - rewrite Hon. run. by rewrite <- app_assoc.
Qed.

Lemma ensure_mode_transition_run target_mode w :
  PhilipsAC1214._ensure_mode_transition c attrs target_mode w =
  (Return tt,
   {| status := status w; trace := trace w ++ PhilipsAC1214.intermediate c attrs target_mode (status w) |}).
Proof.
  unfold PhilipsAC1214._ensure_mode_transition, PhilipsAC1214.intermediate,
    PhilipsAC1214.projected_mode. run. fold self.
  destruct (preset_mode self (status w)) as [p|];
    [|rewrite app_nil_r; by destruct w].
  destruct (dict_get (_available_preset_modes self) p) as [[|kv current]|];
    [rewrite app_nil_r; by destruct w| |rewrite app_nil_r; by destruct w].
  destruct (bool_decide (target_mode ≠ VStr "A")
            && bool_decide (default VNone
                              (dict_get (kv :: current) (PhilipsApi_MODE c))
                            ≠ VStr "M"));
    [|rewrite app_nil_r; by destruct w].
  rewrite ac1214_allergen_pattern. run. by rewrite <- app_assoc.
Qed.

Lemma ac1214_set_preset_mode_run on target pattern w :
  dict_get (PhilipsApi_POWER_MAP c) (SWITCH_ON c) = Some on →
  dict_get (_available_preset_modes self) target = Some pattern →
  PhilipsAC1214.async_set_preset_mode c attrs target w =
  (Return tt,
   {| status := status w;
      trace := trace w ++ PhilipsAC1214.power_on_prefix c attrs on (status w)
               ++ PhilipsAC1214.intermediate c attrs (default VNone (dict_get pattern (PhilipsApi_MODE c)))
                               (status w)
               ++ [SetControlValues pattern] |}).
Proof.
  intros Hon Hp. unfold PhilipsAC1214.async_set_preset_mode.
  cbv [mbind state_exn_bind]. rewrite (ensure_power_on_run on) by done.
  fold self. rewrite Hp.
  destruct pattern as [|kv pattern]; [by apply ac1214_preset_pattern_nonempty in Hp|].
  rewrite ensure_mode_transition_run. run. by rewrite <- !app_assoc.
Qed.

Lemma ac1214_set_percentage_run on n speed pattern w :
  dict_get (PhilipsApi_POWER_MAP c) (SWITCH_ON c) = Some on →
  n ≠ 0%Z →
  percentage_to_ordered_list_item (_speeds self) n = Return speed →
  dict_get (_available_speeds self) speed = Some pattern →
  PhilipsAC1214.async_set_percentage c attrs n w =
  (Return tt,
   {| status := status w;
      trace := trace w ++ PhilipsAC1214.power_on_prefix c attrs on (status w)
               ++ PhilipsAC1214.intermediate c attrs (default VNone (dict_get pattern (PhilipsApi_MODE c)))
                               (status w)
               ++ [SetControlValues pattern] |}).
Proof.
  intros Hon Hn Hspeed Hp. unfold PhilipsAC1214.async_set_percentage.
  cbv [mbind state_exn_bind]. rewrite (ensure_power_on_run on) by done.
  rewrite bool_decide_eq_false_2 by done.
  fold self. rewrite Hspeed. cbv [lift_outcome]. rewrite Hp.
  destruct pattern as [|kv pattern]; [by apply ac1214_speed_pattern_nonempty in Hp|].
  rewrite ensure_mode_transition_run. run. by rewrite <- !app_assoc.
Qed.

End ac1214_commands.

Lemma ac1214_trace_extends_preset c attrs on p w :
  NoDup [PresetMode_AUTO c; PresetMode_ALLERGEN c; PresetMode_NIGHT c;
         PresetMode_SPEED_1 c; PresetMode_SPEED_2 c; PresetMode_SPEED_3 c;
         PresetMode_TURBO c] →
  PhilipsApi_MODE c ≠ PhilipsApi_SPEED c →
  dict_get (PhilipsApi_POWER_MAP c) (SWITCH_ON c) = Some on →
  ∃ rest,
    trace (PhilipsAC1214.async_set_preset_mode c attrs p w).2 =
    trace w ++ PhilipsAC1214.power_on_prefix c attrs on (status w) ++ rest.
Proof.
  intros Hn Hk Hon.
  destruct (dict_get (_available_preset_modes (PhilipsAC1214.self c attrs)) p)
    as [pattern|] eqn:Hp.
  - rewrite (ac1214_set_preset_mode_run c attrs Hn Hk on p pattern) by done.
    eexists. reflexivity.
  - unfold PhilipsAC1214.async_set_preset_mode. cbv [mbind state_exn_bind].
    rewrite (ensure_power_on_run c attrs on) by done. rewrite Hp.
    exists []. by rewrite app_nil_r.
Qed.

Lemma ac1214_trace_extends_percentage c attrs on n w :
  NoDup [PresetMode_AUTO c; PresetMode_ALLERGEN c; PresetMode_NIGHT c;
         PresetMode_SPEED_1 c; PresetMode_SPEED_2 c; PresetMode_SPEED_3 c;
         PresetMode_TURBO c] →
  PhilipsApi_MODE c ≠ PhilipsApi_SPEED c →
  dict_get (PhilipsApi_POWER_MAP c) (SWITCH_ON c) = Some on →
  ∃ rest,
    trace (PhilipsAC1214.async_set_percentage c attrs n w).2 =
    trace w ++ PhilipsAC1214.power_on_prefix c attrs on (status w) ++ rest.
Proof.
  intros Hn Hk Hon.
  unfold PhilipsAC1214.async_set_percentage. cbv [mbind state_exn_bind].
  rewrite (ensure_power_on_run c attrs on) by done.
  case_bool_decide as H0.
  - rewrite async_turn_off_run. cbn [snd trace]. eexists. by rewrite <- app_assoc.
  - cbv [lift_outcome].
    destruct (percentage_to_ordered_list_item _ n) as [speed|e];
      [|exists []; by rewrite app_nil_r].
    destruct (dict_get (_available_speeds (PhilipsAC1214.self c attrs)) speed)
      as [[|kv pattern]|]; try (exists []; by rewrite app_nil_r).
    rewrite ensure_mode_transition_run by done. run.
    eexists. by rewrite <- !app_assoc.
Qed.

(** C5 (amended). The sequenced strategy of the AC1214.  A preset or speed
    change requested while the device is off starts with the power-on write
    followed by the settle delay of one second, before any mode write.  When
    the target mode is not ["A"] and a preset is currently projected whose
    pattern has a mode other than ["M"], the allergen pattern [{MODE: "A"}]
    and the settle delay are written before the target pattern. *)
Theorem ac1214_sequenced_commands (c : const_py) (attrs : list attribute)
    (on : value) (w : world) :
  NoDup [PresetMode_AUTO c; PresetMode_ALLERGEN c; PresetMode_NIGHT c;
         PresetMode_SPEED_1 c; PresetMode_SPEED_2 c; PresetMode_SPEED_3 c;
         PresetMode_TURBO c] →
  PhilipsApi_MODE c ≠ PhilipsApi_SPEED c →
  dict_get (PhilipsApi_POWER_MAP c) (SWITCH_ON c) = Some on →
  let self := PhilipsAC1214.self c attrs in
  let power_on :=
    if is_on self (status w) then []
    else [SetControlValue (PhilipsApi_POWER c) on; Sleep 1] in
  let allergen := SetControlValues [(PhilipsApi_MODE c, VStr "A")] in
  (∀ p, ∃ rest,
     trace (PhilipsAC1214.async_set_preset_mode c attrs p w).2 =
     trace w ++ power_on ++ rest) ∧
  (∀ n, ∃ rest,
     trace (PhilipsAC1214.async_set_percentage c attrs n w).2 =
     trace w ++ power_on ++ rest) ∧
  (∀ target pattern m,
     dict_get (_available_preset_modes self) target = Some pattern →
     default VNone (dict_get pattern (PhilipsApi_MODE c)) ≠ VStr "A" →
     PhilipsAC1214.projected_mode c attrs (status w) = Some m → m ≠ VStr "M" →
     let r := PhilipsAC1214.async_set_preset_mode c attrs target w in
     r.1 = Return tt ∧
     trace r.2 =
     trace w ++ power_on ++ [allergen; Sleep 1; SetControlValues pattern]) ∧
  (∀ n speed pattern m,
     n ≠ 0%Z →
     percentage_to_ordered_list_item (_speeds self) n = Return speed →
     dict_get (_available_speeds self) speed = Some pattern →
     default VNone (dict_get pattern (PhilipsApi_MODE c)) ≠ VStr "A" →
     PhilipsAC1214.projected_mode c attrs (status w) = Some m → m ≠ VStr "M" →
     let r := PhilipsAC1214.async_set_percentage c attrs n w in
     r.1 = Return tt ∧
     trace r.2 =
     trace w ++ power_on ++ [allergen; Sleep 1; SetControlValues pattern]).
Proof.
  intros Hn Hk Hon self power_on allergen.
  split; [|split; [|split]].
  - intros p. by apply ac1214_trace_extends_preset.
  - intros n. by apply ac1214_trace_extends_percentage.
  - intros target pattern m Hp HA Hm HM r. subst r.
    rewrite (ac1214_set_preset_mode_run c attrs Hn Hk on target pattern) by done.
    split; [done|]. cbn [snd trace]. unfold PhilipsAC1214.intermediate.
    rewrite Hm, !bool_decide_eq_true_2 by done. done.
  - intros n speed pattern m H0 Hspeed Hp HA Hm HM r. subst r.
    rewrite (ac1214_set_percentage_run c attrs Hn Hk on n speed pattern) by done.
    split; [done|]. cbn [snd trace]. unfold PhilipsAC1214.intermediate.
    rewrite Hm, !bool_decide_eq_true_2 by done. done.
Qed.

Lemma ac1214_sequenced_commands_witness :
  trace (PhilipsAC1214.async_set_preset_mode sample_const [] "night"
           (start (sample_status [("pwr", VStr "0"); ("mode", VStr "P")]))).2
  = [SetControlValue "pwr" (VStr "1"); Sleep 1;
     SetControlValues [("mode", VStr "A")]; Sleep 1;
     SetControlValues [("mode", VStr "N")]] ∧
  trace (PhilipsAC1214.async_set_percentage sample_const [] 100
           (start (sample_status [("pwr", VStr "1"); ("mode", VStr "N")]))).2
  = [SetControlValues [("mode", VStr "A")]; Sleep 1;
     SetControlValues [("mode", VStr "M"); ("om", VStr "t")]].
Proof.
  split.
  - destruct (ac1214_sequenced_commands sample_const [] (VStr "1")
                (start (sample_status [("pwr", VStr "0"); ("mode", VStr "P")])))
      as (_ & _ & H & _).
    + apply (bool_decide_unpack _). by vm_compute.
    + done.
    + reflexivity.
    + destruct (H "night" [("mode", VStr "N")] (VStr "P")) as [_ Htrace];
        [reflexivity | done | by vm_compute | done |].
      rewrite Htrace. reflexivity.
  - destruct (ac1214_sequenced_commands sample_const [] (VStr "1")
                (start (sample_status [("pwr", VStr "1"); ("mode", VStr "N")])))
      as (_ & _ & _ & H).
    + apply (bool_decide_unpack _). by vm_compute.
    + done.
    + reflexivity.
    + destruct (H 100%Z "turbo" [("mode", VStr "M"); ("om", VStr "t")] (VStr "N"))
        as [_ Htrace];
        [done | reflexivity | reflexivity | done | by vm_compute | done |].
      rewrite Htrace. reflexivity.
Defined.

(** The claim as worded asks for the intermediate write whenever the
    projected mode is not ["M"]; with no preset projected there is no such
    write. *)
Lemma ac1214_no_intermediate_without_projected_preset :
  let st := sample_status [("pwr", VStr "1"); ("mode", VStr "B"); ("om", VStr "1")] in
  let r := PhilipsAC1214.async_set_preset_mode sample_const [] "night" (start st) in
  dict_get (_available_preset_modes sample_ac1214) "night"
    = Some [("mode", VStr "N")] ∧
  VStr "N" ≠ VStr "A" ∧
  is_on sample_ac1214 st = true ∧
  preset_mode sample_ac1214 st = None ∧
  PhilipsAC1214.projected_mode sample_const [] st ≠ Some (VStr "M") ∧
  r.1 = Return tt ∧
  trace r.2 = [SetControlValues [("mode", VStr "N")]] ∧
  SetControlValues [("mode", VStr "A")] ∉ trace r.2.
Proof.
  intros st r. repeat split; try done; try by vm_compute.
  vm_compute. intros H. apply list_elem_of_singleton in H. discriminate H.
Qed.

(** ** Optimistic updates of the generic fan *)

Lemma status_update_absent st (pattern : dict value) k :
  dict_get pattern k = None → status_update st pattern !! k = st !! k.
Proof.
  unfold status_update. revert st.
  induction pattern as [|[k0 v0] pattern IH]; intros st; simpl; [done|].
  destruct (decide (k0 = k)) as [->|Hne]; [done|].
  intros H. rewrite IH by done. by rewrite lookup_insert_ne.
Qed.

Lemma status_update_present st (pattern : dict value) k v :
  NoDup (dict_keys pattern) → dict_get pattern k = Some v →
  status_update st pattern !! k = Some v.
Proof.
  unfold status_update. revert st.
  induction pattern as [|[k0 v0] pattern IH]; intros st Hnd; simpl; [done|].
  apply NoDup_cons in Hnd as [Hk0 Hnd].
  destruct (decide (k0 = k)) as [->|Hne].
  - intros [= ->].
    change (status_update (<[k:=v]> st) pattern !! k = Some v).
    rewrite status_update_absent by (by apply dict_get_None).
    apply lookup_insert_eq.
  - intros H. by apply IH.
Qed.

Lemma dict_get_elem {V} (d : dict V) k v :
  NoDup (dict_keys d) → (k, v) ∈ d → dict_get d k = Some v.
Proof.
  intros Hnd (i & Hi)%list_elem_of_lookup_1. by eapply dict_get_lookup.
Qed.

Lemma status_update_holds st (pattern : dict value) :
  NoDup (dict_keys pattern) →
  pattern_holds None (status_update st pattern) pattern = true.
Proof.
  intros Hnd. apply pattern_holds_true. intros k v Hin. cbn [replaced].
  unfold status_get. by rewrite (status_update_present st pattern k v)
    by (by try apply dict_get_elem).
Qed.

(** What the generic commands leave in the store. *)
Lemma generic_commands_update_store self w :
  status (async_turn_on self None None w).2
    = <[KEY_PHILIPS_POWER self := STATE_POWER_ON self]> (status w) ∧
  status (async_turn_off self w).2
    = <[KEY_PHILIPS_POWER self := STATE_POWER_OFF self]> (status w) ∧
  (∀ p pattern,
     dict_get (_available_preset_modes self) p = Some pattern →
     status (async_set_preset_mode self p w).2 = status_update (status w) pattern) ∧
  (∀ SWITCH_ON SWITCH_OFF key values rest b,
     KEY_OSCILLATION self = Some ((key, values) :: rest) →
     status (async_oscillate SWITCH_ON SWITCH_OFF self b w).2
     = <[key := default VNone
                  (dict_get values (if b then SWITCH_ON else SWITCH_OFF))]>
         (status w)).
Proof.
  split; [done|]. split; [by rewrite async_turn_off_run|]. split.
  - intros p pattern Hp. unfold async_set_preset_mode. rewrite Hp.
    by destruct pattern.
  - intros on off key values rest b Hk. unfold async_oscillate. rewrite Hk.
    by destruct b.
Qed.

(** ** Percentage round trip on the generic fan *)

Lemma list_index_lookup (l : list string) i x :
  NoDup l → l !! i = Some x → list_index x l = Some i.
Proof.
  revert i. induction l as [|y l IH]; intros i Hnd Hi; [done|].
  apply NoDup_cons in Hnd as [Hy Hnd]. simpl. destruct i as [|i]; simpl in Hi.
  - injection Hi as ->. by rewrite decide_True.
  - rewrite decide_False.
    + by rewrite (IH i).
    + intros ->. apply Hy. by eapply list_elem_of_lookup_2.
Qed.

Lemma upper_bound_increases (N i j : Z) :
  (0 < N ≤ 100)%Z → (0 ≤ j < i)%Z →
  (((j + 1) * 100) `div` N < ((i + 1) * 100) `div` N)%Z.
Proof.
  intros HN Hj.
  pose proof (Z.mul_div_le ((j + 1) * 100) N ltac:(lia)) as Hlow.
  assert (((j + 1) * 100) `div` N + 1 ≤ ((i + 1) * 100) `div` N)%Z; [|lia].
  apply Z.div_le_lower_bound; [lia|]. nia.
Qed.

Lemma percentage_loop_at replace ordered_list st items before speed pattern after :
  items = before ++ (speed, pattern) :: after →
  (∀ q pat, (q, pat) ∈ before → pattern_holds replace st pat = false) →
  pattern_holds replace st pattern = true →
  percentage_loop replace ordered_list st items =
  match ordered_list_item_to_percentage ordered_list speed with
  | Return p => Return (Some p)
  | Raise e => Raise e
  end.
Proof.
  intros -> Hbefore Hp. induction before as [|[q pat] before IH]; simpl.
  - by rewrite Hp.
  - rewrite (Hbefore q pat) by (apply elem_of_cons; by left).
    apply IH. intros q' pat' Hin. apply (Hbefore q' pat'). apply elem_of_cons; by right.
Qed.

(** On a fan with the generic command, at most one hundred speeds, no
    [REPLACE_SPEED], and every earlier speed pattern differing from the
    written one on a shared key, writing the percentage of the speed at
    ordinal [i] and reading the percentage back gives the same value. *)
Lemma generic_percentage_round_trip self w i speed pattern :
  REPLACE_SPEED self = None →
  (List.length (_speeds self) ≤ 100)%nat →
  _available_speeds self !! i = Some (speed, pattern) →
  NoDup (dict_keys pattern) →
  (∀ j q pat, j < i → _available_speeds self !! j = Some (q, pat) →
     ∃ k v v', dict_get pat k = Some v ∧ dict_get pattern k = Some v' ∧ v ≠ v') →
  let p := (((Z.of_nat i + 1) * 100) `div` Z.of_nat (List.length (_speeds self)))%Z in
  ordered_list_item_to_percentage (_speeds self) speed = Return p ∧
  percentage self (status (async_set_percentage self p w).2) = Return (Some p).
Proof.
  intros Hrep Hlen Hentry Hnd Hsep p.
  assert (NoDup (_speeds self)) as Hkeys by apply collect_dict_NoDup.
  assert (_speeds self !! i = Some speed) as Hi.
  { exact (list_lookup_fmap_Some_2 fst (_available_speeds self) i _ Hentry). }
  assert (i < List.length (_speeds self)) as Hlt by (by eapply lookup_lt_Some).
  assert (ordered_list_item_to_percentage (_speeds self) speed = Return p) as Hpct.
  { unfold ordered_list_item_to_percentage. by rewrite (list_index_lookup _ i). }
  split; [done|].
  assert (0 < p ≤ 100)%Z as Hp.
  { unfold p. split.
    - apply Z.div_str_pos. lia.
    - apply Z.div_le_upper_bound; nia. }
  destruct (async_set_percentage_run self w p Hp) as
    (i' & speed' & pattern' & Hentry' & Hub & Hlow & ->).
  { intros Hnil. rewrite Hnil in Hlt. simpl in Hlt. lia. }
  assert (i' = i) as ->.
  { destruct (Nat.lt_trichotomy i' i) as [Hl|[->|Hg]]; [|done|].
    - exfalso. pose proof (upper_bound_increases
        (Z.of_nat (List.length (_speeds self))) (Z.of_nat i) (Z.of_nat i')) as H.
      fold p in H. lia.
    - exfalso. specialize (Hlow i Hg). fold p in Hlow. lia. }
  rewrite Hentry in Hentry'. injection Hentry' as <- <-.
  cbn [snd status]. unfold percentage. rewrite Hrep.
  rewrite (percentage_loop_at None (_speeds self) _ (_available_speeds self)
             (take i (_available_speeds self)) speed pattern
             (drop (S i) (_available_speeds self))).
  - by rewrite Hpct.
  - by rewrite take_drop_middle.
  - intros q pat (j & Hj)%list_elem_of_lookup_1.
    apply lookup_take_Some in Hj as [Hj Hji].
    destruct (Hsep j q pat Hji Hj) as (k & v & v' & Hv & Hv' & Hne).
    apply pattern_holds_false. exists k, v. split; [by apply dict_get_Some_elem|].
    cbn [replaced]. unfold status_get.
    rewrite (status_update_present _ pattern k v') by done. simpl. congruence.
  - by apply status_update_holds.
Qed.

(** The sequenced commands of the AC1214 return with the store as they
    found it. *)
Lemma ac1214_commands_leave_store c attrs on w :
  NoDup [PresetMode_AUTO c; PresetMode_ALLERGEN c; PresetMode_NIGHT c;
         PresetMode_SPEED_1 c; PresetMode_SPEED_2 c; PresetMode_SPEED_3 c;
         PresetMode_TURBO c] →
  PhilipsApi_MODE c ≠ PhilipsApi_SPEED c →
  dict_get (PhilipsApi_POWER_MAP c) (SWITCH_ON c) = Some on →
  (∀ target pattern,
     dict_get (_available_preset_modes (PhilipsAC1214.self c attrs)) target
       = Some pattern →
     status (PhilipsAC1214.async_set_preset_mode c attrs target w).2 = status w) ∧
  (∀ n speed pattern,
     n ≠ 0%Z →
     percentage_to_ordered_list_item (_speeds (PhilipsAC1214.self c attrs)) n
       = Return speed →
     dict_get (_available_speeds (PhilipsAC1214.self c attrs)) speed = Some pattern →
     status (PhilipsAC1214.async_set_percentage c attrs n w).2 = status w).
Proof.
  intros Hn Hk Hon. split.
  - intros target pattern Hp.
    by rewrite (ac1214_set_preset_mode_run c attrs Hn Hk on target pattern).
  - intros n speed pattern H0 Hs Hp.
    by rewrite (ac1214_set_percentage_run c attrs Hn Hk on n speed pattern).
Qed.

(** C6. The commands of the generic fan apply what they write to the
    status store (see [generic_commands_update_store]); the overrides of the
    AC1214 do not.  On an AC1214 that is on in mode ["P"], setting the
    preset "allergen" sends [{mode: "A"}] and returns with the store as it
    was, so the preset read next is still "auto"; the generic command on the
    same input leaves [mode = "A"] in the store and reads "allergen".
    Likewise turning on an AC1214 that is off sends the power-on write and
    leaves [is_on] false, where the generic command leaves it true. *)
Theorem ac1214_write_not_applied_to_store :
  let st := sample_status [("pwr", VStr "1"); ("mode", VStr "P"); ("om", VStr "1")] in
  let sequenced :=
    PhilipsAC1214.async_set_preset_mode sample_const [] "allergen" (start st) in
  let generic := async_set_preset_mode sample_ac1214 "allergen" (start st) in
  let off := sample_status [("pwr", VStr "0"); ("mode", VStr "P"); ("om", VStr "1")] in
  let sequenced_on := PhilipsAC1214.async_turn_on sample_const [] None None (start off) in
  let generic_on := async_turn_on sample_ac1214 None None (start off) in
  sequenced.1 = Return tt ∧
  trace sequenced.2 = [SetControlValues [("mode", VStr "A")]] ∧
  status sequenced.2 = st ∧
  preset_mode sample_ac1214 (status sequenced.2) = Some "auto" ∧
  generic.1 = Return tt ∧
  trace generic.2 = [SetControlValues [("mode", VStr "A")]; WriteHaState] ∧
  status generic.2 = <["mode" := VStr "A"]> st ∧
  preset_mode sample_ac1214 (status generic.2) = Some "allergen" ∧
  trace sequenced_on.2 = [SetControlValue "pwr" (VStr "1"); Sleep 1] ∧
  is_on sample_ac1214 (status sequenced_on.2) = false ∧
  trace generic_on.2 = [SetControlValue "pwr" (VStr "1"); WriteHaState] ∧
  is_on sample_ac1214 (status generic_on.2) = true.
Proof. repeat split; by vm_compute. Qed.

(** C3. On the generic fan the percentage of a speed survives the write
    (see [generic_percentage_round_trip]); on the AC1214 it does not, since
    its [async_set_percentage] leaves the store untouched.  With five
    speeds, ordinal 0 ("night") is 20 percent; on an AC1214 that is on in
    mode ["P"], setting 20 percent sends the allergen pattern and then
    [{mode: "N"}], and the percentage read next is [None], not 20.  The
    generic command on the same input reads back 20. *)
Theorem ac1214_percentage_round_trip_fails :
  let st := sample_status [("pwr", VStr "1"); ("mode", VStr "P"); ("om", VStr "1")] in
  let sequenced := PhilipsAC1214.async_set_percentage sample_const [] 20 (start st) in
  let generic := async_set_percentage sample_ac1214 20 (start st) in
  _speeds sample_ac1214 !! 0 = Some "night" ∧
  ordered_list_item_to_percentage (_speeds sample_ac1214) "night" = Return 20%Z ∧
  sequenced.1 = Return tt ∧
  trace sequenced.2 = [SetControlValues [("mode", VStr "A")]; Sleep 1;
                       SetControlValues [("mode", VStr "N")]] ∧
  status sequenced.2 = st ∧
  percentage sample_ac1214 (status sequenced.2) = Return None ∧
  percentage sample_ac1214 (status generic.2) = Return (Some 20%Z).
Proof. repeat split; by vm_compute. Qed.

(** ** Filter alerts *)

Section filter_alert.
Variable c : const_py.
Variable info : FilterAlert.device_information.
Variable keys : list string.
Variable st : gmap string value.
Variable low : dict Z.
Hypothesis low_filters : FilterAlert._get_low_filters c keys st = Return low.

Lemma for_each_alert_run l s :
  FilterAlert.for_each (FilterAlert.alert c info keys st) l s =
  (Return tt,
   {| FilterAlert._previous_alert_state := FilterAlert._previous_alert_state s;
      FilterAlert._previous_low_filters := FilterAlert._previous_low_filters s;
      FilterAlert.bus := FilterAlert.bus s ++ map (FilterAlert.alert_payload c info low) l;
      FilterAlert.ha_state_writes := FilterAlert.ha_state_writes s |}).
Proof.
  revert s. induction l as [|k l IH]; intros s; cbn [FilterAlert.for_each map].
  - rewrite app_nil_r. by destruct s.
  - cbv [mbind state_exn_bind]. unfold FilterAlert.alert at 1.
    cbv [mbind state_exn_bind lift_outcome]. rewrite low_filters.
    cbv [FilterAlert.fire]. rewrite IH.
    cbn [FilterAlert._previous_alert_state FilterAlert._previous_low_filters
         FilterAlert.bus FilterAlert.ha_state_writes].
    by rewrite <- app_assoc.
Qed.

Lemma handle_coordinator_update_run s :
  FilterAlert._handle_coordinator_update c info keys st s =
  (Return tt,
   {| FilterAlert._previous_alert_state :=
        Some (bool_decide (list_to_set (C:=gset string) (dict_keys low) ≠ ∅));
      FilterAlert._previous_low_filters := list_to_set (dict_keys low);
      FilterAlert.bus :=
        FilterAlert.bus s ++
        match FilterAlert._previous_alert_state s with
        | Some _ =>
            map (FilterAlert.alert_payload c info low)
              (elements (list_to_set (C:=gset string) (dict_keys low)
                         ∖ FilterAlert._previous_low_filters s))
        | None => []
        end;
      FilterAlert.ha_state_writes := S (FilterAlert.ha_state_writes s) |}).
Proof.
  unfold FilterAlert._handle_coordinator_update.
  cbv [mbind state_exn_bind lift_outcome FilterAlert.this]. rewrite low_filters.
  destruct (FilterAlert._previous_alert_state s) as [b|] eqn:Hprev.
  - rewrite for_each_alert_run. cbv [FilterAlert.remember FilterAlert.write_ha_state].
    by cbn.
  - cbv [mret state_exn_ret FilterAlert.remember FilterAlert.write_ha_state].
    cbn. by rewrite app_nil_r.
Qed.

End filter_alert.

(** C7. Filter alerts are edge-triggered.  On an update where the low
    filters compute to [low]: when no update was seen before
    ([_previous_alert_state] is [None]) nothing is fired, even if filters are
    low; otherwise the events fired carry each key of
    [newly_low = current_low ∖ previous_low] exactly once and no other key,
    each with the device id and name, the filter's label (or its key), the
    percentage or raw value recorded for it, and the threshold.  In both
    cases [current_low] becomes [_previous_low_filters]. *)
Theorem filter_alert_edge_triggered (c : const_py)
    (info : FilterAlert.device_information) (keys : list string)
    (st : gmap string value) (low : dict Z) (s : FilterAlert.sensor) :
  FilterAlert._get_low_filters c keys st = Return low →
  let current_low : gset string := list_to_set (dict_keys low) in
  let r := FilterAlert._handle_coordinator_update c info keys st s in
  r.1 = Return tt ∧
  FilterAlert._previous_low_filters r.2 = current_low ∧
  FilterAlert._previous_alert_state r.2 = Some (bool_decide (current_low ≠ ∅)) ∧
  match FilterAlert._previous_alert_state s with
  | None => FilterAlert.bus r.2 = FilterAlert.bus s
  | Some _ =>
      ∃ events,
        FilterAlert.bus r.2 = FilterAlert.bus s ++ events ∧
        NoDup (map FilterAlert.ev_filter_key events) ∧
        (∀ k, k ∈ map FilterAlert.ev_filter_key events ↔
              k ∈ current_low ∧ k ∉ FilterAlert._previous_low_filters s) ∧
        (∀ e, e ∈ events →
           FilterAlert.ev_device_id e = FilterAlert.device_id info ∧
           FilterAlert.ev_device_name e = FilterAlert.name info ∧
           FilterAlert.ev_filter_name e =
             default (VStr (FilterAlert.ev_filter_key e))
               (dict_get (default [] (dict_get (FILTER_TYPES c)
                                               (FilterAlert.ev_filter_key e)))
                         (FanAttributes_LABEL c)) ∧
           (∃ v, dict_get low (FilterAlert.ev_filter_key e) = Some v ∧
                 FilterAlert.ev_percentage e = Some v) ∧
           FilterAlert.ev_threshold e = FILTER_ALERT_THRESHOLD c)
  end.
Proof.
  intros Hlow current_low r. subst r.
  rewrite (handle_coordinator_update_run c info keys st low Hlow).
  cbn [fst snd FilterAlert._previous_low_filters FilterAlert._previous_alert_state
       FilterAlert.bus].
  split; [done|]. split; [done|]. split; [done|].
  destruct (FilterAlert._previous_alert_state s) as [b|]; [|by rewrite app_nil_r].
  fold current_low.
  set (newly := elements (current_low ∖ FilterAlert._previous_low_filters s)).
  exists (map (FilterAlert.alert_payload c info low) newly).
  assert (map FilterAlert.ev_filter_key
            (map (FilterAlert.alert_payload c info low) newly) = newly) as Hkeys.
  { rewrite map_map. apply map_id. }
  split; [done|]. rewrite Hkeys. split; [apply NoDup_elements|]. split.
  - intros k. unfold newly. rewrite elem_of_elements, elem_of_difference. done.
  - intros e (k & -> & Hk)%list_elem_of_fmap.
    cbn [FilterAlert.alert_payload FilterAlert.ev_device_id
         FilterAlert.ev_device_name FilterAlert.ev_filter_name
         FilterAlert.ev_filter_key FilterAlert.ev_percentage
         FilterAlert.ev_threshold].
    split; [done|]. split; [done|]. split; [done|]. split; [|done].
    apply elem_of_elements, elem_of_difference in Hk as [Hk _].
    apply elem_of_list_to_set in Hk.
    destruct (dict_get low k) as [v|] eqn:Hv; [by exists v|].
    by apply dict_get_None in Hv.
Qed.

Lemma filter_alert_edge_triggered_witness :
  let keys := ["fltsts1"; "fltsts2"] in
  let st1 := sample_status [("fltsts1", VInt 10); ("flttotal1", VInt 100);
                            ("fltsts2", VInt 2400); ("flttotal2", VInt 2400)] in
  let st2 := sample_status [("fltsts1", VInt 10); ("flttotal1", VInt 100);
                            ("fltsts2", VInt 100); ("flttotal2", VInt 2400)] in
  let r1 := FilterAlert._handle_coordinator_update sample_const sample_info keys
              st1 new_sensor in
  let r2 := FilterAlert._handle_coordinator_update sample_const sample_info keys
              st2 r1.2 in
  FilterAlert._get_low_filters sample_const keys st1 = Return [("fltsts1", 10%Z)] ∧
  FilterAlert.bus r1.2 = [] ∧
  FilterAlert._previous_low_filters r1.2 = {["fltsts1"]} ∧
  FilterAlert._get_low_filters sample_const keys st2
    = Return [("fltsts1", 10%Z); ("fltsts2", 4%Z)] ∧
  FilterAlert.bus r2.2 =
    [ {| FilterAlert.ev_device_id := "ABCD1234567890";
         FilterAlert.ev_device_name := "Living Room";
         FilterAlert.ev_filter_key := "fltsts2";
         FilterAlert.ev_filter_name := VStr "active_carbon_filter";
         FilterAlert.ev_percentage := Some 4%Z;
         FilterAlert.ev_threshold := 50 |} ].
Proof.
  intros keys st1 st2 r1 r2.
  pose proof (filter_alert_edge_triggered sample_const sample_info keys st1
                [("fltsts1", 10%Z)] new_sensor eq_refl) as (_ & Hprev1 & _ & Hbus1).
  pose proof (filter_alert_edge_triggered sample_const sample_info keys st2
                [("fltsts1", 10%Z); ("fltsts2", 4%Z)] r1.2 eq_refl)
    as (_ & _ & _ & Hbus2).
  split; [reflexivity|]. split; [exact Hbus1|]. split; [by vm_compute|].
  split; [reflexivity|].
  destruct Hbus2 as (events & Hbus & _). fold r2 in Hbus.
  rewrite Hbus. by vm_compute.
Defined.

(** ** Attribute extraction *)

(** What [append] shows for a raw value under a dict-shaped value map. *)
Lemma append_absent st attributes key philips_key vm :
  st !! partition_head "#" philips_key = None →
  append st attributes key philips_key vm = Return attributes.
Proof. intros H. unfold append. by rewrite H. Qed.

Lemma append_mapped st attributes key philips_key m raw out :
  st !! partition_head "#" philips_key = Some raw →
  append st attributes key philips_key (Some (MapDict m)) = Return out →
  ∃ shown,
    out = dict_set attributes key shown ∧
    match value_map_get m raw with
    | Some (Plain v) => shown = v
    | Some (Tuple items) => ∃ rest, items = shown :: rest
    | None => shown = raw
    end.
Proof.
  intros Hraw. unfold append. rewrite Hraw.
  destruct (value_map_get m raw) as [[v|[|label rest]]|]; cbn.
  - intros [= <-]. by exists v.
  - done.
  - intros [= <-]. exists label. split; [done|]. by exists rest.
  - intros [= <-]. by exists raw.
Qed.

Lemma append_other_key st attributes key philips_key vm out k :
  append st attributes key philips_key vm = Return out → key ≠ k →
  dict_get out k = dict_get attributes k.
Proof.
  unfold append. destruct (st !! partition_head "#" philips_key) as [raw|].
  - destruct (match vm with
              | Some (MapDict m) => _
              | Some (MapCallable f) => _
              | None => _
              end) as [v|e]; [|done].
    intros [= <-] Hne. rewrite dict_get_set. by rewrite decide_False.
  - by intros [= <-].
Qed.

Lemma extra_state_attributes_loop_absent st a0 key l acc out :
  extra_state_attributes_loop st acc l = Return out →
  a0.1.1 = key →
  (∀ a, a ∈ l → a.1.1 = key → a = a0) →
  st !! partition_head "#" a0.1.2 = None →
  dict_get out key = dict_get acc key.
Proof.
  intros Hrun Hkey Hsame Habs. revert acc Hrun.
  induction l as [|[[k pk] vm] l IH]; intros acc; cbn.
  - by intros [= <-].
  - destruct (append st acc k pk vm) as [d|e] eqn:Happ; [|done].
    intros Hrun. rewrite (IH ltac:(intros a Ha; apply Hsame, elem_of_cons; by right)
                             d Hrun).
    destruct (decide (k = key)) as [Hk|Hk].
    + assert ((k, pk, vm) = a0) as <-.
      { apply Hsame; [apply elem_of_cons; by left | done]. }
      cbn in Habs. rewrite append_absent in Happ by done. by injection Happ as <-.
    + by eapply append_other_key.
Qed.

Lemma extra_state_attributes_loop_keeps st key pk m raw l acc out shown :
  extra_state_attributes_loop st acc l = Return out →
  (∀ a, a ∈ l → a.1.1 = key → a = (key, pk, Some (MapDict m))) →
  st !! partition_head "#" pk = Some raw →
  match value_map_get m raw with
  | Some (Plain v) => shown = v
  | Some (Tuple items) => ∃ rest, items = shown :: rest
  | None => shown = raw
  end →
  dict_get acc key = Some shown → dict_get out key = Some shown.
Proof.
  intros Hrun Hsame Hraw Hshown. revert acc Hrun.
  induction l as [|[[k pk'] vm] l IH]; intros acc; cbn.
  - by intros [= <-].
  - destruct (append st acc k pk' vm) as [d|e] eqn:Happ; [|done].
    intros Hrun Hacc.
    apply (IH ltac:(intros a Ha; apply Hsame, elem_of_cons; by right) d Hrun).
    destruct (decide (k = key)) as [->|Hk].
    + assert ((key, pk', vm) = (key, pk, Some (MapDict m))) as [= -> ->].
      { apply Hsame; [apply elem_of_cons; by left | done]. }
      destruct (append_mapped _ _ _ _ _ _ _ Hraw Happ) as (shown' & -> & Hs').
      rewrite dict_get_set, decide_True by done. f_equal.
      destruct (value_map_get m raw) as [[v|items]|].
      * congruence.
      * destruct Hshown as [r1 ->]. by destruct Hs' as [r2 [= ->]].
      * congruence.
    + by rewrite (append_other_key _ _ _ _ _ _ key Happ).
Qed.

Lemma extra_state_attributes_loop_present st key pk m raw l acc out :
  extra_state_attributes_loop st acc l = Return out →
  (∀ a, a ∈ l → a.1.1 = key → a = (key, pk, Some (MapDict m))) →
  st !! partition_head "#" pk = Some raw →
  (key, pk, Some (MapDict m)) ∈ l →
  match value_map_get m raw with
  | Some (Plain v) => dict_get out key = Some v
  | Some (Tuple items) => ∃ label rest, items = label :: rest ∧
                                        dict_get out key = Some label
  | None => dict_get out key = Some raw
  end.
Proof.
  intros Hrun Hsame Hraw Hin. revert acc Hrun.
  induction l as [|[[k pk'] vm] l IH]; intros acc; [by apply elem_of_nil in Hin|].
  cbn. destruct (append st acc k pk' vm) as [d|e] eqn:Happ; [|done].
  intros Hrun.
  assert (∀ a, a ∈ l → a.1.1 = key → a = (key, pk, Some (MapDict m))) as Hsame'.
  { intros a Ha. apply Hsame, elem_of_cons; by right. }
  apply elem_of_cons in Hin as [Heq|Hin].
  - injection Heq as <- <- <-.
    destruct (append_mapped _ _ _ _ _ _ _ Hraw Happ) as (shown & -> & Hs).
    assert (dict_get out key = Some shown) as Hout.
    { eapply extra_state_attributes_loop_keeps; [exact Hrun|exact Hsame'|exact Hraw|exact Hs|].
      rewrite dict_get_set. by rewrite decide_True. }
    destruct (value_map_get m raw) as [[v|items]|].
    + by subst.
    + destruct Hs as [rest ->]. by exists shown, rest.
    + by subst.
  - by apply (IH Hsame' Hin d).
Qed.

(** What the extraction does, as written, with a dict-shaped value map.
    For a declared attribute (the only declaration under its display key),
    extraction without error gives: when the raw key, cut at its first
    ["#"], is in the status and the raw value is a key of the map, the map's
    entry, or the first component of the entry when the entry is a tuple;
    when the raw value is not a key of the map, the raw value itself; and no
    entry under the display key when the raw key is absent from the
    status. *)
Theorem attribute_value_map_lookup (self : PhilipsGenericFanBase)
    (st : gmap string value) (out : dict value) (key philips_key : string)
    (m : list (value * map_entry)) :
  extra_state_attributes self st = Return out →
  (key, philips_key, Some (MapDict m)) ∈ _available_attributes self →
  (∀ a, a ∈ _available_attributes self → a.1.1 = key →
        a = (key, philips_key, Some (MapDict m))) →
  match st !! partition_head "#" philips_key with
  | None => dict_get out key = None
  | Some raw =>
      match value_map_get m raw with
      | Some (Plain v) => dict_get out key = Some v
      | Some (Tuple items) =>
          ∃ label rest, items = label :: rest ∧ dict_get out key = Some label
      | None => dict_get out key = Some raw
      end
  end.
Proof.
  unfold extra_state_attributes. intros Hrun Hin Hsame.
  destruct (st !! partition_head "#" philips_key) as [raw|] eqn:Hraw.
  - by eapply extra_state_attributes_loop_present.
  - by rewrite (extra_state_attributes_loop_absent st
                  (key, philips_key, Some (MapDict m)) key _ [] out Hrun).
Qed.

Lemma attribute_value_map_lookup_witness :
  let st := sample_status [("name", VStr "Living Room"); ("ddp", VStr "0")] in
  ∃ out,
    extra_state_attributes sample_ac1214_with_attributes st = Return out ∧
    dict_get out "preferred_index" = Some (VStr "Indoor Allergen Index") ∧
    dict_get out "type" = None.
Proof.
  intros st.
  exists [("name", VStr "Living Room");
          ("preferred_index", VStr "Indoor Allergen Index")].
  split; [by vm_compute|]. split; [|reflexivity].
  pose proof (attribute_value_map_lookup sample_ac1214_with_attributes st
    [("name", VStr "Living Room"); ("preferred_index", VStr "Indoor Allergen Index")]
    "preferred_index" "ddp"
    [ (VStr "0", Tuple [VStr "Indoor Allergen Index"; VStr "mdi:blur"]);
      (VStr "1", Tuple [VStr "PM2.5"; VStr "mdi:blur-linear"]) ]) as H.
  destruct H as (label & rest & Heq & Hout).
  - by vm_compute.
  - vm_compute. do 2 (apply elem_of_cons; right). apply elem_of_cons; by left.
  - intros a Ha Hk. vm_compute in Ha.
    repeat (apply elem_of_cons in Ha as [->|Ha]; [done|]).
    by apply elem_of_nil in Ha.
  - injection Heq as <- _. exact Hout.
Defined.

(** C8. A raw value that is not a key of the value map is to be shown as
    ["unknown"], and [append] carries that default in
    [value_map.get(value, "unknown")]; but the lookup sits under the guard
    [value in value_map], so the default is never taken.  With the preferred
    index declared over the map [{"0": ..., "1": ...}] and the status holding
    ["7"] under its raw key, the attribute is shown as ["7"], not as
    ["unknown"].  A raw value of ["0"], a key of the map, is shown as the
    label of its entry. *)
Theorem attribute_unmapped_value_not_unknown :
  let m := [ (VStr "0", Tuple [VStr "Indoor Allergen Index"; VStr "mdi:blur"]);
             (VStr "1", Tuple [VStr "PM2.5"; VStr "mdi:blur-linear"]) ] in
  let st := sample_status [("name", VStr "Living Room"); ("ddp", VStr "7")] in
  ("preferred_index", "ddp", Some (MapDict m))
    ∈ _available_attributes sample_ac1214_with_attributes ∧
  st !! "ddp" = Some (VStr "7") ∧
  value_map_get m (VStr "7") = None ∧
  extra_state_attributes sample_ac1214_with_attributes st
    = Return [("name", VStr "Living Room"); ("preferred_index", VStr "7")] ∧
  VStr "7" ≠ VStr "unknown" ∧
  extra_state_attributes sample_ac1214_with_attributes
    (sample_status [("ddp", VStr "0")])
    = Return [("preferred_index", VStr "Indoor Allergen Index")].
Proof.
  intros m st. split.
  - vm_compute. do 2 (apply elem_of_cons; right). apply elem_of_cons; by left.
  - repeat split; by vm_compute.
Qed.

(** ** Oscillation *)

(** C10. With an oscillation key declared: when the key is absent from the
    status the projection is [None]; when it is present with a value other
    than [None] the projection is the boolean "the value differs from the
    declared off value"; and a boolean is returned only when the key is
    present. *)
Theorem oscillating_none_when_key_absent (SWITCH_OFF : string)
    (self : PhilipsGenericFanBase) (st : gmap string value)
    (key : string) (values : dict value) (rest : dict (dict value)) :
  KEY_OSCILLATION self = Some ((key, values) :: rest) →
  let off := default VNone (dict_get values SWITCH_OFF) in
  (st !! key = None → oscillating SWITCH_OFF self st = Return None) ∧
  (∀ v, st !! key = Some v → v ≠ VNone →
        oscillating SWITCH_OFF self st = Return (Some (negb (bool_decide (v = off))))) ∧
  (∀ b, oscillating SWITCH_OFF self st = Return (Some b) →
        ∃ v, st !! key = Some v ∧ b = negb (bool_decide (v = off))).
Proof.
  intros Hkey off. unfold oscillating, status_get. rewrite Hkey. fold off.
  split; [|split].
  - by intros ->.
  - intros v -> Hv. cbn. by rewrite decide_False.
  - intros b. destruct (st !! key) as [v|]; cbn; [|done].
    destruct (decide (v = VNone)); [done|]. intros [= <-]. by exists v.
Qed.

Lemma oscillating_none_when_key_absent_witness :
  oscillating "off" sample_oscillating_fan (sample_status [("D03102", VInt 1)])
    = Return None ∧
  oscillating "off" sample_oscillating_fan
    (sample_status [("D03102", VInt 1); ("D0320F", VInt 45)]) = Return (Some true) ∧
  oscillating "off" sample_oscillating_fan
    (sample_status [("D03102", VInt 1); ("D0320F", VInt 0)]) = Return (Some false).
Proof.
  split; [|split].
  - destruct (oscillating_none_when_key_absent "off" sample_oscillating_fan
                (sample_status [("D03102", VInt 1)]) "D0320F"
                [("on", VInt 45); ("off", VInt 0)] [] eq_refl) as (H & _ & _).
    by apply H.
  - destruct (oscillating_none_when_key_absent "off" sample_oscillating_fan
                (sample_status [("D03102", VInt 1); ("D0320F", VInt 45)]) "D0320F"
                [("on", VInt 45); ("off", VInt 0)] [] eq_refl) as (_ & H & _).
    by rewrite (H (VInt 45)).
  - destruct (oscillating_none_when_key_absent "off" sample_oscillating_fan
                (sample_status [("D03102", VInt 1); ("D0320F", VInt 0)]) "D0320F"
                [("on", VInt 45); ("off", VInt 0)] [] eq_refl) as (_ & H & _).
    by rewrite (H (VInt 0)).
Defined.

(** ** Model resolution *)

(** C9. Model resolution tries three candidates in order: the model string,
    the model string followed by a space and the part of the WiFi version
    before ["@"], and the first six characters of the model string; the
    first one registered in [model_to_class] is returned, and when none is
    registered the result is [None] and the setup step aborts with
    "model_unsupported". *)
Theorem resolve_model_priority (model_to_class : dict (list class_decl))
    (wifi_version model : string) :
  let registered k := is_Some (dict_get model_to_class k) in
  let qualified :=
    String.append model (String.append " " (partition_head "@" wifi_version)) in
  let family := String.substring 0 6 model in
  ∃ result,
    ConfigFlow._resolve_model model_to_class (VStr wifi_version) model
      = Return result ∧
    (registered model → result = Some model) ∧
    (¬ registered model → registered qualified → result = Some qualified) ∧
    (¬ registered model → ¬ registered qualified → registered family →
       result = Some family) ∧
    (¬ registered model → ¬ registered qualified → ¬ registered family →
       result = None) ∧
    ConfigFlow.resolve_or_abort model_to_class (VStr wifi_version) model
      = Return match result with
               | Some resolved => ConfigFlow.Proceed resolved
               | None => ConfigFlow.Abort "model_unsupported"
               end.
Proof.
  intros registered qualified family.
  unfold ConfigFlow.resolve_or_abort, ConfigFlow._resolve_model.
  fold qualified family. eexists. split; [reflexivity|].
  cbn [List.find].
  destruct (decide (registered model)) as [H1|H1];
    [rewrite bool_decide_eq_true_2 by done|rewrite bool_decide_eq_false_2 by done];
    [by repeat split|].
  destruct (decide (registered qualified)) as [H2|H2];
    [rewrite bool_decide_eq_true_2 by done|rewrite bool_decide_eq_false_2 by done];
    [by repeat split|].
  destruct (decide (registered family)) as [H3|H3];
    [rewrite bool_decide_eq_true_2 by done|rewrite bool_decide_eq_false_2 by done];
    by repeat split.
Qed.

Lemma resolve_model_priority_witness :
  ConfigFlow._resolve_model sample_model_to_class (VStr "AWS_Philips_AIR@1.0.0")
    "AC3033/10" = Return (Some "AC3033") ∧
  ConfigFlow._resolve_model sample_model_to_class (VStr "AWS_Philips_AIR@1.0.0")
    "AC3858/51" = Return (Some "AC3858/51") ∧
  ConfigFlow._resolve_model sample_model_to_class
    (VStr "AWS_Philips_AIR_Combo@62.1") "AC0850/11"
    = Return (Some "AC0850/11 AWS_Philips_AIR_Combo") ∧
  ConfigFlow.resolve_or_abort sample_model_to_class (VStr "AWS_Philips_AIR@1.0.0")
    "AC9999/10" = Return (ConfigFlow.Abort "model_unsupported").
Proof.
  split; [|split; [|split]].
  - destruct (resolve_model_priority sample_model_to_class
                "AWS_Philips_AIR@1.0.0" "AC3033/10")
      as (result & -> & _ & _ & H & _).
    rewrite H; [done| | |]; vm_compute; [intros [? ?]| intros [? ?] |eexists]; done.
  - destruct (resolve_model_priority sample_model_to_class
                "AWS_Philips_AIR@1.0.0" "AC3858/51")
      as (result & -> & H & _).
    rewrite H; [done|]. vm_compute. by eexists.
  - destruct (resolve_model_priority sample_model_to_class
                "AWS_Philips_AIR_Combo@62.1" "AC0850/11")
      as (result & -> & _ & H & _).
    rewrite H; [done| |]; vm_compute; [intros [? ?]|eexists]; done.
  - destruct (resolve_model_priority sample_model_to_class
                "AWS_Philips_AIR@1.0.0" "AC9999/10")
      as (result & _ & _ & _ & _ & H & ->).
    rewrite H; [done| | |]; vm_compute; intros [? ?]; done.
Defined.

Lemma preset_mode_first_match_wins_witness :
  preset_mode sample_ac0950
    (sample_status [("D03102", VInt 1); ("D0310C", VInt 19)]) = Some "medium" ∧
  preset_mode sample_ac0950
    (sample_status [("D03102", VInt 0); ("D0310C", VInt 19)]) = None.
Proof.
  split.
  - pose proof (preset_mode_first_match_wins sample_ac0950
                  (sample_status [("D03102", VInt 1); ("D0310C", VInt 19)])) as H.
    cbv zeta in H.
    destruct (preset_mode sample_ac0950 _) as [p|] eqn:Hp in H.
    + rewrite Hp. vm_compute in Hp. by injection Hp as <-.
    + exfalso. destruct (H "medium" [("D03102", VInt 1); ("D0310C", VInt 19)])
        as (k & v & Hin & Hne).
      * vm_compute. do 2 (apply elem_of_cons; right). apply elem_of_cons; by left.
      * apply elem_of_cons in Hin as [[= -> ->]|Hin]; [by vm_compute in Hne|].
        apply elem_of_cons in Hin as [[= -> ->]|Hin]; [by vm_compute in Hne|].
        by apply elem_of_nil in Hin.
  - pose proof (preset_mode_first_match_wins sample_ac0950
                  (sample_status [("D03102", VInt 0); ("D0310C", VInt 19)])) as H.
    cbv zeta in H.
    destruct (preset_mode sample_ac0950 _) as [p|] eqn:Hp in H; [|by rewrite Hp].
    by vm_compute in Hp.
Defined.


(** * Further properties of the modelled code *)

(** ** helpers.py *)

Lemma substring_prefix_length n s :
  String.length (String.substring 0 n s) = Nat.min n (String.length s).
Proof.
  revert s. induction n as [|n IH]; intros [|a s]; simpl; try done.
  by rewrite IH.
Qed.

Lemma substring_prefix n s : String.prefix (String.substring 0 n s) s = true.
Proof.
  revert s. induction n as [|n IH]; intros [|a s]; simpl; try done.
  destruct (Ascii.ascii_dec a a); [apply IH | done].
Qed.

Lemma extract_model_loop_shape st keys :
  (Helpers.extract_model_loop st keys = Return "" ∧
   ∀ key, key ∈ keys → truthy (status_get st key) = false) ∨
  ∃ before key after,
    keys = before ++ key :: after ∧
    (∀ key', key' ∈ before → truthy (status_get st key') = false) ∧
    truthy (status_get st key) = true ∧
    Helpers.extract_model_loop st keys =
      match status_get st key with
      | VStr s => Return (String.substring 0 9 s)
      | _ => Raise TypeError
      end.
Proof.
  induction keys as [|key keys IH]; simpl.
  - left. split; [done|]. intros key H. by apply elem_of_nil in H.
  - destruct (truthy (status_get st key)) eqn:Ht.
    + right. exists [], key, keys. split; [done|].
      split; [intros key' H; by apply elem_of_nil in H|]. done.
    + destruct IH as [[Heq Hall]|(before & key' & after & -> & Hb & Hv & Heq)].
      * left. split; [done|]. intros key' [->|Hin]%elem_of_cons; auto.
      * right. exists (key :: before), key', after. split; [done|].
        split; [|done]. intros key'' [->|Hin]%elem_of_cons; auto.
Qed.

(** X1. [extract_model] tries the legacy, the new and the new2 model key in
    this order and passes over keys that are missing or hold [None], [""]
    or 0.  When all three are passed over it returns [""]; otherwise the
    first key with a truthy value decides: a string gives its first nine
    characters (the whole string when it is shorter), and a value that is
    not a string raises [TypeError].  In particular a non-empty legacy model
    always wins. *)
Theorem extract_model_priority (k : Helpers.ids) (st : gmap string value) :
  ((Helpers.extract_model k st = Return "" ∧
    ∀ key, key ∈ [Helpers.MODEL_ID k; Helpers.NEW_MODEL_ID k;
                  Helpers.NEW2_MODEL_ID k] →
           truthy (status_get st key) = false) ∨
   ∃ before key after,
     [Helpers.MODEL_ID k; Helpers.NEW_MODEL_ID k; Helpers.NEW2_MODEL_ID k]
       = before ++ key :: after ∧
     (∀ key', key' ∈ before → truthy (status_get st key') = false) ∧
     truthy (status_get st key) = true ∧
     match status_get st key with
     | VStr s =>
         ∃ m, Helpers.extract_model k st = Return m ∧
              String.prefix m s = true ∧
              String.length m = Nat.min 9 (String.length s)
     | _ => Helpers.extract_model k st = Raise TypeError
     end) ∧
  (∀ s, status_get st (Helpers.MODEL_ID k) = VStr s → s ≠ "" →
     Helpers.extract_model k st = Return (String.substring 0 9 s)) ∧
  (∀ n, status_get st (Helpers.MODEL_ID k) = VInt n → n ≠ 0%Z →
     Helpers.extract_model k st = Raise TypeError).
Proof.
  split; [|split].
  - unfold Helpers.extract_model.
    destruct (extract_model_loop_shape st
                [Helpers.MODEL_ID k; Helpers.NEW_MODEL_ID k; Helpers.NEW2_MODEL_ID k])
      as [H|(before & key & after & Heq & Hb & Ht & Hrun)]; [by left|].
    right. exists before, key, after. split; [done|]. split; [done|].
    split; [done|]. rewrite Hrun.
    destruct (status_get st key) as [|s|n]; [done| |done].
    exists (String.substring 0 9 s). split; [done|].
    split; [apply substring_prefix | apply substring_prefix_length].
  - intros s Hv Hs. unfold Helpers.extract_model. cbn [Helpers.extract_model_loop].
    rewrite Hv. cbn [truthy]. by rewrite bool_decide_eq_false_2.
  - intros n Hv Hn. unfold Helpers.extract_model. cbn [Helpers.extract_model_loop].
    rewrite Hv. cbn [truthy]. by rewrite bool_decide_eq_false_2.
Qed.

Lemma extract_model_priority_witness :
  Helpers.extract_model sample_ids
    (sample_status [("modelid", VStr "AC3033/10_EXTRA_LONG_STRING");
                    ("D01-05", VStr "AC1715/10")]) = Return "AC3033/10" ∧
  Helpers.extract_model sample_ids
    (sample_status [("modelid", VNone); ("D01-05", VStr ""); ("D01S05", VStr "AC0950")])
    = Return "AC0950" ∧
  Helpers.extract_model sample_ids (sample_status []) = Return "".
Proof.
  split; [|split]; [|by vm_compute..].
  destruct (extract_model_priority sample_ids
              (sample_status [("modelid", VStr "AC3033/10_EXTRA_LONG_STRING");
                              ("D01-05", VStr "AC1715/10")])) as (_ & H & _).
  by rewrite (H "AC3033/10_EXTRA_LONG_STRING").
Defined.

Lemma extract_name_loop_shape st keys :
  (Helpers.extract_name_loop st keys = VStr "" ∧
   ∀ key, key ∈ keys → truthy (status_get st key) = false) ∨
  ∃ before key after,
    keys = before ++ key :: after ∧
    (∀ key', key' ∈ before → truthy (status_get st key') = false) ∧
    truthy (status_get st key) = true ∧
    Helpers.extract_name_loop st keys = status_get st key.
Proof.
  induction keys as [|key keys IH]; simpl.
  - left. split; [done|]. intros key H. by apply elem_of_nil in H.
  - destruct (truthy (status_get st key)) eqn:Ht.
    + right. exists [], key, keys. split; [done|].
      split; [intros key' H; by apply elem_of_nil in H|]. done.
    + destruct IH as [[Heq Hall]|(before & key' & after & -> & Hb & Hv & Heq)].
      * left. split; [done|]. intros key' [->|Hin]%elem_of_cons; auto.
      * right. exists (key :: before), key', after. split; [done|].
        split; [|done]. intros key'' [->|Hin]%elem_of_cons; auto.
Qed.

(** X2. [extract_name] returns the value under the first of the legacy,
    new and new2 name keys that holds a truthy value, passing over keys that
    are missing or hold [None] or [""], and [""] when there is no such key;
    in particular a non-empty legacy name always wins. *)
Theorem extract_name_priority (k : Helpers.ids) (st : gmap string value) :
  ((Helpers.extract_name k st = VStr "" ∧
    ∀ key, key ∈ [Helpers.NAME k; Helpers.NEW_NAME k; Helpers.NEW2_NAME k] →
           truthy (status_get st key) = false) ∨
   ∃ before key after,
     [Helpers.NAME k; Helpers.NEW_NAME k; Helpers.NEW2_NAME k]
       = before ++ key :: after ∧
     (∀ key', key' ∈ before → truthy (status_get st key') = false) ∧
     truthy (status_get st key) = true ∧
     Helpers.extract_name k st = status_get st key) ∧
  (∀ s, status_get st (Helpers.NAME k) = VStr s → s ≠ "" →
     Helpers.extract_name k st = VStr s).
Proof.
  split; [apply extract_name_loop_shape|].
  intros s Hv Hs. unfold Helpers.extract_name. cbn [Helpers.extract_name_loop].
  rewrite Hv. cbn [truthy]. by rewrite bool_decide_eq_false_2.
Qed.

Lemma extract_name_priority_witness :
  Helpers.extract_name sample_ids
    (sample_status [("name", VStr "Legacy"); ("D01-03", VStr "New");
                    ("D01S03", VStr "New2")]) = VStr "Legacy" ∧
  Helpers.extract_name sample_ids
    (sample_status [("name", VStr ""); ("D01S03", VStr "New2")]) = VStr "New2" ∧
  Helpers.extract_name sample_ids (sample_status [("name", VNone)]) = VStr "".
Proof.
  split; [|split]; [|by vm_compute..].
  destruct (extract_name_priority sample_ids
              (sample_status [("name", VStr "Legacy"); ("D01-03", VStr "New");
                              ("D01S03", VStr "New2")])) as [_ H].
  by rewrite (H "Legacy").
Defined.

(** ** config_flow.py *)

Lemma find_registered_sound (model_to_class : dict (list class_decl)) candidates m :
  List.find (fun candidate => bool_decide (is_Some (dict_get model_to_class candidate)))
            candidates = Some m →
  m ∈ candidates ∧ is_Some (dict_get model_to_class m).
Proof.
  intros [Hin Hreg]%List.find_some. split; [by apply list_elem_of_In|].
  by apply bool_decide_eq_true in Hreg.
Qed.

(** X3. A model that [_resolve_model] returns is registered in
    [model_to_class] and is one of the three candidates; resolving it again
    under the same WiFi version returns it unchanged, so the model stored in
    the config entry is stable. *)
Theorem resolve_model_sound_and_stable (model_to_class : dict (list class_decl))
    (wifi_version : value) (model resolved : string) :
  ConfigFlow._resolve_model model_to_class wifi_version model
    = Return (Some resolved) →
  is_Some (dict_get model_to_class resolved) ∧
  (∃ w, wifi_version = VStr w ∧
        resolved ∈ [model;
                    String.append model (String.append " " (partition_head "@" w));
                    String.substring 0 6 model]) ∧
  ConfigFlow._resolve_model model_to_class wifi_version resolved
    = Return (Some resolved).
Proof.
  unfold ConfigFlow._resolve_model. destruct wifi_version as [|w|n]; try done.
  intros [= H].
  apply (find_registered_sound model_to_class
           [model; String.append model (String.append " " (partition_head "@" w));
            String.substring 0 6 model]) in H as [Hin Hreg].
  split; [done|]. split; [by exists w|].
  cbn [List.find]. by rewrite bool_decide_eq_true_2.
Qed.

Lemma resolve_model_sound_and_stable_witness :
  ConfigFlow._resolve_model sample_model_to_class (VStr "AWS_Philips_AIR@1.0.0")
    "AC3033" = Return (Some "AC3033").
Proof.
  apply (resolve_model_sound_and_stable sample_model_to_class
           (VStr "AWS_Philips_AIR@1.0.0") "AC3033/10" "AC3033").
  by vm_compute.
Defined.

(** X4. The setup steps need a string under the WiFi version key and a
    device id.  With the model extracted and the device id present, a
    status without a WiFi version (or with one that is not a string) makes
    the step raise [AttributeError], whatever is registered; it neither
    proceeds nor aborts with "model_unsupported".  A status without the
    device id raises [KeyError] before any resolution. *)
Theorem setup_step_needs_wifi_version_and_device_id (k : Helpers.ids)
    (model_to_class : dict (list class_decl)) (st : gmap string value) :
  (∀ m, Helpers.extract_model k st = Return m →
        st !! Helpers.DEVICE_ID k = None →
        Helpers.extract_and_resolve k model_to_class st = Raise KeyError) ∧
  (∀ m, Helpers.extract_model k st = Return m →
        is_Some (st !! Helpers.DEVICE_ID k) →
        (∀ w, status_get st (Helpers.WIFI_VERSION k) ≠ VStr w) →
        Helpers.extract_and_resolve k model_to_class st = Raise AttributeError) ∧
  (∀ m w, Helpers.extract_model k st = Return m →
          is_Some (st !! Helpers.DEVICE_ID k) →
          status_get st (Helpers.WIFI_VERSION k) = VStr w →
          Helpers.extract_and_resolve k model_to_class st
          = ConfigFlow.resolve_or_abort model_to_class (VStr w) m ∧
          ∃ r, Helpers.extract_and_resolve k model_to_class st = Return r).
Proof.
  unfold Helpers.extract_and_resolve, Helpers._extract_device_info.
  split; [|split].
  - intros m -> ->. done.
  - intros m -> [d ->] Hw. cbn [Helpers._wifi_version Helpers._model].
    unfold ConfigFlow.resolve_or_abort, ConfigFlow._resolve_model.
    destruct (status_get st (Helpers.WIFI_VERSION k)) as [|w|n]; try done.
    by destruct (Hw w).
  - intros m w -> [d ->] Hw. cbn [Helpers._wifi_version Helpers._model].
    rewrite Hw. split; [done|].
    unfold ConfigFlow.resolve_or_abort, ConfigFlow._resolve_model.
    destruct (List.find _ _); by eexists.
Qed.

Lemma setup_step_needs_wifi_version_and_device_id_witness :
  Helpers.extract_and_resolve sample_ids sample_model_to_class
    (sample_status [("modelid", VStr "AC3033/10"); ("DeviceId", VStr "ABCD")])
    = Raise AttributeError ∧
  Helpers.extract_and_resolve sample_ids sample_model_to_class
    (sample_status [("modelid", VStr "AC3033/10");
                    ("WifiVersion", VStr "AWS_Philips_AIR@1.0.0")])
    = Raise KeyError ∧
  Helpers.extract_and_resolve sample_ids sample_model_to_class
    (sample_status [("modelid", VStr "AC3033/10"); ("DeviceId", VStr "ABCD");
                    ("WifiVersion", VStr "AWS_Philips_AIR@1.0.0")])
    = Return (ConfigFlow.Proceed "AC3033").
Proof.
  split; [|split].
  - destruct (setup_step_needs_wifi_version_and_device_id sample_ids
                sample_model_to_class
                (sample_status [("modelid", VStr "AC3033/10");
                                ("DeviceId", VStr "ABCD")])) as (_ & H & _).
    apply (H "AC3033/10"); [reflexivity | by eexists | by intros w].
  - destruct (setup_step_needs_wifi_version_and_device_id sample_ids
                sample_model_to_class
                (sample_status [("modelid", VStr "AC3033/10");
                                ("WifiVersion", VStr "AWS_Philips_AIR@1.0.0")]))
      as (H & _ & _).
    apply (H "AC3033/10"); reflexivity.
  - destruct (setup_step_needs_wifi_version_and_device_id sample_ids
                sample_model_to_class
                (sample_status [("modelid", VStr "AC3033/10");
                                ("DeviceId", VStr "ABCD");
                                ("WifiVersion", VStr "AWS_Philips_AIR@1.0.0")]))
      as (_ & _ & H).
    destruct (H "AC3033/10" "AWS_Philips_AIR@1.0.0") as [-> _];
      [reflexivity | by eexists | reflexivity |]. by vm_compute.
Defined.

(** ** More on the generic fan *)

Lemma dict_get_is_Some {V} (d : dict V) k : is_Some (dict_get d k) ↔ k ∈ dict_keys d.
Proof.
  destruct (dict_get d k) as [v|] eqn:H.
  - split; [intros _|by eexists].
    destruct (decide (k ∈ dict_keys d)) as [|Hn]; [done|].
    apply dict_get_None in Hn. congruence.
  - split; [by intros [? ?]|]. intros Hin. by apply dict_get_None in H.
Qed.

Lemma preset_mode_loop_at replace st items before p pattern after :
  items = before ++ (p, pattern) :: after →
  (∀ q pat, (q, pat) ∈ before → pattern_holds replace st pat = false) →
  pattern_holds replace st pattern = true →
  preset_mode_loop replace st items = Some p.
Proof.
  intros -> Hbefore Hp. induction before as [|[q pat] before IH]; simpl.
  - by rewrite Hp.
  - rewrite (Hbefore q pat) by (apply elem_of_cons; by left).
    apply IH. intros q' pat' Hin. apply (Hbefore q' pat'). apply elem_of_cons; by right.
Qed.

Lemma pattern_fails_after_write st (pat pattern : dict value) k v v' :
  NoDup (dict_keys pattern) →
  dict_get pat k = Some v → dict_get pattern k = Some v' → v ≠ v' →
  pattern_holds None (status_update st pattern) pat = false.
Proof.
  intros Hnd Hv Hv' Hne. apply pattern_holds_false. exists k, v.
  split; [by apply dict_get_Some_elem|]. cbn [replaced]. unfold status_get.
  rewrite (status_update_present _ pattern k v') by done. simpl. congruence.
Qed.

(** X6. Preset round trip on the generic fan.  Without [REPLACE_PRESET],
    after setting a declared preset whose pattern differs on some shared key
    from every pattern declared before it, the preset read from the store is
    the one that was set.  Without that separation the read still yields a
    preset: the one set or one declared before it. *)
Theorem preset_round_trip (self : PhilipsGenericFanBase) (w : world)
    (i : nat) (p : string) (pattern : dict value) :
  REPLACE_PRESET self = None →
  _available_preset_modes self !! i = Some (p, pattern) →
  NoDup (dict_keys pattern) →
  let st' := status (async_set_preset_mode self p w).2 in
  (∃ j q pat, (j ≤ i)%nat ∧ _available_preset_modes self !! j = Some (q, pat) ∧
              preset_mode self st' = Some q) ∧
  ((∀ j q pat, (j < i)%nat → _available_preset_modes self !! j = Some (q, pat) →
      ∃ k v v', dict_get pat k = Some v ∧ dict_get pattern k = Some v' ∧ v ≠ v') →
   preset_mode self st' = Some p).
Proof.
  intros Hrep Hentry Hnd st'.
  assert (dict_get (_available_preset_modes self) p = Some pattern) as Hget.
  { eapply dict_get_lookup; [apply collect_dict_NoDup | done]. }
  assert (st' = status_update (status w) pattern) as Hst.
  { unfold st', async_set_preset_mode. rewrite Hget. by destruct pattern. }
  assert (pattern_holds None st' pattern = true) as Hholds.
  { rewrite Hst. by apply status_update_holds. }
  split.
  - unfold preset_mode. rewrite Hrep.
    pose proof (preset_mode_loop_spec None st' (_available_preset_modes self)) as H.
    destruct (preset_mode_loop None st' (_available_preset_modes self)) as [q|].
    + destruct H as (before & pat & after & Heq & Hq & Hb).
      exists (List.length before), q, pat. split; [|split; [|done]].
      * destruct (decide (List.length before ≤ i)%nat) as [|Hgt]; [done|].
        exfalso. assert ((p, pattern) ∈ before) as Hin.
        { apply list_elem_of_lookup. exists i. rewrite Heq in Hentry.
          unfold dict in *. by rewrite lookup_app_l in Hentry by lia. }
        specialize (Hb p pattern Hin). congruence.
      * rewrite Heq. unfold dict. by apply list_lookup_middle.
    + exfalso. assert ((p, pattern) ∈ _available_preset_modes self) as Hin.
      { by eapply list_elem_of_lookup_2. }
      specialize (H p pattern Hin). congruence.
  - intros Hsep. unfold preset_mode. rewrite Hrep.
    apply (preset_mode_loop_at None st' _ (take i (_available_preset_modes self))
             p pattern (drop (S i) (_available_preset_modes self))).
    + by rewrite take_drop_middle.
    + intros q pat (j & Hj)%list_elem_of_lookup_1.
      apply lookup_take_Some in Hj as [Hj Hji].
      destruct (Hsep j q pat Hji Hj) as (k & v & v' & Hv & Hv' & Hne).
      rewrite Hst. by eapply pattern_fails_after_write.
    + done.
Qed.

Lemma preset_round_trip_witness :
  preset_mode sample_ac0950
    (status (async_set_preset_mode sample_ac0950 "medium"
               (start (sample_status [("D03102", VInt 0); ("D0310C", VInt 0)]))).2)
  = Some "medium".
Proof.
  destruct (preset_round_trip sample_ac0950
              (start (sample_status [("D03102", VInt 0); ("D0310C", VInt 0)]))
              2 "medium" [("D03102", VInt 1); ("D0310C", VInt 19)]) as [_ H].
  - reflexivity.
  - reflexivity.
  - apply (bool_decide_unpack _). by vm_compute.
  - apply H. intros j q pat Hj Hq. exists "D0310C".
    destruct j as [|[|j]]; [| |lia]; vm_compute in Hq; injection Hq as <- <-.
    + by exists (VInt 0), (VInt 19).
    + by exists (VInt 18), (VInt 19).
Defined.

Lemma last_elem (l : list string) d : l ≠ [] → List.last l d ∈ l.
Proof.
  induction l as [|x l IH]; [done|]. intros _. destruct l as [|y l].
  - apply elem_of_cons; by left.
  - apply elem_of_cons; right. by apply IH.
Qed.

Lemma last_default (l : list string) d d' :
  l ≠ [] → List.last l d = List.last l d'.
Proof.
  induction l as [|x l IH]; [done|]. intros _. destruct l as [|y l]; [done|].
  by apply IH.
Qed.

Lemma percentage_to_ordered_list_item_elem l n :
  l ≠ [] → ∃ speed, percentage_to_ordered_list_item l n = Return speed ∧ speed ∈ l.
Proof.
  intros Hne. unfold percentage_to_ordered_list_item.
  destruct l as [|first rest]; [done|].
  destruct (percentage_scan _ n 0 (first :: rest)) as [speed|] eqn:Hscan.
  - exists speed. split; [done|].
    destruct (percentage_scan_Some _ _ _ _ _ Hscan) as (i & Hi & _).
    by eapply list_elem_of_lookup_2.
  - eexists. split; [done|]. by apply last_elem.
Qed.

Lemma percentage_scan_None list_len n offset l :
  (0 < list_len)%Z → (Z.of_nat (offset + List.length l) ≤ list_len)%Z →
  (100 < n)%Z → percentage_scan list_len n offset l = None.
Proof.
  intros HN. revert offset. induction l as [|x l IH]; intros offset Hlen Hn; [done|].
  simpl in *. rewrite bool_decide_eq_false_2.
  - apply IH; [lia | done].
  - intros Hle. assert (((Z.of_nat offset + 1) * 100) `div` list_len ≤ 100)%Z; [|lia].
    apply Z.div_le_upper_bound; [done|]. nia.
Qed.

Lemma dict_get_elem_keys {V} (d : dict V) k :
  k ∈ dict_keys d → ∃ v, dict_get d k = Some v ∧ (k, v) ∈ d.
Proof.
  intros [v Hv]%dict_get_is_Some. exists v. split; [done|].
  by apply dict_get_Some_elem.
Qed.

Lemma async_set_percentage_any (self : PhilipsGenericFanBase) (w : world)
    (n : Z) :
  n ≠ 0%Z →
  (_speeds self = [] → async_set_percentage self n w = (Raise ValueError, w)) ∧
  (_speeds self ≠ [] →
     ∃ speed pattern,
       (speed, pattern) ∈ _available_speeds self ∧
       async_set_percentage self n w =
       (Return tt,
        {| status := status_update (status w) pattern;
           trace := trace w ++
                    match pattern with
                    | [] => []
                    | _ :: _ => [SetControlValues pattern]
                    end ++ [WriteHaState] |}) ∧
       ((100 < n)%Z → List.last (_speeds self) "" = speed) ∧
       ((n < 0)%Z → List.head (_speeds self) = Some speed)).
Proof.
  intros Hn. unfold async_set_percentage. rewrite bool_decide_eq_false_2 by done.
  split.
  - intros ->. done.
  - intros Hne.
    destruct (percentage_to_ordered_list_item_elem (_speeds self) n Hne)
      as (speed & Hspeed & Hin).
    destruct (dict_get_elem_keys _ _ Hin) as (pattern & Hget & Helem).
    exists speed, pattern. split; [done|]. split; [|split].
    + rewrite Hspeed. run. rewrite Hget.
      destruct pattern; run; [done|]. by rewrite <- app_assoc.
    + intros Hbig. unfold percentage_to_ordered_list_item in Hspeed.
      destruct (_speeds self) as [|first rest] eqn:Hs; [done|].
      rewrite percentage_scan_None in Hspeed; [| simpl; lia | simpl; lia | done].
      replace speed with (List.last (first :: rest) first) by congruence.
      by apply last_default.
    + intros Hneg. unfold percentage_to_ordered_list_item in Hspeed.
      destruct (_speeds self) as [|first rest] eqn:Hs; [done|].
      cbn [percentage_scan] in Hspeed. rewrite bool_decide_eq_true_2 in Hspeed.
      * by injection Hspeed as <-.
      * assert (0 ≤ ((Z.of_nat 0 + 1) * 100) `div` Z.of_nat (List.length (first :: rest)))%Z;
          [|lia].
        apply Z.div_pos; simpl; lia.
Qed.


Lemma async_turn_on_run self w :
  async_turn_on self None None w =
  (Return tt,
   {| status := <[KEY_PHILIPS_POWER self := STATE_POWER_ON self]> (status w);
      trace := trace w ++ [SetControlValue (KEY_PHILIPS_POWER self)
                                           (STATE_POWER_ON self);
                           WriteHaState] |}).
Proof. unfold async_turn_on. run. by rewrite <- app_assoc. Qed.

(** X8. Power on the generic fan.  Turning on without arguments makes
    [is_on] true and turning off makes it false (the two power states being
    different values); either command sends exactly one write of the power
    key and leaves every other key of the store as it was, so turning off
    and on again restores the store of a fan that was on. *)
Theorem power_commands_round_trip (self : PhilipsGenericFanBase) (w : world) :
  STATE_POWER_ON self ≠ STATE_POWER_OFF self →
  let on := async_turn_on self None None w in
  let off := async_turn_off self w in
  is_on self (status on.2) = true ∧
  is_on self (status off.2) = false ∧
  trace on.2 = trace w ++ [SetControlValue (KEY_PHILIPS_POWER self)
                                            (STATE_POWER_ON self); WriteHaState] ∧
  trace off.2 = trace w ++ [SetControlValue (KEY_PHILIPS_POWER self)
                                             (STATE_POWER_OFF self); WriteHaState] ∧
  (∀ k, k ≠ KEY_PHILIPS_POWER self →
        status on.2 !! k = status w !! k ∧ status off.2 !! k = status w !! k) ∧
  (status w !! KEY_PHILIPS_POWER self = Some (STATE_POWER_ON self) →
   status (async_turn_on self None None off.2).2 = status w).
Proof.
  intros Hne on off. subst on off.
  rewrite !async_turn_on_run, !async_turn_off_run. cbn [snd status trace].
  unfold is_on, status_get. rewrite !lookup_insert_eq. cbn [default].
  split; [by rewrite bool_decide_eq_true_2|].
  split; [by rewrite bool_decide_eq_false_2|].
  split; [done|]. split; [done|]. split.
  - intros k Hk. by rewrite !lookup_insert_ne.
  - intros Hon. rewrite insert_insert_eq. by apply insert_id.
Qed.

Lemma power_commands_round_trip_witness :
  is_on sample_ac0950
    (status (async_turn_off sample_ac0950
               (start (sample_status [("D03102", VInt 1); ("D0310C", VInt 19)]))).2)
  = false ∧
  is_on sample_ac0950
    (status (async_turn_on sample_ac0950 None None
               (start (sample_status [("D03102", VInt 0); ("D0310C", VInt 19)]))).2)
  = true.
Proof.
  split.
  - by destruct (power_commands_round_trip sample_ac0950
                   (start (sample_status [("D03102", VInt 1); ("D0310C", VInt 19)]))
                   ltac:(done)) as (_ & H & _).
  - by destruct (power_commands_round_trip sample_ac0950
                   (start (sample_status [("D03102", VInt 0); ("D0310C", VInt 19)]))
                   ltac:(done)) as (H & _).
Defined.

(** X9. Oscillation.  A fan without an oscillation key ignores
    [async_oscillate] (nothing sent, store unchanged) and reports [None].
    With a key whose on and off values are different and not [None], the
    command sends one write of that key and the projection read next is the
    boolean that was commanded. *)
Theorem oscillate_round_trip (SWITCH_ON SWITCH_OFF : string)
    (self : PhilipsGenericFanBase) (w : world) (b : bool) :
  (KEY_OSCILLATION self = None →
     async_oscillate SWITCH_ON SWITCH_OFF self b w = (Return tt, w) ∧
     oscillating SWITCH_OFF self (status w) = Return None) ∧
  (∀ key values rest on off,
     KEY_OSCILLATION self = Some ((key, values) :: rest) →
     dict_get values SWITCH_ON = Some on → dict_get values SWITCH_OFF = Some off →
     on ≠ VNone → off ≠ VNone → on ≠ off →
     let r := async_oscillate SWITCH_ON SWITCH_OFF self b w in
     r.1 = Return tt ∧
     trace r.2 = trace w ++ [SetControlValue key (if b then on else off);
                             WriteHaState] ∧
     oscillating SWITCH_OFF self (status r.2) = Return (Some b)).
Proof.
  split.
  - intros Hk. unfold async_oscillate, oscillating. by rewrite Hk.
  - intros key values rest on off Hk Hon Hoff Hn1 Hn2 Hne r. subst r.
    unfold async_oscillate, oscillating. rewrite Hk, Hon, Hoff. cbn [default].
    destruct b; run; cbn [fst snd status trace]; unfold status_get;
      rewrite lookup_insert_eq; cbn [default];
      (split; [done|]); (split; [by rewrite <- app_assoc|]).
    + rewrite decide_False by done. by rewrite bool_decide_eq_false_2.
    + rewrite decide_False by done. by rewrite bool_decide_eq_true_2.
Qed.

Lemma oscillate_round_trip_witness :
  oscillating "off" sample_oscillating_fan
    (status (async_oscillate "on" "off" sample_oscillating_fan true
               (start (sample_status [("D03102", VInt 1)]))).2)
  = Return (Some true) ∧
  async_oscillate "on" "off" sample_ac0950 true
    (start (sample_status [("D03102", VInt 1)]))
  = (Return tt, start (sample_status [("D03102", VInt 1)])).
Proof.
  split.
  - destruct (oscillate_round_trip "on" "off" sample_oscillating_fan
                (start (sample_status [("D03102", VInt 1)])) true) as [_ H].
    by destruct (H "D0320F" [("on", VInt 45); ("off", VInt 0)] [] (VInt 45) (VInt 0))
      as (_ & _ & Hosc).
  - destruct (oscillate_round_trip "on" "off" sample_ac0950
                (start (sample_status [("D03102", VInt 1)])) true) as [H _].
    by destruct (H eq_refl).
Defined.

Lemma list_index_elem (l : list string) x :
  x ∈ l → ∃ i, list_index x l = Some i ∧ (i < List.length l)%nat.
Proof.
  induction l as [|y l IH]; [by intros H%elem_of_nil|].
  intros Hin. simpl. destruct (decide (y = x)) as [->|Hne].
  - exists 0%nat. split; [done|]. lia.
  - apply elem_of_cons in Hin as [->|Hin]; [done|].
    destruct (IH Hin) as (i & -> & Hi). exists (S i). split; [done|]. lia.
Qed.

Lemma item_percentage_bounded (l : list string) x :
  x ∈ l → ∃ p, ordered_list_item_to_percentage l x = Return p ∧ (0 ≤ p ≤ 100)%Z.
Proof.
  intros (i & Hi & Hlt)%list_index_elem. unfold ordered_list_item_to_percentage.
  rewrite Hi. eexists. split; [done|]. split.
  - apply Z.div_pos; lia.
  - apply Z.div_le_upper_bound; [lia|]. nia.
Qed.

Lemma percentage_loop_total replace ordered_list st items :
  (∀ speed pattern, (speed, pattern) ∈ items → speed ∈ ordered_list) →
  (percentage_loop replace ordered_list st items = Return None ∧
   ∀ speed pattern, (speed, pattern) ∈ items →
                    pattern_holds replace st pattern = false) ∨
  ∃ p speed pattern,
    percentage_loop replace ordered_list st items = Return (Some p) ∧
    (speed, pattern) ∈ items ∧ pattern_holds replace st pattern = true ∧
    ordered_list_item_to_percentage ordered_list speed = Return p ∧
    (0 ≤ p ≤ 100)%Z.
Proof.
  induction items as [|[speed pattern] items IH]; intros Hin; simpl.
  - left. split; [done|]. intros ? ? H. by apply elem_of_nil in H.
  - destruct (pattern_holds replace st pattern) eqn:Hp.
    + right. destruct (item_percentage_bounded ordered_list speed) as (p & Hpct & Hb).
      { apply (Hin speed pattern). apply elem_of_cons; by left. }
      exists p, speed, pattern. rewrite Hpct. split; [done|].
      split; [apply elem_of_cons; by left|]. done.
    + destruct IH as [[Hnone Hall]|(p & s & pat & Hsome & Hel & Hh & Hpct & Hb)].
      { intros s pat H. apply (Hin s pat). apply elem_of_cons; by right. }
      * left. split; [done|]. intros s pat [[= -> ->]|H]%elem_of_cons; eauto.
      * right. exists p, s, pat. split; [done|].
        split; [apply elem_of_cons; by right|]. done.
Qed.

(** X10. The [percentage] projection never raises, and what it returns is
    either [None], exactly when no declared speed pattern is satisfied by the
    status, or the percentage between 0 and 100 of a declared speed whose
    pattern the status satisfies. *)
Theorem percentage_total_and_bounded (self : PhilipsGenericFanBase)
    (st : gmap string value) :
  (percentage self st = Return None ∧
   ∀ speed pattern, (speed, pattern) ∈ _available_speeds self →
                    pattern_holds (REPLACE_SPEED self) st pattern = false) ∨
  ∃ p speed pattern,
    percentage self st = Return (Some p) ∧
    (speed, pattern) ∈ _available_speeds self ∧
    pattern_holds (REPLACE_SPEED self) st pattern = true ∧
    ordered_list_item_to_percentage (_speeds self) speed = Return p ∧
    (0 ≤ p ≤ 100)%Z.
Proof.
  apply percentage_loop_total. intros speed pattern Hin.
  unfold _speeds, dict_keys. apply list_elem_of_fmap. by exists (speed, pattern).
Qed.

(** X11. Requested and reported percentage on the generic fan.  Without
    [REPLACE_SPEED], when the speed patterns are dicts that pairwise differ
    on some shared key, setting a percentage [n] of 1..100 and reading the
    percentage back gives the smallest step [(j + 1) * 100 // N] that is at
    least [n]: the report is never below the request, and equals it when the
    request is itself a step. *)
Theorem percentage_read_back_rounds_up (self : PhilipsGenericFanBase) (w : world)
    (n : Z) :
  (0 < n ≤ 100)%Z → _speeds self ≠ [] →
  REPLACE_SPEED self = None →
  (∀ speed pattern, (speed, pattern) ∈ _available_speeds self →
                    NoDup (dict_keys pattern)) →
  (∀ i j s pat s' pat',
     (j < i)%nat → _available_speeds self !! j = Some (s', pat') →
     _available_speeds self !! i = Some (s, pat) →
     ∃ k v v', dict_get pat' k = Some v' ∧ dict_get pat k = Some v ∧ v' ≠ v) →
  ∃ p i,
    percentage self (status (async_set_percentage self n w).2) = Return (Some p) ∧
    (i < List.length (_speeds self))%nat ∧
    p = (((Z.of_nat i + 1) * 100) `div` Z.of_nat (List.length (_speeds self)))%Z ∧
    (n ≤ p ≤ 100)%Z ∧
    (∀ j, (j < List.length (_speeds self))%nat →
          (n ≤ ((Z.of_nat j + 1) * 100) `div` Z.of_nat (List.length (_speeds self)))%Z →
          (p ≤ ((Z.of_nat j + 1) * 100) `div` Z.of_nat (List.length (_speeds self)))%Z).
Proof.
  intros Hn Hne Hrep Hnd Hsep.
  destruct (async_set_percentage_run self w n Hn Hne)
    as (i & speed & pattern & Hentry & Hub & Hlow & ->).
  assert (NoDup (_speeds self)) as Hkeys by apply collect_dict_NoDup.
  assert (_speeds self !! i = Some speed) as Hi.
  { exact (list_lookup_fmap_Some_2 fst (_available_speeds self) i _ Hentry). }
  assert (i < List.length (_speeds self))%nat as Hlt by (by eapply lookup_lt_Some).
  exists (((Z.of_nat i + 1) * 100) `div` Z.of_nat (List.length (_speeds self)))%Z, i.
  split; [|split; [done|split; [done|split; [split; [done|]|]]]].
  - cbn [snd status]. unfold percentage. rewrite Hrep.
    rewrite (percentage_loop_at None (_speeds self) _ (_available_speeds self)
               (take i (_available_speeds self)) speed pattern
               (drop (S i) (_available_speeds self))).
    + unfold ordered_list_item_to_percentage. by rewrite (list_index_lookup _ i).
    + by rewrite take_drop_middle.
    + intros q pat (j & Hj)%list_elem_of_lookup_1.
      apply lookup_take_Some in Hj as [Hj Hji].
      destruct (Hsep i j speed pattern q pat Hji Hj Hentry)
        as (k & v & v' & Hv' & Hv & Hneq).
      eapply pattern_fails_after_write; [|exact Hv'|exact Hv|exact Hneq].
      apply (Hnd speed pattern). by eapply list_elem_of_lookup_2.
    + apply status_update_holds. apply (Hnd speed pattern).
      by eapply list_elem_of_lookup_2.
  - apply Z.div_le_upper_bound; [lia|]. nia.
  - intros j Hj Hle. destruct (decide (j < i)%nat) as [Hji|Hji].
    + specialize (Hlow j Hji). lia.
    + apply Z.div_le_mono; [lia|]. nia.
Qed.

Lemma percentage_read_back_rounds_up_witness :
  percentage sample_ac0950
    (status (async_set_percentage sample_ac0950 40
               (start (sample_status [("D03102", VInt 0)]))).2)
  = Return (Some 66%Z).
Proof.
  destruct (percentage_read_back_rounds_up sample_ac0950
              (start (sample_status [("D03102", VInt 0)])) 40)
    as (p & i & Hread & _ & _ & _ & _).
  - lia.
  - by vm_compute.
  - reflexivity.
  - intros speed pattern Hin. vm_compute in Hin.
    repeat (apply elem_of_cons in Hin as [[= _ ->]|Hin];
            [apply (bool_decide_unpack _); by vm_compute|]).
    by apply elem_of_nil in Hin.
  - intros i j s pat s' pat' Hji Hj Hi. exists "D0310C".
    destruct i as [|[|[|i]]], j as [|[|j]]; try lia;
      vm_compute in Hi, Hj; try done;
      injection Hi as <- <-; injection Hj as <- <-; by do 2 eexists.
  - rewrite Hread. by vm_compute.
Defined.

Lemma status_update_keys st (pattern : dict value) k :
  k ∉ dict_keys pattern → status_update st pattern !! k = st !! k.
Proof. intros H. apply status_update_absent. by apply dict_get_None. Qed.

(** X12. What the generic write commands leave alone.  Setting a preset
    changes no key of the store outside the keys of that preset's pattern,
    setting a percentage changes no key that no speed pattern mentions (nor
    the power key's neighbours when the percentage is 0), and a key the
    pattern does mention holds the pattern's value afterwards. *)
Theorem generic_writes_frame (self : PhilipsGenericFanBase) (w : world) (k : string) :
  (∀ p pattern,
     dict_get (_available_preset_modes self) p = Some pattern →
     (k ∉ dict_keys pattern →
      status (async_set_preset_mode self p w).2 !! k = status w !! k) ∧
     (∀ v, NoDup (dict_keys pattern) → dict_get pattern k = Some v →
           status (async_set_preset_mode self p w).2 !! k = Some v)) ∧
  (∀ n,
     k ≠ KEY_PHILIPS_POWER self →
     (∀ speed pattern, (speed, pattern) ∈ _available_speeds self →
                       k ∉ dict_keys pattern) →
     status (async_set_percentage self n w).2 !! k = status w !! k).
Proof.
  split.
  - intros p pattern Hp.
    assert (status (async_set_preset_mode self p w).2
            = status_update (status w) pattern) as ->.
    { unfold async_set_preset_mode. rewrite Hp. by destruct pattern. }
    split; [apply status_update_keys|]. intros v Hnd Hv.
    by apply status_update_present.
  - intros n Hk Hfree. destruct (decide (n = 0%Z)) as [->|Hn].
    + unfold async_set_percentage. rewrite bool_decide_eq_true_2 by done.
      rewrite async_turn_off_run. cbn [snd status]. by rewrite lookup_insert_ne.
    + destruct (async_set_percentage_any self w n Hn) as [Hempty Hsome].
      destruct (decide (_speeds self = [])) as [He|He].
      * by rewrite (Hempty He).
      * destruct (Hsome He) as (speed & pattern & Hin & -> & _).
        cbn [snd status]. apply status_update_keys. by apply (Hfree speed pattern).
Qed.

Lemma generic_writes_frame_witness :
  status (async_set_preset_mode sample_ac0950 "turbo"
            (start (sample_status [("D03102", VInt 0); ("pm25", VInt 8)]))).2
    !! "pm25" = Some (VInt 8) ∧
  status (async_set_percentage sample_ac0950 100
            (start (sample_status [("D03102", VInt 0); ("pm25", VInt 8)]))).2
    !! "pm25" = Some (VInt 8).
Proof.
  destruct (generic_writes_frame sample_ac0950
              (start (sample_status [("D03102", VInt 0); ("pm25", VInt 8)])) "pm25")
    as [Hpreset Hpct].
  split.
  - destruct (Hpreset "turbo" [("D03102", VInt 1); ("D0310C", VInt 18)] eq_refl)
      as [H _].
    rewrite H; [done|]. vm_compute. intros Hin.
    repeat (apply elem_of_cons in Hin as [Hin|Hin]; [discriminate Hin|]).
    by apply elem_of_nil in Hin.
  - rewrite (Hpct 100%Z); [done|done|].
    intros speed pattern Hin. vm_compute in Hin.
    repeat (apply elem_of_cons in Hin as [[= _ ->]|Hin];
            [vm_compute; intros Hk;
             repeat (apply elem_of_cons in Hk as [Hk|Hk]; [discriminate Hk|]);
             by apply elem_of_nil in Hk|]).
    by apply elem_of_nil in Hin.
Defined.

(** ** More on the capability registry *)

Lemma getattr_declared {A} (name : class_decl → option A) cls dflt :
  getattr cls name dflt = dflt ∨
  ∃ c, c ∈ cls ∧ name c = Some (getattr cls name dflt).
Proof.
  induction cls as [|c cls IH]; simpl; [by left|].
  destruct (name c) as [a|] eqn:Hc.
  - right. exists c. split; [apply elem_of_cons; by left | done].
  - destruct IH as [->|(c' & Hin & Hn)]; [by left|].
    right. exists c'. split; [apply elem_of_cons; by right | done].
Qed.

Lemma collect_list_sound {A} (name : class_decl → option (list A)) mro x :
  x ∈ collect_list name mro →
  ∃ cls entries, cls ∈ mro ∧ name cls = Some entries ∧ x ∈ entries.
Proof.
  induction mro as [|c bases IH]; [by intros H%elem_of_nil|].
  rewrite collect_list_cons. intros [Hin|Hin]%elem_of_app.
  - destruct (IH Hin) as (cls & entries & Hcls & Hn & Hx).
    exists cls, entries. split; [apply elem_of_cons; by right | done].
  - destruct (getattr_declared name (c :: bases) []) as [Heq|(cls & Hcls & Hn)].
    + rewrite Heq in Hin. by apply elem_of_nil in Hin.
    + by exists cls, (getattr (c :: bases) name []).
Qed.

Lemma dict_set_elem {V} (d : dict V) k0 v0 k v :
  (k, v) ∈ dict_set d k0 v0 → (k, v) ∈ d ∨ (k, v) = (k0, v0).
Proof.
  induction d as [|[k1 v1] d IH]; simpl.
  - intros ->%list_elem_of_singleton. by right.
  - destruct (decide (k1 = k0)) as [->|Hne].
    + intros [->|Hin]%elem_of_cons; [by right|]. left. apply elem_of_cons; by right.
    + intros [->|Hin]%elem_of_cons; [left; apply elem_of_cons; by left|].
      destruct (IH Hin) as [H|H]; [|by right]. left. apply elem_of_cons; by right.
Qed.

Lemma dict_update_elem {V} (d other : dict V) k v :
  (k, v) ∈ dict_update d other → (k, v) ∈ d ∨ (k, v) ∈ other.
Proof.
  unfold dict_update. revert d.
  induction other as [|[k0 v0] other IH]; intros d; simpl; [by left|].
  intros [Hin|Hin]%IH.
  - apply dict_set_elem in Hin as [H| ->]; [by left|].
    right. apply elem_of_cons; by left.
  - right. apply elem_of_cons; by right.
Qed.

Lemma collect_dict_sound {V} (name : class_decl → option (dict V)) mro k v :
  (k, v) ∈ collect_dict name mro →
  ∃ cls table, cls ∈ mro ∧ name cls = Some table ∧ (k, v) ∈ table.
Proof.
  induction mro as [|c bases IH]; [by intros H%elem_of_nil|].
  rewrite collect_dict_cons. intros [Hin|Hin]%dict_update_elem.
  - destruct (IH Hin) as (cls & table & Hcls & Hn & Hx).
    exists cls, table. split; [apply elem_of_cons; by right | done].
  - destruct (getattr_declared name (c :: bases) []) as [Heq|(cls & Hcls & Hn)].
    + rewrite Heq in Hin. by apply elem_of_nil in Hin.
    + by exists cls, (getattr (c :: bases) name []).
Qed.

(** X13. The assembled registry invents nothing and repeats no name.  The
    preset names and the speed names of a fan are pairwise distinct (so
    [speed_count] counts distinct speeds), every assembled preset or speed
    entry is an entry of the table some class of the chain declares, and
    every assembled attribute is declared by some class of the chain. *)
Theorem registry_sound_and_distinct (self : PhilipsGenericFanBase) :
  NoDup (_preset_modes self) ∧
  NoDup (_speeds self) ∧
  (∀ p pattern, dict_get (_available_preset_modes self) p = Some pattern →
     ∃ cls table, cls ∈ mro self ∧ AVAILABLE_PRESET_MODES cls = Some table ∧
                  (p, pattern) ∈ table) ∧
  (∀ s pattern, dict_get (_available_speeds self) s = Some pattern →
     ∃ cls table, cls ∈ mro self ∧ AVAILABLE_SPEEDS cls = Some table ∧
                  (s, pattern) ∈ table) ∧
  (∀ a, a ∈ _available_attributes self →
     ∃ cls entries, cls ∈ mro self ∧ AVAILABLE_ATTRIBUTES cls = Some entries ∧
                    a ∈ entries).
Proof.
  split; [apply collect_dict_NoDup|]. split; [apply collect_dict_NoDup|].
  split; [|split].
  - intros p pattern H%dict_get_Some_elem. by apply collect_dict_sound.
  - intros s pattern H%dict_get_Some_elem. by apply collect_dict_sound.
  - intros a. apply collect_list_sound.
Qed.

Lemma dict_set_same {V} (d : dict V) k v : dict_get d k = Some v → dict_set d k v = d.
Proof.
  induction d as [|[k0 v0] d IH]; simpl; [done|].
  destruct (decide (k0 = k)) as [->|Hne].
  - by intros [= ->].
  - intros H. by rewrite IH.
Qed.

Lemma dict_update_same {V} (d other : dict V) :
  (∀ k v, (k, v) ∈ other → dict_get d k = Some v) → dict_update d other = d.
Proof.
  unfold dict_update. induction other as [|[k v] other IH]; intros H; simpl; [done|].
  rewrite dict_set_same by (apply H, elem_of_cons; by left).
  apply IH. intros k' v' Hin. apply H, elem_of_cons. by right.
Qed.

Lemma dict_update_idem {V} (d other : dict V) :
  NoDup (dict_keys other) → dict_update (dict_update d other) other = dict_update d other.
Proof.
  intros Hnd. apply dict_update_same. intros k v Hin.
  apply dict_get_update_present; [done|]. by apply dict_get_elem.
Qed.

Lemma getattr_inherited {A} (name : class_decl → option A) derived cls a dflt :
  (∀ c, c ∈ derived → name c = None) → name cls.1 = Some a →
  getattr (derived ++ cls.1 :: cls.2) name dflt = a.
Proof.
  intros Hnone Hcls. induction derived as [|c derived IH]; simpl.
  - by rewrite Hcls.
  - rewrite (Hnone c) by (apply elem_of_cons; by left).
    apply IH. intros c' Hin. apply Hnone, elem_of_cons. by right.
Qed.

(** X14. Classes that declare nothing.  Below a class that declares a
    table, classes that do not declare it resolve the name to that table.
    For the dict-shaped tables this changes nothing: the assembled presets
    and speeds are those of the declaring class.  For a list-shaped table
    every such class appends the inherited list once more, so the assembled
    list holds the declaring class's entries once per class of the chain
    from it downwards. *)
Theorem undeclaring_subclasses (derived : list class_decl) (cls : class_decl)
    (ancestors : list class_decl) :
  (∀ V (name : class_decl → option (dict V)) table,
     name cls = Some table → NoDup (dict_keys table) →
     (∀ c, c ∈ derived → name c = None) →
     collect_dict name (derived ++ cls :: ancestors)
     = collect_dict name (cls :: ancestors)) ∧
  (∀ A (name : class_decl → option (list A)) entries,
     name cls = Some entries →
     (∀ c, c ∈ derived → name c = None) →
     collect_list name (derived ++ cls :: ancestors)
     = collect_list name (cls :: ancestors)
       ++ concat (replicate (List.length derived) entries)).
Proof.
  split.
  - intros V name table Hcls Hnd Hnone.
    induction derived as [|c derived IH]; [done|].
    change ((c :: derived) ++ cls :: ancestors)
      with (c :: (derived ++ cls :: ancestors)).
    rewrite collect_dict_cons.
    change (c :: (derived ++ cls :: ancestors))
      with ((c :: derived) ++ (cls, ancestors).1 :: (cls, ancestors).2).
    rewrite (getattr_inherited name (c :: derived) (cls, ancestors) table) by done.
    rewrite IH by (intros c' Hin; apply Hnone, elem_of_cons; by right).
    rewrite collect_dict_cons. cbn [getattr]. rewrite Hcls.
    by apply dict_update_idem.
  - intros A name entries Hcls Hnone.
    induction derived as [|c derived IH]; [by rewrite app_nil_r|].
    change ((c :: derived) ++ cls :: ancestors)
      with (c :: (derived ++ cls :: ancestors)).
    rewrite collect_list_cons.
    change (c :: (derived ++ cls :: ancestors))
      with ((c :: derived) ++ (cls, ancestors).1 :: (cls, ancestors).2).
    rewrite (getattr_inherited name (c :: derived) (cls, ancestors) entries) by done.
    rewrite IH by (intros c' Hin; apply Hnone, elem_of_cons; by right).
    rewrite <- app_assoc. f_equal.
    change (List.length (c :: derived)) with (S (List.length derived)).
    clear. induction (List.length derived) as [|n IHn]; simpl.
    + by rewrite app_nil_r.
    + rewrite <- app_assoc. by rewrite IHn.
Qed.

Lemma undeclaring_subclasses_witness :
  _available_attributes sample_ac1214_with_attributes
    = sample_attributes ++ sample_attributes ∧
  _collect_available_preset_modes
    ([PhilipsEntity; object] ++ mro sample_ac1214)
    = _available_preset_modes sample_ac1214.
Proof.
  split.
  - destruct (undeclaring_subclasses
                [PhilipsAC1214.PhilipsAC1214 sample_const]
                (PhilipsAC1214.PhilipsGenericFan sample_attributes)
                [PhilipsGenericFanBase_cls; PhilipsGenericControlBase;
                 PhilipsEntity; object]) as [_ H].
    unfold _available_attributes, _collect_available_attributes.
    change (mro sample_ac1214_with_attributes)
      with ([PhilipsAC1214.PhilipsAC1214 sample_const]
            ++ PhilipsAC1214.PhilipsGenericFan sample_attributes
               :: [PhilipsGenericFanBase_cls; PhilipsGenericControlBase;
                   PhilipsEntity; object]).
    rewrite (H attribute AVAILABLE_ATTRIBUTES sample_attributes).
    + reflexivity.
    + reflexivity.
    + intros c ->%list_elem_of_singleton. reflexivity.
  - destruct (undeclaring_subclasses [PhilipsEntity; object]
                (PhilipsAC1214.PhilipsAC1214 sample_const)
                (tail (mro sample_ac1214))) as [H _].
    unfold _collect_available_preset_modes.
    change (mro sample_ac1214)
      with (PhilipsAC1214.PhilipsAC1214 sample_const :: tail (mro sample_ac1214)).
    rewrite (H (dict value) AVAILABLE_PRESET_MODES
               (default [] (AVAILABLE_PRESET_MODES
                              (PhilipsAC1214.PhilipsAC1214 sample_const)))).
    + reflexivity.
    + reflexivity.
    + apply (bool_decide_unpack _). by vm_compute.
    + intros c Hin. repeat (apply elem_of_cons in Hin as [->|Hin]; [done|]).
      by apply elem_of_nil in Hin.
Defined.

(** ** More on the filter alert sensor *)

Section low_filters.
Variable c : const_py.
Variable st : gmap string value.

Lemma low_loop_cons acc k rest :
  FilterAlert._get_low_filters_loop c st acc (k :: rest) =
  match FilterAlert._get_low_filters_loop c st acc [k] with
  | Return acc' => FilterAlert._get_low_filters_loop c st acc' rest
  | Raise e => Raise e
  end.
Proof. cbn [FilterAlert._get_low_filters_loop]. by repeat case_match. Qed.

Lemma low_single acc k :
  (FilterAlert._get_low_filters_loop c st acc [k] = Return acc ∧
   FilterAlert._get_low_filters_loop c st [] [k] = Return []) ∨
  (∃ v raw desc,
     FilterAlert._get_low_filters_loop c st acc [k] = Return (dict_set acc k v) ∧
     FilterAlert._get_low_filters_loop c st [] [k] = Return [(k, v)] ∧
     st !! k = Some (VInt raw) ∧
     dict_get (FILTER_TYPES c) k = Some desc ∧ desc ≠ [] ∧
     match FilterAlert.total_of st
             (default VNone (dict_get desc (FanAttributes_TOTAL c))) with
     | Some total =>
         ∃ t, total = VInt t ∧ (0 < t)%Z ∧
              FilterAlert.percentage_of raw t = Return v ∧
              (v < FILTER_ALERT_THRESHOLD c)%Z
     | None => v = raw ∧ (raw < 72)%Z
     end) ∨
  (∃ e, FilterAlert._get_low_filters_loop c st acc [k] = Raise e ∧
        FilterAlert._get_low_filters_loop c st [] [k] = Raise e).
Proof.
  cbn [FilterAlert._get_low_filters_loop].
  destruct (st !! k) as [value|] eqn:Hv; [|by left].
  destruct (dict_get (FILTER_TYPES c) k) as [[|kv desc]|] eqn:Hd; [by left| |by left].
  destruct (FilterAlert.total_of st _) as [total|] eqn:Ht.
  - destruct total as [|s|t]; [right; right; by eexists..|].
    case_bool_decide as Hpos; [|by left].
    destruct value as [|s|raw]; [right; right; by eexists..|].
    destruct (FilterAlert.percentage_of raw t) as [percentage|e] eqn:Hpct;
      [|right; right; by eexists].
    case_bool_decide as Hlow; [|by left].
    right; left. eexists percentage, raw, (kv :: desc). rewrite Ht.
    split; [done|]. split; [done|]. split; [done|]. split; [done|]. split; [done|].
    by exists t.
  - destruct value as [|s|raw]; [right; right; by eexists..|].
    case_bool_decide as Hlow; [|by left].
    right; left. exists raw, raw, (kv :: desc). by rewrite Ht.
Qed.

Lemma low_loop_spec keys : ∀ acc low,
  FilterAlert._get_low_filters_loop c st acc keys = Return low →
  (NoDup (dict_keys acc) → NoDup (dict_keys low)) ∧
  ∀ k,
    (k ∈ keys →
     ∃ d, FilterAlert._get_low_filters_loop c st [] [k] = Return d ∧
          dict_get low k = match d with
                           | [] => dict_get acc k
                           | _ :: _ => dict_get d k
                           end) ∧
    (k ∉ keys → dict_get low k = dict_get acc k).
Proof.
  induction keys as [|k0 keys IH]; intros acc low.
  - intros [= <-]. split; [done|]. intros k. split; [by intros H%elem_of_nil | done].
  - rewrite low_loop_cons.
    destruct (low_single acc k0)
      as [[Hacc Hd]|[(v & raw & desc & Hacc & Hd & _)|(e & Hacc & _)]];
      rewrite Hacc; [| |done]; intros Hrest;
      destruct (IH _ _ Hrest) as [Hnd Hkeys].
    + split; [done|]. intros k. destruct (Hkeys k) as [Hin Hout]. split.
      * intros [->|Hk]%elem_of_cons; [|auto].
        destruct (decide (k0 ∈ keys)) as [Hk|Hk]; [auto|].
        exists []. split; [done|]. by apply Hout.
      * intros [Hne Hk]%not_elem_of_cons. by apply Hout.
    + split; [intros H; by apply Hnd, dict_set_NoDup|].
      intros k. destruct (Hkeys k) as [Hin Hout]. split.
      * intros Hk. destruct (decide (k ∈ keys)) as [Hk'|Hk'].
        -- destruct (Hin Hk') as (d & Hsingle & Hget). exists d. split; [done|].
           rewrite Hget. destruct d as [|kv d]; [|done].
           rewrite dict_get_set. destruct (decide (k0 = k)) as [->|]; [|done].
           congruence.
        -- apply elem_of_cons in Hk as [->|Hk]; [|done].
           exists [(k0, v)]. split; [done|]. rewrite (Hout Hk'), dict_get_set.
           cbn [dict_get]. by rewrite !decide_True.
      * intros [Hne Hk]%not_elem_of_cons. rewrite (Hout Hk), dict_get_set.
        by rewrite decide_False.
Qed.

End low_filters.

(** X15. What [_get_low_filters] reports.  When it returns, the reported
    keys are distinct; a filter is reported only if it is one of the
    sensor's keys, is in the status with an integer value and has a
    non-empty description, and then either its total is in the status as a
    positive integer and the percentage [round(100.0 * value / total)], as
    Python computes it on floats, is what is reported and is below the
    threshold, or no total applies
    and the raw value, which is then reported, is below 72.  Every key is
    judged on its own: what is reported for a key is what a sensor with that
    key alone reports, whatever the other keys and their order. *)
Theorem low_filters_reported (c : const_py) (keys : list string)
    (st : gmap string value) (low : dict Z) :
  FilterAlert._get_low_filters c keys st = Return low →
  NoDup (dict_keys low) ∧
  (∀ k, k ∉ keys → dict_get low k = None) ∧
  (∀ k, k ∈ keys →
     ∃ d, FilterAlert._get_low_filters c [k] st = Return d ∧
          dict_get low k = dict_get d k) ∧
  (∀ k v, dict_get low k = Some v →
     k ∈ keys ∧
     ∃ raw desc,
       st !! k = Some (VInt raw) ∧
       dict_get (FILTER_TYPES c) k = Some desc ∧ desc ≠ [] ∧
       match FilterAlert.total_of st
               (default VNone (dict_get desc (FanAttributes_TOTAL c))) with
       | Some total =>
           ∃ t, total = VInt t ∧ (0 < t)%Z ∧
                FilterAlert.percentage_of raw t = Return v ∧
                (v < FILTER_ALERT_THRESHOLD c)%Z
       | None => v = raw ∧ (raw < 72)%Z
       end).
Proof.
  unfold FilterAlert._get_low_filters. intros Hlow.
  destruct (low_loop_spec c st keys [] low Hlow) as [Hnd Hkeys].
  split; [apply Hnd, NoDup_nil_2|].
  assert (∀ k, k ∈ keys →
            ∃ d, FilterAlert._get_low_filters_loop c st [] [k] = Return d ∧
                 dict_get low k = dict_get d k) as Hown.
  { intros k Hk. destruct (Hkeys k) as [Hin _].
    destruct (Hin Hk) as (d & Hd & Hget). exists d. split; [done|].
    rewrite Hget. by destruct d. }
  split; [intros k Hk; by apply (Hkeys k)|]. split; [done|].
  intros k v Hv.
  destruct (decide (k ∈ keys)) as [Hk|Hk];
    [|destruct (Hkeys k) as [_ Hout]; rewrite (Hout Hk) in Hv; done].
  split; [done|]. destruct (Hown k Hk) as (d & Hd & Hget).
  destruct (low_single c st [] k)
    as [[_ Hd']|[(v' & raw & desc & _ & Hd' & Hraw & Hdesc & Hne & Hcond)|(e & _ & Hd')]];
    rewrite Hd' in Hd; [| |done]; injection Hd as <-.
  - rewrite Hget in Hv. done.
  - rewrite Hget in Hv. cbn [dict_get] in Hv. rewrite decide_True in Hv by done.
    injection Hv as ->. by exists raw, desc.
Qed.

Lemma low_filters_reported_witness :
  let st := sample_status [("fltsts0", VInt 40); ("fltsts1", VInt 10);
                           ("flttotal1", VInt 0); ("fltsts2", VInt 1000);
                           ("flttotal2", VInt 2400)] in
  ∃ low,
    FilterAlert._get_low_filters sample_const ["fltsts2"; "fltsts1"; "fltsts0"] st
      = Return low ∧
    dict_get low "fltsts0" = Some 40%Z ∧
    dict_get low "fltsts1" = None ∧
    dict_get low "fltsts2" = Some 42%Z ∧
    FilterAlert._get_low_filters sample_const ["fltsts1"]
      (sample_status [("fltsts1", VInt 10500000000000001);
                      ("flttotal1", VInt 100000000000000000)])
      = Return [("fltsts1", 10%Z)] ∧
    FilterAlert._get_low_filters sample_const ["fltsts1"]
      (sample_status [("fltsts1", VInt 1); ("flttotal1", VInt (10 ^ 400))])
      = Raise OverflowError.
Proof.
  intros st. exists [("fltsts2", 42%Z); ("fltsts0", 40%Z)].
  destruct (low_filters_reported sample_const ["fltsts2"; "fltsts1"; "fltsts0"] st
              [("fltsts2", 42%Z); ("fltsts0", 40%Z)] ltac:(by vm_compute))
    as (_ & _ & Hown & _).
  split; [by vm_compute|]. split; [|split; [|split; [|split]]].
  - destruct (Hown "fltsts0") as (d & Hd & ->).
    + do 2 (apply elem_of_cons; right). apply elem_of_cons; by left.
    + vm_compute in Hd. by injection Hd as <-.
  - reflexivity.
  - reflexivity.
  - by vm_compute.
  - by vm_compute.
Defined.

(** X16. A filter that stays low raises no further alert.  Over any run of
    status updates in each of which filter [k] is reported low, a sensor
    that has seen no update yet, or that already recorded [k] as low, fires
    no event for [k]: a filter already low when the sensor starts is never
    announced, and one announced once is not announced again while it stays
    low.  Every update of the run writes the entity state once. *)
Theorem filter_alert_silent_while_low (c : const_py)
    (info : FilterAlert.device_information) (keys : list string) (k : string)
    (sts : list (gmap string value)) (s : FilterAlert.sensor) :
  Forall (λ st, ∃ low, FilterAlert._get_low_filters c keys st = Return low ∧
                       k ∈ dict_keys low) sts →
  FilterAlert._previous_alert_state s = None ∨
    k ∈ FilterAlert._previous_low_filters s →
  let r := FilterAlert.updates c info keys sts s in
  r.1 = Return tt ∧
  FilterAlert.ha_state_writes r.2
    = (FilterAlert.ha_state_writes s + List.length sts)%nat ∧
  ∃ events,
    FilterAlert.bus r.2 = FilterAlert.bus s ++ events ∧
    ∀ e, e ∈ events → FilterAlert.ev_filter_key e ≠ k.
Proof.
  intros Hsts. revert s. induction Hsts as [|st sts (low & Hlow & Hk) _ IH];
    intros s Hs; cbn [FilterAlert.updates].
  - cbn. split; [done|]. split; [lia|]. exists []. split; [by rewrite app_nil_r|].
    by intros e H%elem_of_nil.
  - cbv [mbind state_exn_bind].
    rewrite (handle_coordinator_update_run c info keys st low Hlow).
    set (s' := {| FilterAlert._previous_alert_state := _ |}).
    destruct (IH s') as (Hret & Hwrites & events & Hbus & Hev).
    { right. cbn. by apply elem_of_list_to_set. }
    cbn zeta. split; [done|]. split; [rewrite Hwrites; cbn; lia|].
    eexists. split; [rewrite Hbus; cbn; by rewrite <- app_assoc|].
    intros e [He|He]%elem_of_app; [|by apply Hev].
    destruct (FilterAlert._previous_alert_state s) as [b|];
      [|by apply elem_of_nil in He].
    destruct Hs as [|Hs]; [done|].
    apply list_elem_of_fmap in He as (k' & -> & Hk').
    apply elem_of_elements, elem_of_difference in Hk' as [_ Hk'].
    cbn. by intros ->.
Qed.

Lemma filter_alert_silent_while_low_witness :
  let keys := ["fltsts1"; "fltsts2"] in
  let st1 := sample_status [("fltsts1", VInt 10); ("flttotal1", VInt 100);
                            ("fltsts2", VInt 2400); ("flttotal2", VInt 2400)] in
  let st2 := sample_status [("fltsts1", VInt 9); ("flttotal1", VInt 100);
                            ("fltsts2", VInt 100); ("flttotal2", VInt 2400)] in
  let r := FilterAlert.updates sample_const sample_info keys [st1; st2; st2]
             new_sensor in
  map FilterAlert.ev_filter_key (FilterAlert.bus r.2) = ["fltsts2"] ∧
  FilterAlert.ha_state_writes r.2 = 3%nat.
Proof.
  intros keys st1 st2 r.
  destruct (filter_alert_silent_while_low sample_const sample_info keys "fltsts1"
              [st1; st2; st2] new_sensor) as (_ & Hwrites & _).
  - repeat apply Forall_cons_2; [| | |apply Forall_nil_2].
    + exists [("fltsts1", 10%Z)]. split; [reflexivity|]. apply elem_of_cons; by left.
    + exists [("fltsts1", 9%Z); ("fltsts2", 4%Z)]. split; [reflexivity|].
      apply elem_of_cons; by left.
    + exists [("fltsts1", 9%Z); ("fltsts2", 4%Z)]. split; [reflexivity|].
      apply elem_of_cons; by left.
  - by left.
  - split; [by vm_compute | exact Hwrites].
Defined.

(** X17. Filters a model rules out get no alert.  A filter listed in
    [UNAVAILABLE_FILTERS] by any class of the model's [__mro__] is not among
    the keys handed to the filter alert sensor, and that sensor never
    reports it low, whatever status arrives later.  The keys handed over are
    keys of [FILTER_TYPES] present in the status at setup. *)
Theorem unavailable_filters_never_tracked (c : const_py)
    (mro : list class_decl) (st : gmap string value)
    (cls : class_decl) (entries : list string) (f : string) :
  cls ∈ mro → UNAVAILABLE_FILTERS cls = Some entries → f ∈ entries →
  (f ∉ FilterAlert.available_filters c (Some mro) st) ∧
  (∀ st' low,
     FilterAlert._get_low_filters c (FilterAlert.available_filters c (Some mro) st) st'
       = Return low →
     dict_get low f = None) ∧
  (∀ g, g ∈ FilterAlert.available_filters c (Some mro) st →
        g ∈ dict_keys (FILTER_TYPES c) ∧ is_Some (st !! g)).
Proof.
  intros Hcls Hdecl Hf.
  assert (f ∉ FilterAlert.available_filters c (Some mro) st) as Hnot.
  { unfold FilterAlert.available_filters.
    intros [[_ Hun] _]%list_elem_of_filter. apply Hun.
    by apply (collect_list_accumulates _ _ cls entries). }
  split; [done|]. split.
  - intros st' low Hlow.
    destruct (low_loop_spec c st' _ [] low Hlow) as [_ Hkeys].
    destruct (Hkeys f) as [_ Hout]. by rewrite (Hout Hnot).
  - unfold FilterAlert.available_filters.
    intros g [[Hst _] Hg]%list_elem_of_filter. split; [done|].
    unfold status_has in Hst. by apply bool_decide_unpack in Hst.
Qed.

Lemma unavailable_filters_never_tracked_witness :
  let mro := [sample_no_prefilter; sample_PhilipsNew2GenericFan;
              PhilipsGenericFanBase_cls; PhilipsGenericControlBase;
              PhilipsEntity; object] in
  let st := sample_status [("fltsts0", VInt 3); ("fltsts1", VInt 10);
                           ("flttotal1", VInt 100)] in
  FilterAlert.available_filters sample_const (Some mro) st = ["fltsts1"] ∧
  FilterAlert.available_filters sample_const None st = ["fltsts0"; "fltsts1"] ∧
  "fltsts0" ∉ FilterAlert.available_filters sample_const (Some mro) st.
Proof.
  intros mro st. split; [by vm_compute|]. split; [by vm_compute|].
  apply (unavailable_filters_never_tracked sample_const mro st
           sample_no_prefilter ["fltsts0"] "fltsts0").
  - apply elem_of_cons; by left.
  - reflexivity.
  - apply elem_of_cons; by left.
Defined.

(** X18. Which plain binary sensors are created.  [async_setup_entry] creates
    a [PhilipsBinarySensor] for a kind exactly when the kind is a key of
    [BINARY_SENSOR_TYPES], is present in the status, and is listed in
    [AVAILABLE_BINARY_SENSORS] by some class of the model's [__mro__]; the
    sensors come in the order of [BINARY_SENSOR_TYPES], and a model missing
    from [model_to_class] gets none. *)
Theorem binary_sensors_created_iff (types : list string)
    (model_class : option (list class_decl)) (st : gmap string value) :
  binary_sensor_kinds types model_class st `sublist_of` types ∧
  (∀ kind,
     kind ∈ binary_sensor_kinds types model_class st ↔
     kind ∈ types ∧ is_Some (st !! kind) ∧
     ∃ mro cls entries,
       model_class = Some mro ∧ cls ∈ mro ∧
       AVAILABLE_BINARY_SENSORS cls = Some entries ∧ kind ∈ entries) ∧
  (model_class = None → binary_sensor_kinds types model_class st = []).
Proof.
  unfold binary_sensor_kinds. split; [apply sublist_filter|]. split.
  - intros kind. rewrite list_elem_of_filter. unfold status_has. split.
    + intros [[Hst Hav] Hin]. split; [done|].
      split; [by apply bool_decide_unpack in Hst|].
      destruct model_class as [mro|]; [|by apply elem_of_nil in Hav].
      apply collect_list_sound in Hav as (cls & entries & Hcls & Hdecl & Hk).
      by exists mro, cls, entries.
    + intros (Hin & Hst & mro & cls & entries & -> & Hcls & Hdecl & Hk).
      split; [|done]. split; [by apply bool_decide_pack|].
      by apply (collect_list_accumulates _ _ cls entries).
  - intros ->. induction types as [|t types IH]; [done|].
    rewrite filter_cons. rewrite decide_False; [done|].
    intros [_ H]. by apply elem_of_nil in H.
Qed.

(** ** More on the extra state attributes *)

Lemma append_shape st attributes key philips_key vm out :
  append st attributes key philips_key vm = Return out →
  (st !! partition_head "#" philips_key = None ∧ out = attributes) ∨
  (is_Some (st !! partition_head "#" philips_key) ∧
   ∃ v, out = dict_set attributes key v).
Proof.
  unfold append. destruct (st !! partition_head "#" philips_key) as [raw|].
  - destruct (match vm with
              | Some (MapDict m) => _
              | Some (MapCallable f) => _
              | None => _
              end) as [v|e]; [|done].
    intros [= <-]. right. split; [done|]. by exists v.
  - intros [= <-]. by left.
Qed.

Lemma extra_state_attributes_loop_app st acc l1 l2 :
  extra_state_attributes_loop st acc (l1 ++ l2) =
  match extra_state_attributes_loop st acc l1 with
  | Return d => extra_state_attributes_loop st d l2
  | Raise e => Raise e
  end.
Proof.
  revert acc. induction l1 as [|[[k pk] vm] l1 IH]; intros acc; [done|].
  cbn. by destruct (append st acc k pk vm).
Qed.

Lemma extra_state_attributes_loop_shown st l : ∀ acc out,
  extra_state_attributes_loop st acc l = Return out →
  (NoDup (dict_keys acc) → NoDup (dict_keys out)) ∧
  ∀ key,
    is_Some (dict_get out key) ↔
    is_Some (dict_get acc key) ∨
    ∃ pk vm, (key, pk, vm) ∈ l ∧ is_Some (st !! partition_head "#" pk).
Proof.
  induction l as [|[[k pk] vm] l IH]; intros acc out; cbn.
  - intros [= <-]. split; [done|]. intros key. split; [by left|].
    intros [H|(pk & vm & H%elem_of_nil & _)]; done.
  - destruct (append st acc k pk vm) as [d|e] eqn:Happ; [|done].
    intros Hrun. destruct (IH d out Hrun) as [Hnd Hshown].
    destruct (append_shape _ _ _ _ _ _ Happ) as [[Habs ->]|[Hpres [v ->]]].
    + split; [done|]. intros key. rewrite Hshown. split.
      * intros [H|(pk' & vm' & Hin & Hst)]; [by left|].
        right. exists pk', vm'. split; [apply elem_of_cons; by right | done].
      * intros [H|(pk' & vm' & Hin & Hst)]; [by left|].
        apply elem_of_cons in Hin as [[= -> -> ->]|Hin].
        -- rewrite Habs in Hst. by destruct Hst.
        -- right. by exists pk', vm'.
    + split; [intros H; by apply Hnd, dict_set_NoDup|].
      intros key. rewrite Hshown, dict_get_set. split.
      * intros [H|(pk' & vm' & Hin & Hst)].
        -- destruct (decide (k = key)) as [->|]; [|by left].
           right. exists pk, vm. split; [apply elem_of_cons; by left | done].
        -- right. exists pk', vm'. split; [apply elem_of_cons; by right | done].
      * intros [H|(pk' & vm' & Hin & Hst)].
        -- left. by destruct (decide (k = key)).
        -- apply elem_of_cons in Hin as [[= -> -> ->]|Hin].
           ++ left. by rewrite decide_True.
           ++ right. by exists pk', vm'.
Qed.

Lemma extra_state_attributes_loop_untouched st key l : ∀ acc out,
  extra_state_attributes_loop st acc l = Return out →
  (∀ pk vm, (key, pk, vm) ∈ l → st !! partition_head "#" pk = None) →
  dict_get out key = dict_get acc key.
Proof.
  induction l as [|[[k pk] vm] l IH]; intros acc out; cbn.
  - by intros [= <-].
  - destruct (append st acc k pk vm) as [d|e] eqn:Happ; [|done].
    intros Hrun Habs.
    rewrite (IH d out Hrun)
      by (intros pk' vm' Hin; apply (Habs pk' vm'), elem_of_cons; by right).
    destruct (decide (k = key)) as [->|Hne].
    + rewrite append_absent in Happ; [by injection Happ as <-|].
      apply (Habs pk vm), elem_of_cons. by left.
    + by apply (append_other_key _ _ _ _ _ _ _ Happ).
Qed.

(** X19. Which attributes are shown.  When the extraction returns, the
    display keys of the result are distinct, and a display key is present
    exactly when some declared entry under that key has its raw key, cut at
    the first ["#"], in the status.  Of several entries declared under one
    display key the last one whose raw key is in the status decides: for an
    entry without value map that is the raw status value, and later entries
    of the same display key that are absent from the status do not remove
    it. *)
Theorem attributes_shown (self : PhilipsGenericFanBase)
    (st : gmap string value) (out : dict value) :
  extra_state_attributes self st = Return out →
  NoDup (dict_keys out) ∧
  (∀ key,
     is_Some (dict_get out key) ↔
     ∃ pk vm, (key, pk, vm) ∈ _available_attributes self ∧
              is_Some (st !! partition_head "#" pk)) ∧
  (∀ before after key pk raw,
     _available_attributes self = before ++ (key, pk, None) :: after →
     st !! partition_head "#" pk = Some raw →
     (∀ pk' vm', (key, pk', vm') ∈ after → st !! partition_head "#" pk' = None) →
     dict_get out key = Some raw).
Proof.
  unfold extra_state_attributes. intros Hrun.
  destruct (extra_state_attributes_loop_shown st _ [] out Hrun) as [Hnd Hshown].
  split; [apply Hnd, NoDup_nil_2|]. split.
  - intros key. rewrite Hshown. split; [|by right].
    intros [[v H]|H]; [done|done].
  - intros before after key pk raw Hdecl Hraw Hafter.
    rewrite Hdecl, extra_state_attributes_loop_app in Hrun.
    destruct (extra_state_attributes_loop st [] before) as [d|e]; [|done].
    cbn in Hrun. unfold append at 1 in Hrun. rewrite Hraw in Hrun.
    rewrite (extra_state_attributes_loop_untouched st key after _ out Hrun Hafter).
    rewrite dict_get_set. by rewrite decide_True.
Qed.

Lemma attributes_shown_witness :
  let self :=
    PhilipsAC1214.self sample_const
      [("name", "name", None); ("type", "type#1", None); ("type", "modelid", None)] in
  let st := sample_status [("name", VStr "Living Room"); ("type", VStr "AC1214")] in
  ∃ out,
    extra_state_attributes self st = Return out ∧
    dict_get out "type" = Some (VStr "AC1214") ∧
    dict_keys out = ["name"; "type"].
Proof.
  intros self st.
  exists [("name", VStr "Living Room"); ("type", VStr "AC1214")].
  split; [by vm_compute|]. split; [|reflexivity].
  destruct (attributes_shown self st
              [("name", VStr "Living Room"); ("type", VStr "AC1214")])
    as (_ & _ & Hlast); [by vm_compute|].
  apply (Hlast [("name", "name", None); ("type", "type#1", None);
                ("type", "modelid", None); ("name", "name", None)]
               [("type", "modelid", None)] "type" "type#1").
  - by vm_compute.
  - by vm_compute.
  - intros pk' vm' [[= -> ->]|H%elem_of_nil]%elem_of_cons; [by vm_compute|done].
Defined.

Lemma partition_head_no_marker sep a :
  sep ∉ list_ascii_of_string a → partition_head sep a = a.
Proof.
  induction a as [|ch a IH]; [done|]. cbn [list_ascii_of_string partition_head].
  intros [Hne Ha]%not_elem_of_cons.
  destruct (decide (ch = sep)); [done|]. by rewrite IH.
Qed.

Lemma partition_head_marker sep a suffix :
  sep ∉ list_ascii_of_string a →
  partition_head sep (a +:+ String sep suffix) = a.
Proof.
  induction a as [|ch a IH]; cbn [list_ascii_of_string].
  - intros _. change ("" +:+ String sep suffix) with (String sep suffix).
    cbn [partition_head]. by destruct (decide (sep = sep)).
  - intros [Hne Ha]%not_elem_of_cons.
    change (String ch a +:+ String sep suffix)
      with (String ch (a +:+ String sep suffix)).
    cbn [partition_head]. destruct (decide (ch = sep)); [done|]. by rewrite IH.
Qed.

(** X20. The ["#"] marker of a raw key.  For a key [a] without ["#"], the
    raw keys [a] and [a#suffix], whatever the suffix, are both cut to [a],
    so an entry declared under [a#suffix] reads the status under [a]: it is
    left out when [a] is not in the status, and without value map it shows
    the value the status holds under [a]. *)
Theorem attribute_marker_ignored (st : gmap string value)
    (attributes : dict value) (key a suffix : string) (vm : option value_map) :
  "#"%char ∉ list_ascii_of_string a →
  partition_head "#" a = a ∧
  partition_head "#" (a +:+ String "#" suffix) = a ∧
  append st attributes key (a +:+ String "#" suffix) vm
    = append st attributes key a vm ∧
  (st !! a = None →
   append st attributes key (a +:+ String "#" suffix) vm = Return attributes) ∧
  (∀ raw, st !! a = Some raw →
     append st attributes key (a +:+ String "#" suffix) None
       = Return (dict_set attributes key raw)).
Proof.
  intros Ha.
  pose proof (partition_head_no_marker "#" a Ha) as Hplain.
  pose proof (partition_head_marker "#" a suffix Ha) as Hcut.
  split; [done|]. split; [done|]. unfold append. rewrite Hcut, Hplain.
  split; [done|]. split.
  - by intros ->.
  - by intros raw ->.
Qed.

Lemma attribute_marker_ignored_witness :
  let st := sample_status [("type", VStr "AC1214")] in
  partition_head "#" "type#1" = "type" ∧
  append st [] "type" "type#1" None = Return [("type", VStr "AC1214")].
Proof.
  intros st.
  destruct (attribute_marker_ignored st [] "type" "type" "1" None)
    as (_ & Hcut & _ & _ & Hshown).
  - vm_compute. intros H.
    repeat (apply elem_of_cons in H as [H|H]; [discriminate H|]).
    by apply elem_of_nil in H.
  - split; [exact Hcut|]. by apply (Hshown (VStr "AC1214")).
Defined.

(** ** More on the AC1214 *)

Lemma power_on_prefix_no_state_write c attrs on st :
  WriteHaState ∉ PhilipsAC1214.power_on_prefix c attrs on st.
Proof.
  unfold PhilipsAC1214.power_on_prefix.
  destruct (is_on _ st); [by intros H%elem_of_nil|].
  intros [H|[H|H%elem_of_nil]%elem_of_cons]%elem_of_cons; done.
Qed.

Lemma intermediate_no_state_write c attrs target st :
  WriteHaState ∉ PhilipsAC1214.intermediate c attrs target st.
Proof.
  unfold PhilipsAC1214.intermediate.
  destruct (PhilipsAC1214.projected_mode c attrs st) as [m|];
    [|by intros H%elem_of_nil].
  destruct (_ && _); [|by intros H%elem_of_nil].
  intros [H|[H|H%elem_of_nil]%elem_of_cons]%elem_of_cons; done.
Qed.

Section ac1214_store.
Variable c : const_py.
Variable attrs : list attribute.
Variable on : value.
Hypothesis names_distinct :
  NoDup [PresetMode_AUTO c; PresetMode_ALLERGEN c; PresetMode_NIGHT c;
         PresetMode_SPEED_1 c; PresetMode_SPEED_2 c; PresetMode_SPEED_3 c;
         PresetMode_TURBO c].
Hypothesis keys_distinct : PhilipsApi_MODE c ≠ PhilipsApi_SPEED c.
Hypothesis power_map : dict_get (PhilipsApi_POWER_MAP c) (SWITCH_ON c) = Some on.

Lemma ac1214_set_preset_mode_shape p w :
  ∃ calls,
    PhilipsAC1214.async_set_preset_mode c attrs p w =
    (Return tt, {| status := status w; trace := trace w ++ calls |}) ∧
    WriteHaState ∉ calls.
Proof.
  destruct (dict_get (_available_preset_modes (PhilipsAC1214.self c attrs)) p)
    as [pattern|] eqn:Hp.
  - rewrite (ac1214_set_preset_mode_run c attrs names_distinct keys_distinct
               on p pattern) by done.
    eexists. split; [reflexivity|].
    intros [H|[H|H]%elem_of_app]%elem_of_app.
    + by apply power_on_prefix_no_state_write in H.
    + by apply intermediate_no_state_write in H.
    + by apply list_elem_of_singleton in H.
  - unfold PhilipsAC1214.async_set_preset_mode. cbv [mbind state_exn_bind].
    rewrite (ensure_power_on_run c attrs on) by done. rewrite Hp.
    eexists. split; [reflexivity|]. apply power_on_prefix_no_state_write.
Qed.

Lemma ac1214_set_percentage_shape n w :
  n ≠ 0%Z →
  ∃ o calls,
    PhilipsAC1214.async_set_percentage c attrs n w =
    (o, {| status := status w; trace := trace w ++ calls |}) ∧
    WriteHaState ∉ calls.
Proof.
  intros Hn. unfold PhilipsAC1214.async_set_percentage. cbv [mbind state_exn_bind].
  rewrite (ensure_power_on_run c attrs on) by done.
  rewrite bool_decide_eq_false_2 by done. cbv [lift_outcome].
  destruct (percentage_to_ordered_list_item _ n) as [speed|e];
    [|eexists _, _; split; [reflexivity | apply power_on_prefix_no_state_write]].
  destruct (dict_get (_available_speeds (PhilipsAC1214.self c attrs)) speed)
    as [[|kv pattern]|];
    try (eexists _, _; split; [reflexivity | apply power_on_prefix_no_state_write]).
  rewrite ensure_mode_transition_run by done. run.
  eexists _, _. split; [by rewrite <- !app_assoc|].
  intros [H|[H|H]%elem_of_app]%elem_of_app.
  - by apply power_on_prefix_no_state_write in H.
  - by apply intermediate_no_state_write in H.
  - by apply list_elem_of_singleton in H.
Qed.

Lemma ac1214_turn_on_shape pct p w :
  ∃ o calls,
    PhilipsAC1214.async_turn_on c attrs pct p w =
    (o, {| status := status w; trace := trace w ++ calls |}) ∧
    WriteHaState ∉ calls.
Proof.
  unfold PhilipsAC1214.async_turn_on. cbv [mbind state_exn_bind].
  rewrite (ensure_power_on_run c attrs on) by done.
  set (w' := {| status := status w |}).
  assert (∀ (o' : outcome unit) calls,
            WriteHaState ∉ calls →
            ∃ o calls0,
              (o', {| status := status w'; trace := trace w' ++ calls |}) =
              (o, {| status := status w; trace := trace w ++ calls0 |}) ∧
              WriteHaState ∉ calls0) as Hglue.
  { intros o' calls Hcalls. eexists _, _. split.
    - cbn [w' status trace]. by rewrite <- app_assoc.
    - intros [H|H]%elem_of_app; [|done].
      by apply power_on_prefix_no_state_write in H. }
  assert (∃ (o : outcome unit) calls,
            (Return tt, w') = (o, {| status := status w; trace := trace w ++ calls |}) ∧
            WriteHaState ∉ calls) as Hnone.
  { eexists _, _. split; [reflexivity | apply power_on_prefix_no_state_write]. }
  assert (∀ n, n ≠ 0%Z →
            ∃ o calls,
              PhilipsAC1214.async_set_percentage c attrs n w' =
              (o, {| status := status w; trace := trace w ++ calls |}) ∧
              WriteHaState ∉ calls) as Hpct.
  { intros n Hn. destruct (ac1214_set_percentage_shape n w' Hn)
      as (o' & calls & -> & Hcalls). by apply Hglue. }
  destruct p as [[|a s]|].
  - destruct pct as [[|n|n]|]; [done|by apply Hpct..|done].
  - destruct (ac1214_set_preset_mode_shape (String a s) w') as (calls & -> & Hcalls).
    by apply Hglue.
  - destruct pct as [[|n|n]|]; [done|by apply Hpct..|done].
Qed.

End ac1214_store.

(** X21. The AC1214 overrides never touch the store.  Whatever the status
    and the arguments, [async_set_preset_mode], [async_set_percentage] with
    a percentage other than 0 and [async_turn_on] of the AC1214 leave the
    status store exactly as it was and never write the entity state; they
    only add client calls and settle delays to what was sent before.  The
    one exception is a percentage of 0: the device is switched on first if
    it is off, then the generic [async_turn_off] sends the power-off write,
    records it in the store and writes the state. *)
Theorem ac1214_overrides_leave_store (c : const_py) (attrs : list attribute)
    (on : value) (w : world) :
  NoDup [PresetMode_AUTO c; PresetMode_ALLERGEN c; PresetMode_NIGHT c;
         PresetMode_SPEED_1 c; PresetMode_SPEED_2 c; PresetMode_SPEED_3 c;
         PresetMode_TURBO c] →
  PhilipsApi_MODE c ≠ PhilipsApi_SPEED c →
  dict_get (PhilipsApi_POWER_MAP c) (SWITCH_ON c) = Some on →
  (∀ p, ∃ calls,
     (PhilipsAC1214.async_set_preset_mode c attrs p w).2 =
       {| status := status w; trace := trace w ++ calls |} ∧
     WriteHaState ∉ calls) ∧
  (∀ n, n ≠ 0%Z → ∃ calls,
     (PhilipsAC1214.async_set_percentage c attrs n w).2 =
       {| status := status w; trace := trace w ++ calls |} ∧
     WriteHaState ∉ calls) ∧
  (∀ pct p, ∃ calls,
     (PhilipsAC1214.async_turn_on c attrs pct p w).2 =
       {| status := status w; trace := trace w ++ calls |} ∧
     WriteHaState ∉ calls) ∧
  PhilipsAC1214.async_set_percentage c attrs 0 w =
    (Return tt,
     {| status := <[PhilipsApi_POWER c := VStr "0"]> (status w);
        trace := trace w ++ PhilipsAC1214.power_on_prefix c attrs on (status w)
                 ++ [SetControlValue (PhilipsApi_POWER c) (VStr "0");
                     WriteHaState] |}).
Proof.
  intros Hn Hk Hon. split; [|split; [|split]].
  - intros p. destruct (ac1214_set_preset_mode_shape c attrs on Hn Hk Hon p w)
      as (calls & -> & Hcalls). by exists calls.
  - intros n H0. destruct (ac1214_set_percentage_shape c attrs on Hn Hk Hon n w H0)
      as (o & calls & -> & Hcalls). by exists calls.
  - intros pct p. destruct (ac1214_turn_on_shape c attrs on Hn Hk Hon pct p w)
      as (o & calls & -> & Hcalls). by exists calls.
  - unfold PhilipsAC1214.async_set_percentage. cbv [mbind state_exn_bind].
    rewrite (ensure_power_on_run c attrs on) by done.
    rewrite bool_decide_eq_true_2 by done.
    rewrite async_turn_off_run. cbn. by rewrite <- app_assoc.
Qed.

Lemma ac1214_overrides_leave_store_witness :
  let off := sample_status [("pwr", VStr "0"); ("mode", VStr "P"); ("om", VStr "1")] in
  status (PhilipsAC1214.async_turn_on sample_const [] (Some 40%Z) None (start off)).2
    = off ∧
  trace (PhilipsAC1214.async_set_percentage sample_const [] 0 (start off)).2
    = [SetControlValue "pwr" (VStr "1"); Sleep 1;
       SetControlValue "pwr" (VStr "0"); WriteHaState].
Proof.
  intros off.
  destruct (ac1214_overrides_leave_store sample_const [] (VStr "1") (start off))
    as (_ & _ & Hon & Hzero).
  - apply (bool_decide_unpack _). by vm_compute.
  - done.
  - reflexivity.
  - split.
    + destruct (Hon (Some 40%Z) None) as (calls & -> & _). reflexivity.
    + rewrite Hzero. reflexivity.
Defined.

(** X22. When the AC1214 writes the target directly.  Setting a declared
    preset, or a percentage other than 0 that selects a declared speed,
    sends the target pattern right after the power-on prefix, with no
    allergen write in between, whenever the target mode is ["A"], or no
    preset is projected from the status, or the projected preset has mode
    ["M"]. *)
Theorem ac1214_direct_write (c : const_py) (attrs : list attribute)
    (on : value) (w : world) :
  NoDup [PresetMode_AUTO c; PresetMode_ALLERGEN c; PresetMode_NIGHT c;
         PresetMode_SPEED_1 c; PresetMode_SPEED_2 c; PresetMode_SPEED_3 c;
         PresetMode_TURBO c] →
  PhilipsApi_MODE c ≠ PhilipsApi_SPEED c →
  dict_get (PhilipsApi_POWER_MAP c) (SWITCH_ON c) = Some on →
  let self := PhilipsAC1214.self c attrs in
  let direct pattern :=
    default VNone (dict_get pattern (PhilipsApi_MODE c)) = VStr "A" ∨
    PhilipsAC1214.projected_mode c attrs (status w) = None ∨
    PhilipsAC1214.projected_mode c attrs (status w) = Some (VStr "M") in
  (∀ target pattern,
     dict_get (_available_preset_modes self) target = Some pattern →
     direct pattern →
     PhilipsAC1214.async_set_preset_mode c attrs target w =
     (Return tt,
      {| status := status w;
         trace := trace w ++ PhilipsAC1214.power_on_prefix c attrs on (status w)
                  ++ [SetControlValues pattern] |})) ∧
  (∀ n speed pattern,
     n ≠ 0%Z →
     percentage_to_ordered_list_item (_speeds self) n = Return speed →
     dict_get (_available_speeds self) speed = Some pattern →
     direct pattern →
     PhilipsAC1214.async_set_percentage c attrs n w =
     (Return tt,
      {| status := status w;
         trace := trace w ++ PhilipsAC1214.power_on_prefix c attrs on (status w)
                  ++ [SetControlValues pattern] |})).
Proof.
  intros Hn Hk Hon self direct.
  assert (∀ pattern, direct pattern →
            PhilipsAC1214.intermediate c attrs
              (default VNone (dict_get pattern (PhilipsApi_MODE c))) (status w) = [])
    as Hdirect.
  { intros pattern Hd. unfold PhilipsAC1214.intermediate.
    destruct Hd as [->|[->| ->]]; [|done|].
    - destruct (PhilipsAC1214.projected_mode c attrs (status w)); [|done].
      by rewrite bool_decide_eq_false_2 by (intros H; by apply H).
    - rewrite (bool_decide_eq_false_2 (VStr "M" ≠ VStr "M")) by (intros H; by apply H).
      by rewrite andb_false_r. }
  split.
  - intros target pattern Hp Hd.
    rewrite (ac1214_set_preset_mode_run c attrs Hn Hk on target pattern) by done.
    by rewrite (Hdirect pattern Hd).
  - intros n speed pattern H0 Hs Hp Hd.
    rewrite (ac1214_set_percentage_run c attrs Hn Hk on n speed pattern) by done.
    by rewrite (Hdirect pattern Hd).
Qed.

Lemma ac1214_direct_write_witness :
  let st := sample_status [("pwr", VStr "1"); ("mode", VStr "M"); ("om", VStr "1")] in
  preset_mode sample_ac1214 st = Some "speed 1" ∧
  trace (PhilipsAC1214.async_set_preset_mode sample_const [] "night" (start st)).2
    = [SetControlValues [("mode", VStr "N")]] ∧
  trace (PhilipsAC1214.async_set_percentage sample_const [] 100 (start st)).2
    = [SetControlValues [("mode", VStr "M"); ("om", VStr "t")]].
Proof.
  intros st.
  destruct (ac1214_direct_write sample_const [] (VStr "1") (start st))
    as [Hpreset Hpct].
  - apply (bool_decide_unpack _). by vm_compute.
  - done.
  - reflexivity.
  - split; [by vm_compute|]. split.
    + rewrite (Hpreset "night" [("mode", VStr "N")]); [reflexivity|reflexivity|].
      right; right. by vm_compute.
    + rewrite (Hpct 100%Z "turbo" [("mode", VStr "M"); ("om", VStr "t")]);
        [reflexivity|done|reflexivity|reflexivity|].
      right; right. by vm_compute.
Defined.
